(** * Sentinel public integrations: signed event router and delivery engine

    A shallow embedding of the TypeScript sources of the integration
    packages (webhook-relay and the Discord integrations) together with
    the properties of their delivery loop, header forwarding and inbound
    signature gate.

    Conventions of the embedding.
    - JavaScript numbers that the configuration declares as integers
      (attempt counts, milliseconds, HTTP statuses) are [Z].  The one
      place where the code leaves the integers is the backoff delay
      [baseDelayMs * Math.pow(2, attempt - 2)], which is a half-integer
      for [attempt = 1]; delays are exact rationals [Q] kept in lowest
      terms (a double represents these values exactly as long as it does
      not overflow).
    - Optional fields ([x?: T]) and [undefined] are [option]; [??] is
      [default]; truthiness of an optional string is [Js.truthy].
    - A [Record<string, string>] is a [gmap string string]: the own
      string-keyed properties of the object, without their insertion
      order; property names with a special meaning for objects (such as
      [__proto__]) are not considered.
    - Strings are byte strings; [toLowerCase] acts on the ASCII letters,
      which is all that a comparison with an ASCII prefix can observe.
    - Asynchronous I/O is made explicit: the remote side is an oracle
      [Network] giving, for every attempt number, how long the exchange
      takes and how it settles; every function that performs I/O returns
      its value together with the list of the effects it performed.
    - Timers are those of Node.js: [setTimeout] arms the delay it is
      given when that lies between 1 and 2147483647 ms and 1 ms
      otherwise, and a timer armed with [d] ms fires [d] ms later.  A
      wait is recorded with the delay handed to [sleep].
    - [JSON.parse(rawBody) as WebhookPayload] throws, yields [null], or
      yields a value that is read as an event envelope. *)

From Stdlib Require Import ZArith QArith Qpower Ascii List Lia Lqa.
From stdpp Require Import base strings gmap pretty.

Local Open Scope Z_scope.

(** ** JavaScript runtime notions used by the sources *)

Module Js.

(** [if (s)] / [!s] for a value of type [string | undefined]. *)
Definition truthy (s : option string) : bool :=
  match s with
  | Some (String _ _) => true
  | _ => false
  end.

(** [if (n)] for a value of type [number | undefined] (integers). *)
Definition truthyNum (n : option Z) : bool :=
  match n with
  | Some k => negb (k =? 0)
  | None => false
  end.

(** [${n}] for an integer-valued number. *)
Definition show (n : Z) : string := pretty n.

(** [${s}] for a value of type [string | undefined]. *)
Definition showOpt (s : option string) : string := default "undefined" s.

Definition lowerChar (c : ascii) : ascii :=
  let n := N_of_ascii c in
  if ((65 <=? n) && (n <=? 90))%N then ascii_of_N (n + 32) else c.

(** [s.toLowerCase()], on the ASCII letters. *)
Fixpoint toLowerCase (s : string) : string :=
  match s with
  | EmptyString => EmptyString
  | String c rest => String (lowerChar c) (toLowerCase rest)
  end.

(** [s.startsWith(p)]. *)
Definition startsWith (s p : string) : bool := String.prefix p s.

(** [response.ok]. *)
Definition ok (status : Z) : bool := (200 <=? status) && (status <=? 299).

(** A value caught by [catch (err)]: an [Error] with its [name] and
    [message], or something that is not [instanceof Error]. *)
Inductive Thrown : Type :=
| JsError (name message : string)
| NotAnError.

(** What reading the property [property] of [null] throws (the text is
    the one of V8). *)
Definition nullRead (property : string) : Thrown :=
  JsError "TypeError" ("Cannot read properties of null (reading '" +:+ property +:+ "')").

(** JSON values, for the parts of a payload the integrations only pass
  along. *)
#[local] Unset Elimination Schemes.
Inductive Json : Type :=
| JNull
| JBool (b : bool)
| JNum (n : Z)
| JStr (s : string)
| JArr (items : list Json)
| JObj (fields : list (string * Json)).
#[local] Set Elimination Schemes.

(** The outcome of an [async] function that may reject. *)
Inductive Completion (A : Type) : Type :=
| Returned (a : A)
| Threw (e : Thrown).
Arguments Returned {A} a.
Arguments Threw {A} e.

End Js.

(** ** The remote endpoint and the effects of a delivery *)

Module Net.

(** How [await fetch(...)] settles when nothing aborts it: a response
    with its status and body text ([None] when [response.text()]
    rejects), or a rejection. *)
Inductive Settled : Type :=
| Responded (status : Z) (text : option string)
| Rejected (e : Js.Thrown).

(** One exchange with the remote: the time in milliseconds after which
    the request settles by itself, and how. *)
Record Exchange : Type := {
  latency : Z;
  settled : Settled
}.

(** The remote side: the exchange that attempt number [n] meets. *)
Definition Network : Type := Z -> Exchange.

(** Effects, in program order.  [B] is the type of request bodies. *)
Inductive Event (B : Type) : Type :=
| EvParse (rawBody : string)
| EvFetch (attempt : Z) (url : string) (headers : gmap string string) (body : B)
| EvSleep (ms : Q).
Arguments EvParse {B} rawBody.
Arguments EvFetch {B} attempt url headers body.
Arguments EvSleep {B} ms.

Definition isSleep {B} (e : Event B) : bool :=
  match e with EvSleep _ => true | _ => false end.

Definition isFetch {B} (e : Event B) : bool :=
  match e with EvFetch _ _ _ _ => true | _ => false end.

(** Number of [await sleep(_)] performed, number of requests issued. *)
Definition waits {B} (tr : list (Event B)) : nat := length (List.filter isSleep tr).
Definition requests {B} (tr : list (Event B)) : nat := length (List.filter isFetch tr).

(** [fetch] without an abort signal: the exchange runs to its end. *)
Definition fetch (x : Exchange) : Settled := settled x.

(** The delay [setTimeout(f, ms)] arms its timer with, for an integer
    [ms]: the runtime (Node.js) takes 1 ms when [ms] is below 1 or above
    2147483647, the largest delay a timer holds. *)
Definition timerDelay (ms : Z) : Z :=
  if (1 <=? ms) && (ms <=? 2147483647) then ms else 1.

(** [fetch] with [signal: controller.signal] where
    [setTimeout(() => controller.abort(), timeoutMs)] was armed just
    before: a timer armed with delay [d] fires [d] ms later, and when it
    fires before the exchange settles the pending [fetch] rejects with
    an [AbortError].  The controller and the timer are created inside
    the attempt, so a timer can only abort the request of its own
    attempt. *)
Definition fetchWithTimeout (timeoutMs : Z) (x : Exchange) : Settled :=
  if timerDelay timeoutMs <? latency x
  then Rejected (Js.JsError "AbortError" "This operation was aborted")
  else settled x.

(** [baseDelayMs * Math.pow(2, attempt - 2)]. *)
Definition backoffDelay (baseDelayMs attempt : Z) : Q :=
  Qred (inject_Z baseDelayMs * Qpower 2 (attempt - 2)).

(** [delay > 0]. *)
Definition positive (delay : Q) : bool := negb (Qle_bool delay 0).

(** The block that ends every iteration of the retry loops:
<<
    if (attempt < maxAttempts) {
      const delay = baseDelayMs * Math.pow(2, attempt - 2);
      if (delay > 0) { await sleep(delay); }
    }
>> *)
Definition backoff {B} (maxAttempts baseDelayMs attempt : Z) : list (Event B) :=
  if attempt <? maxAttempts then
    let delay := backoffDelay baseDelayMs attempt in
    if positive delay then [EvSleep delay] else []
  else [].

(** [function shouldRetry(status)], the same text in every file that
    has it. *)
Definition shouldRetry (status : Z) : bool := (status =? 429) || (500 <=? status).

(** [`HTTP ${response.status}: ${text}`] with
    [text = await response.text().catch(() => 'Unknown error')]. *)
Definition httpError (status : Z) (text : option string) : string :=
  "HTTP " +:+ Js.show status +:+ ": " +:+ default "Unknown error" text.

End Net.

(** ** The integration SDK, as far as the integrations use it

    [@sentinel-unturned/integration-sdk] is a dependency of the
    integrations; its sources are not part of them. *)

Module Sdk.
Import Net.

(** [WebhookPayload], with the fields the integrations read. *)
Record WebhookPayload : Type := {
  event : string;
  timestamp : string;
  organizationId : string;
  userId : option string;
  data : Js.Json
}.

Record WebhookResponse : Type := {
  ok : bool;
  message : string
}.

(** What [JSON.parse(rawBody) as WebhookPayload] is at run time when
    [JSON.parse] returns: the value [null], of which no property can be
    read, or a value that is read through the type [WebhookPayload], as
    the cast of the sources has it (Sentinel sends event envelopes; a
    body that decodes to anything else than [null] or an envelope is not
    represented). *)
Inductive Decoded : Type :=
| DNull
| DPayload (payload : WebhookPayload).

(** Modelled from the spec: [successResponse] of the SDK is not in the
    sources; a skip or a completed delivery is reported as
    [{ok: true, message}]. *)
Definition successResponse (message : string) : WebhookResponse :=
  {| ok := true; message := message |}.

(** Modelled from the spec: [errorResponse] of the SDK is not in the
    sources; a rejection or a failed delivery is reported as
    [{ok: false, message}]. *)
Definition errorResponse (message : string) : WebhookResponse :=
  {| ok := false; message := message |}.

(** The collaborators whose code is outside the integrations, taken as
    parameters: the HMAC check [verifyWebhookSignature(rawBody, signature,
    secret)] and the glob match [matchesPattern(event, pattern)] of the
    SDK, and [JSON.parse(rawBody) as WebhookPayload] ([Threw] when the
    body is not JSON, [DNull] when it is the JSON text [null]). *)
Class Externals : Type := {
  verifyWebhookSignature : string -> string -> string -> bool;
  matchesPattern : string -> string -> bool;
  JSON_parse : string -> Js.Completion Decoded
}.

(** Modelled from the spec: [matchesPattern] of the SDK is not in the
    sources; a pattern ending in [*] matches every event that starts with
    the text before the [*], any other pattern matches only itself. *)
Definition matchesPatternSpec (event pattern : string) : bool :=
  match String.length pattern with
  | O => String.eqb event pattern
  | S n =>
      if String.eqb (String.substring n 1 pattern) "*"
      then String.prefix (String.substring 0 n pattern) event
      else String.eqb event pattern
  end.

(** An event handler registered with the router: its response (or the
    fault it raises) and the effects it performed. *)
Definition Handler (B : Type) : Type :=
  WebhookPayload -> Js.Completion WebhookResponse * list (Event B).

Definition describe (e : Js.Thrown) : string :=
  match e with
  | Js.JsError _ message => message
  | Js.NotAnError => "Unknown error"
  end.

(** Modelled from the spec: [createWebhookRouter] of the SDK is not in
    the sources; it looks the event kind up in the registry (exact match),
    runs the one handler found and passes its response on, turns a fault
    of the handler into a failed response, and answers an unregistered
    kind with a successful response.  The event kind is read from the
    payload before a handler is chosen, so on [null] the read throws. *)
Definition createWebhookRouter {B} (registry : gmap string (Handler B))
    : Decoded -> Js.Completion WebhookResponse * list (Event B) :=
  fun decoded =>
    match decoded with
    | DNull => (Js.Threw (Js.nullRead "event"), [])
    | DPayload payload =>
        match registry !! event payload with
        | Some handler =>
            match handler payload with
            | (Js.Returned response, tr) => (Js.Returned response, tr)
            | (Js.Threw e, tr) => (Js.Returned (errorResponse (describe e)), tr)
            end
        | None =>
            (Js.Returned
               (successResponse ("No handler registered for event: " +:+ event payload)),
             [])
        end
    end.

End Sdk.

(** ** webhook-relay: [types.ts] *)

Module RelayTypes.

(** [targetUrl] is declared [string]; the handler tests it with [!url],
    so the value read from the manifest may be missing. *)
Record IntegrationConfig : Type := {
  targetUrl : option string;
  eventPatterns : option (list string);
  customHeaders : option (gmap string string);
  includeOriginalHeaders : option bool;
  transformPayload : option bool;
  maxRetries : option Z;
  retryDelayMs : option Z;
  timeoutMs : option Z;
  secretHeader : option string;
  secretValue : option string
}.

Record HandlerContext : Type := {
  config : IntegrationConfig;
  webhookSecret : option string
}.

Record PayloadEnvelope : Type := {
  source : string;
  event : string;
  timestamp : string;
  organizationId : string;
  userId : option string;
  data : Js.Json
}.

End RelayTypes.

(** ** webhook-relay: [relay.ts] *)

Module Relay.
Import Net.

Section Pure.
Context {E : Sdk.Externals}.

Definition matchesEventPatterns (event : string) (patterns : option (list string)) : bool :=
  match patterns with
  | None => true
  | Some [] => true
  | Some patterns => existsb (fun pattern => Sdk.matchesPattern event pattern) patterns
  end.

End Pure.

(** [for (const [key, value] of Object.entries(originalHeaders))
       if (key.toLowerCase().startsWith('x-sentinel-')) headers[key] = value] *)
Definition forwardSentinel (originalHeaders headers : gmap string string)
    : gmap string string :=
  map_fold
    (fun key value acc =>
       if Js.startsWith (Js.toLowerCase key) "x-sentinel-"
       then <[key := value]> acc else acc)
    headers originalHeaders.

(** [for (const [key, value] of Object.entries(custom)) headers[key] = value] *)
Definition addAll (custom headers : gmap string string) : gmap string string :=
  map_fold (fun key value acc => <[key := value]> acc) headers custom.

Definition buildRelayHeaders (originalHeaders : gmap string string)
    (config : RelayTypes.IntegrationConfig) : gmap string string :=
  let headers : gmap string string := {[ "Content-Type" := "application/json" ]} in
  let headers :=
    if default true (RelayTypes.includeOriginalHeaders config)
    then forwardSentinel originalHeaders headers
    else headers in
  let headers :=
    match RelayTypes.customHeaders config with
    | Some custom => addAll custom headers
    | None => headers
    end in
  match RelayTypes.secretHeader config, RelayTypes.secretValue config with
  | Some secretHeader, Some secretValue =>
      if Js.truthy (Some secretHeader) && Js.truthy (Some secretValue)
      then <[secretHeader := secretValue]> headers
      else headers
  | _, _ => headers
  end.

(** The value handed to [JSON.stringify]: the payload itself or the
    envelope built from it. *)
Inductive RelayBody : Type :=
| Plain (payload : Sdk.WebhookPayload)
| Enveloped (envelope : RelayTypes.PayloadEnvelope).

Definition transformPayload (payload : Sdk.WebhookPayload) (transform : bool)
    : RelayBody :=
  if negb transform then Plain payload
  else
    Enveloped
      {| RelayTypes.source := "sentinel";
         RelayTypes.event := Sdk.event payload;
         RelayTypes.timestamp := Sdk.timestamp payload;
         RelayTypes.organizationId := Sdk.organizationId payload;
         RelayTypes.userId := Sdk.userId payload;
         RelayTypes.data := Sdk.data payload |}.

Record RelayOptions : Type := {
  maxAttempts : option Z;
  baseDelayMs : option Z;
  timeoutMs : option Z
}.

Record RelayResult : Type := {
  success : bool;
  error : option string;
  attempts : Z;
  statusCode : option Z
}.

(** What one pass through the [try]/[catch] of the loop body does: leave
    the function with a result, or fall through to the backoff block with
    the updated [lastError] and [lastStatusCode]. *)
Inductive Step : Type :=
| Return (r : RelayResult)
| Continue (lastError : string) (lastStatusCode : option Z).

Section Loop.
Context {B : Type}.
Variable net : Network.
Variable url : string.
Variable body : B.
Variable headers : gmap string string.
Variables maxAttemptsV baseDelayMsV timeoutMsV : Z.

(** The [catch (err)] block: the text that becomes [lastError]. *)
Definition caught (err : Js.Thrown) : string :=
  match err with
  | Js.JsError name message =>
      if String.eqb name "AbortError"
      then "Request timeout (" +:+ Js.show timeoutMsV +:+ "ms)"
      else message
  | Js.NotAnError => "Unknown error"
  end.

Definition attemptOnce (attempt : Z) (lastStatusCode : option Z) : Step :=
  match fetchWithTimeout timeoutMsV (net attempt) with
  | Responded status text =>
      if Js.ok status then
        Return {| success := true; error := None;
                  attempts := attempt; statusCode := Some status |}
      else
        let lastError := httpError status text in
        if negb (shouldRetry status) then
          Return {| success := false; error := Some lastError;
                    attempts := attempt; statusCode := Some status |}
        else Continue lastError (Some status)
  | Rejected err => Continue (caught err) lastStatusCode
  end.

(** [for (let attempt = 1; attempt <= maxAttempts; attempt++)]:
    [remaining] counts the iterations still to run, so the loop is entered
    with [remaining = Z.to_nat maxAttempts] and [attempt = 1]; the case
    [O] is the code after the loop. *)
Fixpoint attemptLoop (remaining : nat) (attempt : Z)
    (lastError : string) (lastStatusCode : option Z)
    : RelayResult * list (Event B) :=
  match remaining with
  | O =>
      ({| success := false; error := Some lastError;
          attempts := maxAttemptsV; statusCode := lastStatusCode |}, [])
  | S remaining' =>
      match attemptOnce attempt lastStatusCode with
      | Return r => (r, [EvFetch attempt url headers body])
      | Continue lastError' lastStatusCode' =>
          let '(r, tr) :=
            attemptLoop remaining' (attempt + 1) lastError' lastStatusCode' in
          (r, EvFetch attempt url headers body
                :: backoff maxAttemptsV baseDelayMsV attempt ++ tr)
      end
  end.

End Loop.

(** [options?.maxAttempts ?? 3], [options?.baseDelayMs ?? 1000] and
    [options?.timeoutMs ?? 30000]. *)
Definition maxAttemptsOf (options : option RelayOptions) : Z :=
  default 3 (options ≫= maxAttempts).

Definition baseDelayMsOf (options : option RelayOptions) : Z :=
  default 1000 (options ≫= baseDelayMs).

Definition timeoutMsOf (options : option RelayOptions) : Z :=
  default 30000 (options ≫= timeoutMs).

Definition sendRelayRequest {B} (net : Network) (url : string) (body : B)
    (headers : gmap string string) (options : option RelayOptions)
    : RelayResult * list (Event B) :=
  let maxAttempts := maxAttemptsOf options in
  let baseDelayMs := baseDelayMsOf options in
  let timeoutMs := timeoutMsOf options in
  attemptLoop net url body headers maxAttempts baseDelayMs timeoutMs
    (Z.to_nat maxAttempts) 1 "" None.

End Relay.

(** ** webhook-relay: [handler.ts] *)

Module RelayHandler.
Import Net Sdk.

Definition formatSuccessMessage (result : Relay.RelayResult) : string :=
  let base :=
    "Relayed to " +:+
    (if Js.truthyNum (Relay.statusCode result)
     then "(" +:+ Js.show (default 0 (Relay.statusCode result)) +:+ ")"
     else "target") in
  if 1 <? Relay.attempts result
  then base +:+ " (" +:+ Js.show (Relay.attempts result) +:+ " attempts)"
  else base.

Definition formatErrorMessage (result : Relay.RelayResult) : string :=
  "Relay failed after " +:+ Js.show (Relay.attempts result) +:+ " attempt" +:+
  (if negb (Relay.attempts result =? 1) then "s" else "") +:+ ": " +:+
  Js.showOpt (Relay.error result).

Section Handler.
Context {E : Externals}.
Variable ctx : RelayTypes.HandlerContext.
Variable net : Network.

(** What [handleWebhook] does once the signature block is passed.  The
    first read of the payload is [payload.event], the argument of the
    pattern check, after the test of the target URL; on [null] this read
    throws. *)
Definition relay (rawBody : string) (headers : gmap string string)
    : Js.Completion WebhookResponse * list (Event Relay.RelayBody) :=
  match JSON_parse rawBody with
  | Js.Threw e => (Js.Threw e, [EvParse rawBody])
  | Js.Returned decoded =>
      let config := RelayTypes.config ctx in
      let url := RelayTypes.targetUrl config in
      if negb (Js.truthy url) then
        (Js.Returned (successResponse "Target URL not configured, skipping"),
         [EvParse rawBody])
      else
        match decoded with
        | DNull => (Js.Threw (Js.nullRead "event"), [EvParse rawBody])
        | DPayload payload =>
            if negb (Relay.matchesEventPatterns (event payload)
                       (RelayTypes.eventPatterns config)) then
              (Js.Returned
                 (successResponse
                    ("Event '" +:+ event payload
                       +:+ "' does not match patterns, skipping")),
               [EvParse rawBody])
            else
              let relayHeaders := Relay.buildRelayHeaders headers config in
              let relayBody :=
                Relay.transformPayload payload
                  (default false (RelayTypes.transformPayload config)) in
              let '(result, tr) :=
                Relay.sendRelayRequest net (default "" url) relayBody relayHeaders
                  (Some {| Relay.maxAttempts :=
                             Some (default 3 (RelayTypes.maxRetries config));
                           Relay.baseDelayMs :=
                             Some (default 1000 (RelayTypes.retryDelayMs config));
                           Relay.timeoutMs :=
                             Some (default 30000 (RelayTypes.timeoutMs config)) |}) in
              (Js.Returned
                 (if negb (Relay.success result)
                  then errorResponse (formatErrorMessage result)
                  else successResponse (formatSuccessMessage result)),
               EvParse rawBody :: tr)
        end
  end.

Definition handleWebhook (rawBody : string) (headers : gmap string string)
    : Js.Completion WebhookResponse * list (Event Relay.RelayBody) :=
  if Js.truthy (RelayTypes.webhookSecret ctx) then
    let signature := headers !! "x-sentinel-signature" in
    if negb (Js.truthy signature) then
      (Js.Returned (errorResponse "Missing signature header"), [])
    else if negb (verifyWebhookSignature rawBody (default "" signature)
                    (default "" (RelayTypes.webhookSecret ctx))) then
      (Js.Returned (errorResponse "Invalid signature"), [])
    else relay rawBody headers
  else relay rawBody headers.

End Handler.

Definition createHandler {E : Externals} (ctx : RelayTypes.HandlerContext) (net : Network) :=
  handleWebhook ctx net.

End RelayHandler.

(** ** The Discord integrations: [sendDiscordWebhook] with retries

    chat-bridge, player-activity, server-status and the retrying
    moderation-webhooks [discord.ts] carry the same text of this
    function. *)

Module Discord.
Import Net.

Record RetryOptions : Type := {
  maxAttempts : option Z;
  baseDelayMs : option Z
}.

Record WebhookResult : Type := {
  success : bool;
  error : option string;
  attempts : Z
}.

Inductive Step : Type :=
| Return (r : WebhookResult)
| Continue (lastError : string).

(** [headers: { 'Content-Type': 'application/json' }] *)
Definition jsonHeaders : gmap string string :=
  {[ "Content-Type" := "application/json" ]}.

(** [err instanceof Error ? err.message : 'Unknown error'] *)
Definition caught (err : Js.Thrown) : string :=
  match err with
  | Js.JsError _ message => message
  | Js.NotAnError => "Unknown error"
  end.

Section Loop.
Context {P : Type}.
Variable net : Network.
Variable url : string.
Variable payload : P.
Variables maxAttemptsV baseDelayMsV : Z.

Definition attemptOnce (attempt : Z) : Step :=
  match fetch (net attempt) with
  | Responded status text =>
      if Js.ok status then
        Return {| success := true; error := None; attempts := attempt |}
      else
        let lastError := httpError status text in
        if negb (shouldRetry status) then
          Return {| success := false; error := Some lastError; attempts := attempt |}
        else Continue lastError
  | Rejected err => Continue (caught err)
  end.

Fixpoint attemptLoop (remaining : nat) (attempt : Z) (lastError : string)
    : WebhookResult * list (Event P) :=
  match remaining with
  | O =>
      ({| success := false; error := Some lastError; attempts := maxAttemptsV |}, [])
  | S remaining' =>
      match attemptOnce attempt with
      | Return r => (r, [EvFetch attempt url jsonHeaders payload])
      | Continue lastError' =>
          let '(r, tr) := attemptLoop remaining' (attempt + 1) lastError' in
          (r, EvFetch attempt url jsonHeaders payload
                :: backoff maxAttemptsV baseDelayMsV attempt ++ tr)
      end
  end.

End Loop.

(** [options?.maxAttempts ?? 3] and [options?.baseDelayMs ?? 1000]. *)
Definition maxAttemptsOf (options : option RetryOptions) : Z :=
  default 3 (options ≫= maxAttempts).

Definition baseDelayMsOf (options : option RetryOptions) : Z :=
  default 1000 (options ≫= baseDelayMs).

Definition sendDiscordWebhook {P} (net : Network) (url : string) (payload : P)
    (options : option RetryOptions) : WebhookResult * list (Event P) :=
  let maxAttempts := maxAttemptsOf options in
  let baseDelayMs := baseDelayMsOf options in
  attemptLoop net url payload maxAttempts baseDelayMs (Z.to_nat maxAttempts) 1 "".

End Discord.

(** ** moderation-webhooks, the [discord.ts] without retries

    The variant of [sendDiscordWebhook] that takes no options, issues one
    request and reports only [success] and [error]. *)

Module DiscordOnce.
Import Net.

Record SendResult : Type := {
  success : bool;
  error : option string
}.

Definition sendDiscordWebhook {P} (net : Network) (url : string) (payload : P)
    : SendResult * list (Event P) :=
  (match fetch (net 1) with
   | Responded status text =>
       if negb (Js.ok status)
       then {| success := false; error := Some (httpError status text) |}
       else {| success := true; error := None |}
   | Rejected err => {| success := false; error := Some (Discord.caught err) |}
   end,
   [EvFetch 1 url Discord.jsonHeaders payload]).

End DiscordOnce.

(** ** The Discord integrations: [handler.ts]

    [handleWebhook] has the same text in chat-bridge, player-activity,
    server-status and both moderation-webhooks handlers; the integrations
    differ in the [router] the closure captures. *)

Module DiscordHandler.
Import Net Sdk.

Section Handler.
Context {E : Externals} {P : Type}.
Variable webhookSecret : option string.
Variable router : Decoded -> Js.Completion WebhookResponse * list (Event P).

Definition parseAndRoute (rawBody : string)
    : Js.Completion WebhookResponse * list (Event P) :=
  match JSON_parse rawBody with
  | Js.Threw e => (Js.Threw e, [EvParse rawBody])
  | Js.Returned decoded =>
      let '(response, tr) := router decoded in
      (response, EvParse rawBody :: tr)
  end.

Definition handleWebhook (rawBody : string) (headers : gmap string string)
    : Js.Completion WebhookResponse * list (Event P) :=
  if Js.truthy webhookSecret then
    let signature := headers !! "x-sentinel-signature" in
    if negb (Js.truthy signature) then
      (Js.Returned (errorResponse "Missing signature header"), [])
    else if negb (verifyWebhookSignature rawBody (default "" signature)
                    (default "" webhookSecret)) then
      (Js.Returned (errorResponse "Invalid signature"), [])
    else parseAndRoute rawBody
  else parseAndRoute rawBody.

End Handler.

(** [formatSuccessMessage] and [formatErrorMessage], the same text in the
    handlers that report attempts. *)
Definition formatSuccessMessage (result : Discord.WebhookResult) : string :=
  if 1 <? Discord.attempts result
  then "Sent to Discord (" +:+ Js.show (Discord.attempts result) +:+ " attempts)"
  else "Sent to Discord".

Definition formatErrorMessage (result : Discord.WebhookResult) : string :=
  "Discord webhook failed after " +:+ Js.show (Discord.attempts result) +:+
  " attempt" +:+ (if negb (Discord.attempts result =? 1) then "s" else "") +:+
  ": " +:+ Js.showOpt (Discord.error result).

(** The tail shared by every registered handler:
<<
      const result = await sendDiscordWebhook(url, embed);
      if (!result.success) return errorResponse(formatErrorMessage(result));
      return successResponse(formatSuccessMessage(result));
>> *)
Definition sendAndReport {P} (net : Network) (url : string) (embed : P)
    : Js.Completion WebhookResponse * list (Event P) :=
  let '(result, tr) := Discord.sendDiscordWebhook net url embed None in
  (Js.Returned
     (if negb (Discord.success result)
      then errorResponse (formatErrorMessage result)
      else successResponse (formatSuccessMessage result)),
   tr).

End DiscordHandler.

(** ** discord-server-status: [types.ts] and [handler.ts] *)

Module ServerStatus.
Import Net Sdk.

Record IntegrationConfig : Type := {
  webhookUrl : option string;
  notifyOnConnect : option bool;
  notifyOnDisconnect : option bool;
  notifyOnPlayerCountChange : option bool;
  playerCountThreshold : option Z;
  onlineColor : option Z;
  offlineColor : option Z;
  updateColor : option Z;
  showServerAddress : option bool;
  showMap : option bool
}.

Record HandlerContext : Type := {
  config : IntegrationConfig;
  webhookSecret : option string
}.

(** The event names of the SDK ([EVENTS.GAMESERVER.*]) and the embed
    builders of [discord.ts], which only format text, are parameters. *)
Class Collaborators (Embed : Type) : Type := {
  GAMESERVER_CONNECTED : string;
  GAMESERVER_DISCONNECTED : string;
  GAMESERVER_UPDATED : string;
  buildServerConnectedEmbed : Js.Json -> IntegrationConfig -> Embed;
  buildServerDisconnectedEmbed : Js.Json -> IntegrationConfig -> Embed;
  buildServerUpdatedEmbed : Js.Json -> IntegrationConfig -> Embed
}.

Section Handler.
Context {E : Externals} {Embed : Type} {C : Collaborators Embed}.
Variable ctx : HandlerContext.
Variable net : Network.

Definition onConnected : Handler Embed := fun payload =>
  let url := webhookUrl (config ctx) in
  if negb (Js.truthy url) then
    (Js.Returned (successResponse "Webhook URL not configured, skipping"), [])
  else if negb (default true (notifyOnConnect (config ctx))) then
    (Js.Returned (successResponse "Connect notifications disabled, skipping"), [])
  else
    DiscordHandler.sendAndReport net (default "" url)
      (buildServerConnectedEmbed (data payload) (config ctx)).

Definition onDisconnected : Handler Embed := fun payload =>
  let url := webhookUrl (config ctx) in
  if negb (Js.truthy url) then
    (Js.Returned (successResponse "Webhook URL not configured, skipping"), [])
  else if negb (default true (notifyOnDisconnect (config ctx))) then
    (Js.Returned (successResponse "Disconnect notifications disabled, skipping"), [])
  else
    DiscordHandler.sendAndReport net (default "" url)
      (buildServerDisconnectedEmbed (data payload) (config ctx)).

Definition onUpdated : Handler Embed := fun payload =>
  let url := webhookUrl (config ctx) in
  if negb (Js.truthy url) then
    (Js.Returned (successResponse "Webhook URL not configured, skipping"), [])
  else if negb (default false (notifyOnPlayerCountChange (config ctx))) then
    (Js.Returned (successResponse "Update notifications disabled, skipping"), [])
  else
    DiscordHandler.sendAndReport net (default "" url)
      (buildServerUpdatedEmbed (data payload) (config ctx)).

(** The object literal of [createHandler]: a later key replaces an
    earlier equal one. *)
Definition registry : gmap string (Handler Embed) :=
  <[GAMESERVER_UPDATED := onUpdated]>
    (<[GAMESERVER_DISCONNECTED := onDisconnected]>
       {[ GAMESERVER_CONNECTED := onConnected ]}).

Definition createHandler (rawBody : string) (headers : gmap string string)
    : Js.Completion WebhookResponse * list (Event Embed) :=
  DiscordHandler.handleWebhook (webhookSecret ctx) (createWebhookRouter registry)
    rawBody headers.

End Handler.

End ServerStatus.

(** ** discord-moderation-webhooks: [types.ts] and [handler.ts] *)

Module Moderation.
Import Net Sdk.

Record IntegrationConfig : Type := {
  banCreatedWebhookUrl : option string;
  banRemovedWebhookUrl : option string;
  kickCreatedWebhookUrl : option string;
  warnCreatedWebhookUrl : option string;
  muteCreatedWebhookUrl : option string;
  muteRemovedWebhookUrl : option string
}.

Record HandlerContext : Type := {
  config : IntegrationConfig;
  webhookSecret : option string
}.

(** The event names of the SDK ([EVENTS.MODERATION.*]) and the embed
    builders of [discord.ts] are parameters. *)
Class Collaborators (Embed : Type) : Type := {
  BAN_CREATED : string;
  BAN_REMOVED : string;
  KICK_CREATED : string;
  WARN_CREATED : string;
  MUTE_CREATED : string;
  MUTE_REMOVED : string;
  buildBanCreatedEmbed : Js.Json -> Embed;
  buildBanRemovedEmbed : Js.Json -> Embed;
  buildKickCreatedEmbed : Js.Json -> Embed;
  buildWarnCreatedEmbed : Js.Json -> Embed;
  buildMuteCreatedEmbed : Js.Json -> Embed;
  buildMuteRemovedEmbed : Js.Json -> Embed
}.

Section Handler.
Context {E : Externals} {Embed : Type} {C : Collaborators Embed}.
Variable ctx : HandlerContext.
Variable net : Network.

(** The six registered handlers have one text, up to the configuration
    field read and the builder called. *)
Definition notify (url : option string) (build : Js.Json -> Embed) : Handler Embed :=
  fun payload =>
    if negb (Js.truthy url) then
      (Js.Returned (successResponse "Webhook URL not configured, skipping"), [])
    else DiscordHandler.sendAndReport net (default "" url) (build (data payload)).

Definition registry : gmap string (Handler Embed) :=
  <[MUTE_REMOVED := notify (muteRemovedWebhookUrl (config ctx)) buildMuteRemovedEmbed]>
  (<[MUTE_CREATED := notify (muteCreatedWebhookUrl (config ctx)) buildMuteCreatedEmbed]>
  (<[WARN_CREATED := notify (warnCreatedWebhookUrl (config ctx)) buildWarnCreatedEmbed]>
  (<[KICK_CREATED := notify (kickCreatedWebhookUrl (config ctx)) buildKickCreatedEmbed]>
  (<[BAN_REMOVED := notify (banRemovedWebhookUrl (config ctx)) buildBanRemovedEmbed]>
  {[ BAN_CREATED := notify (banCreatedWebhookUrl (config ctx)) buildBanCreatedEmbed ]})))).

Definition createHandler (rawBody : string) (headers : gmap string string)
    : Js.Completion WebhookResponse * list (Event Embed) :=
  DiscordHandler.handleWebhook (webhookSecret ctx) (createWebhookRouter registry)
    rawBody headers.

End Handler.

End Moderation.

(** ** Vocabulary of the properties *)

Module Spec.
Import Net.

(** An attempt fails retryably: its response carries a status that
    [shouldRetry] accepts, or the request is rejected (transport fault,
    abort). *)
Definition failsRetryably (s : Settled) : bool :=
  match s with
  | Responded status _ => shouldRetry status
  | Rejected _ => true
  end.

(** The text an attempt that fails leaves in [lastError], given the
    [catch] block of the loop. *)
Definition recorded (caught : Js.Thrown -> string) (s : Settled) : string :=
  match s with
  | Responded status text => httpError status text
  | Rejected err => caught err
  end.

(** [lastStatusCode] after an attempt: the status of its response, or the
    value carried over when there was no response. *)
Definition carried (s : Settled) (lastStatusCode : option Z) : option Z :=
  match s with
  | Responded status _ => Some status
  | Rejected _ => lastStatusCode
  end.

(** What [await fetch(...)] yields at attempt [k]: in [sendRelayRequest],
    under the abort timer; in [sendDiscordWebhook], without one. *)
Definition relayObserved (timeoutMs : Z) (net : Network) (k : Z) : Settled :=
  fetchWithTimeout timeoutMs (net k).

Definition discordObserved (net : Network) (k : Z) : Settled := fetch (net k).

(** [lastError] and [lastStatusCode] after [k] attempts, starting at
    [attempt], that all fell through to the backoff block. *)
Fixpoint errorAfter (caught : Js.Thrown -> string) (obs : Z -> Settled)
    (k : nat) (attempt : Z) (lastError : string) : string :=
  match k with
  | O => lastError
  | S k' => errorAfter caught obs k' (attempt + 1) (recorded caught (obs attempt))
  end.

Fixpoint statusAfter (obs : Z -> Settled) (k : nat) (attempt : Z)
    (lastStatusCode : option Z) : option Z :=
  match k with
  | O => lastStatusCode
  | S k' => statusAfter obs k' (attempt + 1) (carried (obs attempt) lastStatusCode)
  end.

(** The effects of [k] attempts, starting at [attempt], that all fell
    through to the backoff block. *)
Fixpoint retried {B} (url : string) (headers : gmap string string) (body : B)
    (maxAttempts baseDelayMs : Z) (k : nat) (attempt : Z) : list (Event B) :=
  match k with
  | O => []
  | S k' =>
      EvFetch attempt url headers body
        :: backoff maxAttempts baseDelayMs attempt
        ++ retried url headers body maxAttempts baseDelayMs k' (attempt + 1)
  end.

(** The part of a [RelayResult] that a [WebhookResult] also has. *)
Definition summary (r : Relay.RelayResult) : Discord.WebhookResult :=
  {| Discord.success := Relay.success r;
     Discord.error := Relay.error r;
     Discord.attempts := Relay.attempts r |}.

(** The part of a [WebhookResult] that the result of the variant without
    retries also has. *)
Definition verdict (r : Discord.WebhookResult) : DiscordOnce.SendResult :=
  {| DiscordOnce.success := Discord.success r;
     DiscordOnce.error := Discord.error r |}.

(** A rejection whose [name] is [AbortError]. *)
Definition namedAbort (s : Settled) : bool :=
  match s with
  | Rejected (Js.JsError name _) => String.eqb name "AbortError"
  | _ => false
  end.

(** The text of the timeout error of [sendRelayRequest]. *)
Definition timeoutText (timeoutMs : Z) : string :=
  "Request timeout (" +:+ Js.show timeoutMs +:+ "ms)".

(** [wait] is what happens between request [n] and request [n + 1]. *)
Definition waitAfter {B} (tr : list (Event B)) (n : Z) (wait : list (Event B)) : Prop :=
  exists pre post url headers body,
    tr = pre ++ EvFetch n url headers body
             :: wait ++ EvFetch (n + 1) url headers body :: post.

(** Request [n] is the last effect: nothing is sent and nothing is waited
    for after it. *)
Definition endsWithRequest {B} (tr : list (Event B)) (n : Z) : Prop :=
  exists pre url headers body, tr = pre ++ [EvFetch n url headers body].

(** Request [n] was issued. *)
Definition requested {B} (tr : list (Event B)) (n : Z) : Prop :=
  exists url headers body, In (EvFetch n url headers body) tr.

(** The header name that [key.toLowerCase().startsWith('x-sentinel-')]
    selects. *)
Definition sentinelKey (key : string) : bool :=
  Js.startsWith (Js.toLowerCase key) "x-sentinel-".

(** The configuration with the two secret fields left out. *)
Definition withoutSecret (config : RelayTypes.IntegrationConfig)
    : RelayTypes.IntegrationConfig :=
  {| RelayTypes.targetUrl := RelayTypes.targetUrl config;
     RelayTypes.eventPatterns := RelayTypes.eventPatterns config;
     RelayTypes.customHeaders := RelayTypes.customHeaders config;
     RelayTypes.includeOriginalHeaders := RelayTypes.includeOriginalHeaders config;
     RelayTypes.transformPayload := RelayTypes.transformPayload config;
     RelayTypes.maxRetries := RelayTypes.maxRetries config;
     RelayTypes.retryDelayMs := RelayTypes.retryDelayMs config;
     RelayTypes.timeoutMs := RelayTypes.timeoutMs config;
     RelayTypes.secretHeader := None;
     RelayTypes.secretValue := None |}.

(** The name of the signature header. *)
Definition signatureHeader : string := "x-sentinel-signature".


End Spec.

(** ** Concrete collaborators and networks for the examples *)

Module Sample.
Import Net.

(** A keyed check standing in for the HMAC of the SDK: the signature of a
    body is the secret, a colon and the body. *)
Definition sign (rawBody secret : string) : string := secret +:+ ":" +:+ rawBody.

(** A decoder standing in for [JSON.parse]: the empty body is not JSON,
    the body [null] decodes to [null], any other body decodes to an
    event of that name. *)
Definition decode (rawBody : string) : Js.Completion Sdk.Decoded :=
  if String.eqb rawBody ""
  then Js.Threw (Js.JsError "SyntaxError" "Unexpected end of JSON input")
  else if String.eqb rawBody "null" then Js.Returned Sdk.DNull
  else Js.Returned
         (Sdk.DPayload
            {| Sdk.event := rawBody;
               Sdk.timestamp := "2024-01-01T00:00:00.000Z";
               Sdk.organizationId := "org-1";
               Sdk.userId := None;
               Sdk.data := Js.JNull |}).

(** The payload [decode] yields for a body that is not empty. *)
Definition payloadNamed (eventKind : string) : Sdk.WebhookPayload :=
  {| Sdk.event := eventKind;
     Sdk.timestamp := "2024-01-01T00:00:00.000Z";
     Sdk.organizationId := "org-1";
     Sdk.userId := None;
     Sdk.data := Js.JNull |}.

Definition externals : Sdk.Externals :=
  {| Sdk.verifyWebhookSignature :=
       fun rawBody signature secret => String.eqb signature (sign rawBody secret);
     Sdk.matchesPattern := Sdk.matchesPatternSpec;
     Sdk.JSON_parse := decode |}.

(** A remote that answers every attempt in the same way after 20 ms. *)
Definition always (s : Settled) : Network :=
  fun _ => {| latency := 20; settled := s |}.

(** A remote that answers attempt [n] with the [n]-th entry of a script
    (and with 503 once the script is exhausted), after 20 ms. *)
Definition script (l : list Settled) : Network :=
  fun n =>
    {| latency := 20;
       settled := nth (Z.to_nat (n - 1)) l (Responded 503 None) |}.

(** Event names and embed builders for the server-status and moderation
    examples; an embed is represented by its title. *)
Definition serverStatus : ServerStatus.Collaborators string :=
  {| ServerStatus.GAMESERVER_CONNECTED := "gameserver.connected";
     ServerStatus.GAMESERVER_DISCONNECTED := "gameserver.disconnected";
     ServerStatus.GAMESERVER_UPDATED := "gameserver.updated";
     ServerStatus.buildServerConnectedEmbed := fun _ _ => "Server Online";
     ServerStatus.buildServerDisconnectedEmbed := fun _ _ => "Server Offline";
     ServerStatus.buildServerUpdatedEmbed := fun _ _ => "Server Updated" |}.

Definition moderation : Moderation.Collaborators string :=
  {| Moderation.BAN_CREATED := "moderation.ban.created";
     Moderation.BAN_REMOVED := "moderation.ban.removed";
     Moderation.KICK_CREATED := "moderation.kick.created";
     Moderation.WARN_CREATED := "moderation.warn.created";
     Moderation.MUTE_CREATED := "moderation.mute.created";
     Moderation.MUTE_REMOVED := "moderation.mute.removed";
     Moderation.buildBanCreatedEmbed := fun _ => "Player Banned";
     Moderation.buildBanRemovedEmbed := fun _ => "Player Unbanned";
     Moderation.buildKickCreatedEmbed := fun _ => "Player Kicked";
     Moderation.buildWarnCreatedEmbed := fun _ => "Player Warned";
     Moderation.buildMuteCreatedEmbed := fun _ => "Player Muted";
     Moderation.buildMuteRemovedEmbed := fun _ => "Player Unmuted" |}.

Definition serverStatusContext : ServerStatus.HandlerContext :=
  {| ServerStatus.config :=
       {| ServerStatus.webhookUrl := Some "https://discord.test/api/webhooks/1";
          ServerStatus.notifyOnConnect := None;
          ServerStatus.notifyOnDisconnect := None;
          ServerStatus.notifyOnPlayerCountChange := None;
          ServerStatus.playerCountThreshold := None;
          ServerStatus.onlineColor := None;
          ServerStatus.offlineColor := None;
          ServerStatus.updateColor := None;
          ServerStatus.showServerAddress := None;
          ServerStatus.showMap := None |};
     ServerStatus.webhookSecret := Some "s3cret" |}.

Definition moderationContext : Moderation.HandlerContext :=
  {| Moderation.config :=
       {| Moderation.banCreatedWebhookUrl := Some "https://discord.test/api/webhooks/2";
          Moderation.banRemovedWebhookUrl := None;
          Moderation.kickCreatedWebhookUrl := None;
          Moderation.warnCreatedWebhookUrl := None;
          Moderation.muteCreatedWebhookUrl := None;
          Moderation.muteRemovedWebhookUrl := None |};
     Moderation.webhookSecret := None |}.


Definition relayConfig : RelayTypes.IntegrationConfig :=
  {| RelayTypes.targetUrl := Some "https://example.test/hook";
     RelayTypes.eventPatterns := Some ["chat.*"];
     RelayTypes.customHeaders := None;
     RelayTypes.includeOriginalHeaders := None;
     RelayTypes.transformPayload := None;
     RelayTypes.maxRetries := None;
     RelayTypes.retryDelayMs := None;
     RelayTypes.timeoutMs := None;
     RelayTypes.secretHeader := None;
     RelayTypes.secretValue := None |}.

End Sample.

(** ** JavaScript string operations used by the formatting code *)

Module JsString.

Definition code (c : ascii) : N := N_of_ascii c.

(** [s.slice(n)] for [0 <= n]. *)
Fixpoint slice (n : nat) (s : string) : string :=
  match n, s with
  | O, _ => s
  | S n', String _ rest => slice n' rest
  | S _, EmptyString => EmptyString
  end.

(** The white space and line terminator characters of ECMAScript, by
    the length of their UTF-8 encoding: U+0009 to U+000D and U+0020;
    U+00A0; U+1680, U+2000 to U+200A, U+2028, U+2029, U+202F, U+205F,
    U+3000 and U+FEFF. *)
Definition space1 (c : ascii) : bool :=
  let n := code c in (((9 <=? n) && (n <=? 13)) || (n =? 32))%N.

Definition space2 (c1 c2 : ascii) : bool :=
  ((code c1 =? 194) && (code c2 =? 160))%N.

Definition space3 (c1 c2 c3 : ascii) : bool :=
  let '(a, b, c) := (code c1, code c2, code c3) in
  (((a =? 225) && (b =? 154) && (c =? 128))
   || ((a =? 226) && (b =? 128)
       && (((128 <=? c) && (c <=? 138)) || (c =? 168) || (c =? 169) || (c =? 175)))
   || ((a =? 226) && (b =? 129) && (c =? 159))
   || ((a =? 227) && (b =? 128) && (c =? 128))
   || ((a =? 239) && (b =? 187) && (c =? 191)))%N.

(** [s.trimStart()]. *)
Fixpoint trimStart (s : string) : string :=
  match s with
  | EmptyString => s
  | String c1 r1 =>
      if space1 c1 then trimStart r1
      else
        match r1 with
        | EmptyString => s
        | String c2 r2 =>
            if space2 c1 c2 then trimStart r2
            else
              match r2 with
              | EmptyString => s
              | String c3 r3 => if space3 c1 c2 c3 then trimStart r3 else s
              end
        end
  end.

(** [parts.join(sep)]. *)
Fixpoint join (sep : string) (parts : list string) : string :=
  match parts with
  | [] => ""
  | [part] => part
  | part :: rest => part +:+ sep +:+ join sep rest
  end.

(** [s.toUpperCase()], on the ASCII letters. *)
Definition upperChar (c : ascii) : ascii :=
  let n := code c in
  if ((97 <=? n) && (n <=? 122))%N then ascii_of_N (n - 32) else c.

Fixpoint toUpperCase (s : string) : string :=
  match s with
  | EmptyString => EmptyString
  | String c rest => String (upperChar c) (toUpperCase rest)
  end.

(** [String.fromCodePoint(cp)], as UTF-8. *)
Definition fromCodePoint (cp : N) : string :=
  let byte (n : N) := ascii_of_N n in
  if (cp <? 128)%N then String (byte cp) ""
  else if (cp <? 2048)%N then
    String (byte (192 + cp / 64)%N) (String (byte (128 + cp mod 64)%N) "")
  else if (cp <? 65536)%N then
    String (byte (224 + cp / 4096)%N)
      (String (byte (128 + (cp / 64) mod 64)%N) (String (byte (128 + cp mod 64)%N) ""))
  else
    String (byte (240 + cp / 262144)%N)
      (String (byte (128 + (cp / 4096) mod 64)%N)
         (String (byte (128 + (cp / 64) mod 64)%N)
            (String (byte (128 + cp mod 64)%N) ""))).

End JsString.

(** ** discord-chat-bridge: [types.ts], [discord.ts] and [handler.ts] *)

Module ChatBridge.
Import Net Sdk.

(** ['global' | 'group' | 'local' | 'admin'] *)
Inductive ChatChannel : Type :=
| ChGlobal
| ChGroup
| ChLocal
| ChAdmin.

(** The string a channel is at run time. *)
Definition channelName (channel : ChatChannel) : string :=
  match channel with
  | ChGlobal => "global"
  | ChGroup => "group"
  | ChLocal => "local"
  | ChAdmin => "admin"
  end.

Definition channelEqb (a b : ChatChannel) : bool :=
  String.eqb (channelName a) (channelName b).

Record IntegrationConfig : Type := {
  webhookUrl : option string;
  channelFilter : option (list ChatChannel);
  messagePrefix : option string;
  stripPrefix : option bool;
  showChannelIndicator : option bool;
  showSteamId : option bool;
  embedMode : option bool;
  embedColor : option Z
}.

Record HandlerContext : Type := {
  config : IntegrationConfig;
  webhookSecret : option string
}.

(** [ChatEventPayload] of the SDK, with the fields the integration reads. *)
Record ChatPlayer : Type := {
  name : string;
  steam64Id : string;
  avatarUrl : option string
}.

Record ChatEventPayload : Type := {
  message : string;
  player : ChatPlayer;
  channel : ChatChannel;
  timestamp : string
}.

Record EmbedAuthor : Type := {
  authorName : string;
  icon_url : option string
}.

(** [DiscordEmbed], with the optional fields this integration sets. *)
Record DiscordEmbed : Type := {
  color : Z;
  description : option string;
  embedTimestamp : string;
  author : option EmbedAuthor;
  footer : option string
}.

Record DiscordWebhookPayload : Type := {
  content : option string;
  embeds : option (list DiscordEmbed)
}.

Definition DEFAULT_EMBED_COLOR : Z := 5793266.

Definition CHANNEL_INDICATORS (channel : ChatChannel) : string :=
  match channel with
  | ChGlobal => "[Global]"
  | ChGroup => "[Group]"
  | ChLocal => "[Local]"
  | ChAdmin => "[Admin]"
  end.

(** [CHANNEL_COLORS[channel]]: 0x5865f2, 0x57f287, 0xfee75c, 0xed4245. *)
Definition CHANNEL_COLORS (channel : ChatChannel) : option Z :=
  Some match channel with
       | ChGlobal => 5793266
       | ChGroup => 5763719
       | ChLocal => 16705372
       | ChAdmin => 15548997
       end.

(** The characters of the class [[*_`~|\\]]. *)
Definition markdownSpecial (c : ascii) : bool :=
  let n := JsString.code c in
  ((n =? 42) || (n =? 95) || (n =? 96) || (n =? 126) || (n =? 124) || (n =? 92))%N.

Definition backslash : ascii := ascii_of_N 92.

(** [text.replace(/([*_`~|\\])/g, '\\$1')] *)
Fixpoint escapeMarkdown (text : string) : string :=
  match text with
  | EmptyString => EmptyString
  | String c rest =>
      if markdownSpecial c
      then String backslash (String c (escapeMarkdown rest))
      else String c (escapeMarkdown rest)
  end.

Definition passesChannelFilter (channel : ChatChannel)
    (filter : option (list ChatChannel)) : bool :=
  match filter with
  | None => true
  | Some [] => true
  | Some filter => existsb (channelEqb channel) filter
  end.

Definition passesPrefixFilter (message : string) (prefix : option string) : bool :=
  if negb (Js.truthy prefix) then true
  else Js.startsWith message (default "" prefix).

Definition processMessage (message : string) (prefix : option string)
    (stripPrefix : bool) : string :=
  if Js.truthy prefix && stripPrefix && Js.startsWith message (default "" prefix)
  then JsString.trimStart
         (JsString.slice (String.length (default "" prefix)) message)
  else message.

Definition buildSimpleMessage (payload : ChatEventPayload) (config : IntegrationConfig)
    : DiscordWebhookPayload :=
  let showChannel := default true (showChannelIndicator config) in
  let showSteamId := default false (showSteamId config) in
  let stripPrefix := default false (stripPrefix config) in
  let message := processMessage (message payload) (messagePrefix config) stripPrefix in
  let playerName := escapeMarkdown (name (player payload)) in
  let content := "" in
  let content :=
    if showChannel then content +:+ CHANNEL_INDICATORS (channel payload) +:+ " "
    else content in
  let content := content +:+ "**" +:+ playerName +:+ "**" in
  let content :=
    if showSteamId then content +:+ " (`" +:+ steam64Id (player payload) +:+ "`)"
    else content in
  let content := content +:+ ": " +:+ escapeMarkdown message in
  {| content := Some content; embeds := None |}.

Definition buildEmbedMessage (payload : ChatEventPayload) (config : IntegrationConfig)
    : DiscordWebhookPayload :=
  let showChannel := default true (showChannelIndicator config) in
  let showSteamId := default false (showSteamId config) in
  let stripPrefix := default false (stripPrefix config) in
  let color :=
    default DEFAULT_EMBED_COLOR
      (match embedColor config with
       | Some c => Some c
       | None => CHANNEL_COLORS (channel payload)
       end) in
  let message := processMessage (message payload) (messagePrefix config) stripPrefix in
  let footerParts : list string := [] in
  let footerParts :=
    if showChannel then footerParts ++ [CHANNEL_INDICATORS (channel payload)]
    else footerParts in
  let footerParts :=
    if showSteamId then footerParts ++ [steam64Id (player payload)] else footerParts in
  {| content := None;
     embeds :=
       Some [ {| color := color;
                 description := Some message;
                 embedTimestamp := timestamp payload;
                 author := Some {| authorName := name (player payload);
                                   icon_url := avatarUrl (player payload) |};
                 footer :=
                   if (0 <? length footerParts)%nat
                   then Some (JsString.join " | " footerParts)
                   else None |} ] |}.

Definition buildChatMessage (payload : ChatEventPayload) (config : IntegrationConfig)
    : DiscordWebhookPayload :=
  if default false (embedMode config)
  then buildEmbedMessage payload config
  else buildSimpleMessage payload config.

(** The handler registered for [EVENTS.CHAT.MESSAGE], on the [data] of
    the payload it is given. *)
Definition onChatMessage (ctx : HandlerContext) (net : Network) (data : ChatEventPayload)
    : Js.Completion WebhookResponse * list (Event DiscordWebhookPayload) :=
  let url := webhookUrl (config ctx) in
  if negb (Js.truthy url) then
    (Js.Returned (successResponse "Webhook URL not configured, skipping"), [])
  else
    let channel := channel data in
    if negb (passesChannelFilter channel (channelFilter (config ctx))) then
      (Js.Returned
         (successResponse
            ("Channel '" +:+ channelName channel +:+ "' filtered out, skipping")), [])
    else if negb (passesPrefixFilter (message data) (messagePrefix (config ctx))) then
      (Js.Returned (successResponse "Message prefix not matched, skipping"), [])
    else
      DiscordHandler.sendAndReport net (default "" url) (buildChatMessage data (config ctx)).

End ChatBridge.

(** ** discord-player-activity: [types.ts] and the embeds of [discord.ts] *)

Module PlayerActivity.

Record IntegrationConfig : Type := {
  playerConnectedWebhookUrl : option string;
  playerDisconnectedWebhookUrl : option string;
  joinEmbedColor : option Z;
  leaveEmbedColor : option Z;
  showCountryFlag : option bool;
  showSteamId : option bool
}.

(** [PlayerEventPayload] of the SDK, with the fields the integration reads. *)
Record PlayerEventPayload : Type := {
  name : string;
  countryCode : option string;
  steam64Id : string;
  timestamp : string;
  avatarUrl : option string
}.

Record DiscordEmbedField : Type := {
  fieldName : string;
  value : string;
  inline : option bool
}.

Record DiscordEmbed : Type := {
  title : string;
  color : Z;
  fields : list DiscordEmbedField;
  embedTimestamp : string;
  thumbnail : option string
}.

Record DiscordWebhookPayload : Type := {
  embeds : list DiscordEmbed
}.

(** [DEFAULT_COLORS]: 0x57f287 and 0xed4245. *)
Definition DEFAULT_COLORS_JOIN : Z := 5763719.
Definition DEFAULT_COLORS_LEAVE : Z := 15548997.

(** [String.fromCodePoint(...codePoints)] *)
Fixpoint fromCodePoints (codePoints : list N) : string :=
  match codePoints with
  | [] => ""
  | cp :: rest => JsString.fromCodePoint cp +:+ fromCodePoints rest
  end.

(** The country code is a two-letter ASCII code: characters and code
    units are the bytes of the string. *)
Definition countryCodeToFlag (countryCode : option string) : string :=
  if negb (Js.truthy countryCode)
     || negb (String.length (default "" countryCode) =? 2)%nat
  then ""
  else
    let codePoints :=
      map (fun char => (127462 + JsString.code char - 65)%N)
          (String.list_ascii_of_string (JsString.toUpperCase (default "" countryCode))) in
    fromCodePoints codePoints.

Definition formatPlayerName (playerName : string) (countryCode : option string)
    (showFlag : bool) : string :=
  let flag := if showFlag then countryCodeToFlag countryCode else "" in
  if Js.truthy (Some flag) then flag +:+ " " +:+ playerName else playerName.

(** The part shared by the two builders: the fields and the thumbnail. *)
Definition playerFields (payload : PlayerEventPayload) (config : IntegrationConfig)
    : list DiscordEmbedField :=
  let showFlag := default true (showCountryFlag config) in
  let showSteamId := default true (showSteamId config) in
  let fields :=
    [ {| fieldName := "Player";
         value := formatPlayerName (name payload) (countryCode payload) showFlag;
         inline := Some true |} ] in
  if showSteamId
  then fields ++ [ {| fieldName := "Steam ID";
                      value := "`" +:+ steam64Id payload +:+ "`";
                      inline := Some true |} ]
  else fields.

Definition buildPlayerConnectedEmbed (payload : PlayerEventPayload)
    (config : IntegrationConfig) : DiscordWebhookPayload :=
  let color := default DEFAULT_COLORS_JOIN (joinEmbedColor config) in
  {| embeds :=
       [ {| title := "-> Player Joined";
            color := color;
            fields := playerFields payload config;
            embedTimestamp := timestamp payload;
            thumbnail :=
              if Js.truthy (avatarUrl payload) then avatarUrl payload else None |} ] |}.

Definition buildPlayerDisconnectedEmbed (payload : PlayerEventPayload)
    (config : IntegrationConfig) : DiscordWebhookPayload :=
  let color := default DEFAULT_COLORS_LEAVE (leaveEmbedColor config) in
  {| embeds :=
       [ {| title := "<- Player Left";
            color := color;
            fields := playerFields payload config;
            embedTimestamp := timestamp payload;
            thumbnail :=
              if Js.truthy (avatarUrl payload) then avatarUrl payload else None |} ] |}.

End PlayerActivity.

(** ** discord-moderation-webhooks: the embeds of [discord.ts] *)

Module ModerationEmbeds.

Record Person : Type := {
  name : string;
  steam64Id : string
}.

(** The ban, kick, warn and mute payloads of the SDK, with the fields the
    builders read: [duration] is [number | null] (ban and mute),
    [severity] is optional (warn). *)
Record ModerationEventPayload : Type := {
  player : Person;
  adminName : string;
  reason : option string;
  duration : option Z;
  severity : option Z;
  timestamp : string
}.

Record DiscordEmbedField : Type := {
  fieldName : string;
  value : string;
  inline : bool
}.

Record DiscordEmbed : Type := {
  title : string;
  color : Z;
  fields : list DiscordEmbedField;
  embedTimestamp : string
}.

Record DiscordWebhookPayload : Type := {
  embeds : list DiscordEmbed
}.

(** [COLORS]: 0xed4245, 0x57f287, 0xffa500, 0xfee75c, 0x9b59b6, 0x57f287. *)
Definition COLORS_BAN : Z := 15548997.
Definition COLORS_UNBAN : Z := 5763719.
Definition COLORS_KICK : Z := 16753920.
Definition COLORS_WARN : Z := 16705372.
Definition COLORS_MUTE : Z := 10181046.
Definition COLORS_UNMUTE : Z := 5763719.

(** [`${n} ${unit}${n !== 1 ? 's' : ''}`] *)
Definition counted (n : Z) (unit : string) : string :=
  Js.show n +:+ " " +:+ unit +:+ (if negb (n =? 1) then "s" else "").

Definition formatDuration (seconds : option Z) : string :=
  match seconds with
  | None => "Permanent"
  | Some seconds =>
      if seconds <? 60 then counted seconds "second"
      else if seconds <? 3600 then
        let minutes := seconds / 60 in counted minutes "minute"
      else if seconds <? 86400 then
        let hours := seconds / 3600 in counted hours "hour"
      else
        let days := seconds / 86400 in counted days "day"
  end.

Definition formatPlayer (player : Person) : string :=
  name player +:+ " (`" +:+ steam64Id player +:+ "`)".

(** [payload.reason || 'No reason provided'] *)
Definition reasonText (payload : ModerationEventPayload) : string :=
  if Js.truthy (reason payload) then default "" (reason payload)
  else "No reason provided".

(** The three fields every builder starts with. *)
Definition commonFields (payload : ModerationEventPayload) : list DiscordEmbedField :=
  [ {| fieldName := "Player"; value := formatPlayer (player payload); inline := true |};
    {| fieldName := "Moderator"; value := adminName payload; inline := true |};
    {| fieldName := "Reason"; value := reasonText payload; inline := false |} ].

Definition durationField (payload : ModerationEventPayload) : DiscordEmbedField :=
  {| fieldName := "Duration"; value := formatDuration (duration payload); inline := true |}.

Definition oneEmbed (title : string) (color : Z) (fields : list DiscordEmbedField)
    (payload : ModerationEventPayload) : DiscordWebhookPayload :=
  {| embeds := [ {| title := title; color := color; fields := fields;
                    embedTimestamp := timestamp payload |} ] |}.

Definition buildBanCreatedEmbed (payload : ModerationEventPayload) : DiscordWebhookPayload :=
  oneEmbed "🔨 Player Banned" COLORS_BAN
    (commonFields payload ++ [durationField payload]) payload.

Definition buildBanRemovedEmbed (payload : ModerationEventPayload) : DiscordWebhookPayload :=
  oneEmbed "✅ Player Unbanned" COLORS_UNBAN (commonFields payload) payload.

Definition buildKickCreatedEmbed (payload : ModerationEventPayload) : DiscordWebhookPayload :=
  oneEmbed "👢 Player Kicked" COLORS_KICK (commonFields payload) payload.

Definition buildWarnCreatedEmbed (payload : ModerationEventPayload) : DiscordWebhookPayload :=
  let fields := commonFields payload in
  let fields :=
    match severity payload with
    | Some level =>
        fields ++ [ {| fieldName := "Severity"; value := Js.show level +:+ "/5";
                       inline := true |} ]
    | None => fields
    end in
  oneEmbed "⚠️ Player Warned" COLORS_WARN fields payload.

Definition buildMuteCreatedEmbed (payload : ModerationEventPayload) : DiscordWebhookPayload :=
  oneEmbed "🔇 Player Muted" COLORS_MUTE
    (commonFields payload ++ [durationField payload]) payload.

Definition buildMuteRemovedEmbed (payload : ModerationEventPayload) : DiscordWebhookPayload :=
  oneEmbed "🔊 Player Unmuted" COLORS_UNMUTE (commonFields payload) payload.

End ModerationEmbeds.

(** ** discord-server-status: the embeds of [discord.ts] *)

Module ServerEmbeds.

(** [GameServerEventPayload] of the SDK, with the fields the builders
    read; the counts and the port are integers. *)
Record GameServerEventPayload : Type := {
  name : string;
  currentPlayers : Z;
  maxPlayers : Z;
  address : string;
  port : Z;
  map : option string;
  timestamp : string
}.

Record DiscordEmbedField : Type := {
  fieldName : string;
  value : string;
  inline : bool
}.

Record DiscordEmbed : Type := {
  title : string;
  color : Z;
  fields : list DiscordEmbedField;
  embedTimestamp : string
}.

Record DiscordWebhookPayload : Type := {
  embeds : list DiscordEmbed
}.

(** [DEFAULT_COLORS]: 0x57f287, 0xed4245, 0x5865f2. *)
Definition DEFAULT_COLORS_ONLINE : Z := 5763719.
Definition DEFAULT_COLORS_OFFLINE : Z := 15548997.
Definition DEFAULT_COLORS_UPDATE : Z := 5793266.

Definition buildServerFields (payload : GameServerEventPayload)
    (config : ServerStatus.IntegrationConfig) : list DiscordEmbedField :=
  let fields :=
    [ {| fieldName := "Server"; value := name payload; inline := true |};
      {| fieldName := "Players";
         value := Js.show (currentPlayers payload) +:+ "/" +:+ Js.show (maxPlayers payload);
         inline := true |} ] in
  let fields :=
    if default true (ServerStatus.showServerAddress config)
    then fields ++ [ {| fieldName := "Address";
                        value := "`" +:+ address payload +:+ ":" +:+ Js.show (port payload)
                                 +:+ "`";
                        inline := true |} ]
    else fields in
  if default true (ServerStatus.showMap config)
  then fields ++ [ {| fieldName := "Map";
                      value := if Js.truthy (map payload) then default "" (map payload)
                               else "Unknown";
                      inline := true |} ]
  else fields.

Definition buildServerConnectedEmbed (payload : GameServerEventPayload)
    (config : ServerStatus.IntegrationConfig) : DiscordWebhookPayload :=
  let color := default DEFAULT_COLORS_ONLINE (ServerStatus.onlineColor config) in
  {| embeds := [ {| title := "Server Online"; color := color;
                    fields := buildServerFields payload config;
                    embedTimestamp := timestamp payload |} ] |}.

Definition buildServerDisconnectedEmbed (payload : GameServerEventPayload)
    (config : ServerStatus.IntegrationConfig) : DiscordWebhookPayload :=
  let color := default DEFAULT_COLORS_OFFLINE (ServerStatus.offlineColor config) in
  {| embeds := [ {| title := "Server Offline"; color := color;
                    fields := buildServerFields payload config;
                    embedTimestamp := timestamp payload |} ] |}.

Definition buildServerUpdatedEmbed (payload : GameServerEventPayload)
    (config : ServerStatus.IntegrationConfig) : DiscordWebhookPayload :=
  let color := default DEFAULT_COLORS_UPDATE (ServerStatus.updateColor config) in
  {| embeds := [ {| title := "Server Updated"; color := color;
                    fields := buildServerFields payload config;
                    embedTimestamp := timestamp payload |} ] |}.

(** The handler with the builders of [discord.ts]: [payload.data] is
    read as a [GameServerEventPayload] ([view]), the event names are
    those of the SDK. *)
Definition collaborators (view : Js.Json -> GameServerEventPayload)
    (connected disconnected updated : string)
    : ServerStatus.Collaborators DiscordWebhookPayload :=
  {| ServerStatus.GAMESERVER_CONNECTED := connected;
     ServerStatus.GAMESERVER_DISCONNECTED := disconnected;
     ServerStatus.GAMESERVER_UPDATED := updated;
     ServerStatus.buildServerConnectedEmbed :=
       fun data config => buildServerConnectedEmbed (view data) config;
     ServerStatus.buildServerDisconnectedEmbed :=
       fun data config => buildServerDisconnectedEmbed (view data) config;
     ServerStatus.buildServerUpdatedEmbed :=
       fun data config => buildServerUpdatedEmbed (view data) config |}.

End ServerEmbeds.

(** ** Vocabulary for the formatting code *)

Module FormatSpec.

(** Reading escaped text back: a backslash stands for the character
    that follows it. *)
Fixpoint unescapeMarkdown (text : string) : string :=
  match text with
  | EmptyString => EmptyString
  | String c rest =>
      if Ascii.eqb c ChatBridge.backslash then
        match rest with
        | EmptyString => String c EmptyString
        | String d rest' => String d (unescapeMarkdown rest')
        end
      else String c (unescapeMarkdown rest)
  end.

(** No markdown character stands unescaped: each one follows a backslash
    that escapes it, and every backslash escapes a markdown character. *)
Fixpoint wellEscaped (text : string) : bool :=
  match text with
  | EmptyString => true
  | String c rest =>
      if Ascii.eqb c ChatBridge.backslash then
        match rest with
        | EmptyString => false
        | String d rest' => ChatBridge.markdownSpecial d && wellEscaped rest'
        end
      else negb (ChatBridge.markdownSpecial c) && wellEscaped rest
  end.

(** The number of markdown characters of a text. *)
Fixpoint specials (text : string) : nat :=
  match text with
  | EmptyString => 0
  | String c rest =>
      ((if ChatBridge.markdownSpecial c then 1 else 0) + specials rest)%nat
  end.

(** An ASCII letter. *)
Definition letter (c : ascii) : bool :=
  let n := JsString.code c in
  (((65 <=? n) && (n <=? 90)) || ((97 <=? n) && (n <=? 122)))%N.

(** The position of a letter in the alphabet, from 0. *)
Definition letterIndex (c : ascii) : N := (JsString.code (JsString.upperChar c) - 65)%N.

(** The regional indicator symbol for the letter at position [k], in
    UTF-8: U+1F1E6 + k. *)
Definition regionalIndicator (k : N) : string :=
  String (ascii_of_N 240)
    (String (ascii_of_N 159) (String (ascii_of_N 135) (String (ascii_of_N (166 + k)) ""))).

(** A server-status context with another [playerCountThreshold]. *)
Definition withThreshold (ctx : ServerStatus.HandlerContext) (threshold : option Z)
    : ServerStatus.HandlerContext :=
  let config := ServerStatus.config ctx in
  {| ServerStatus.config :=
       {| ServerStatus.webhookUrl := ServerStatus.webhookUrl config;
          ServerStatus.notifyOnConnect := ServerStatus.notifyOnConnect config;
          ServerStatus.notifyOnDisconnect := ServerStatus.notifyOnDisconnect config;
          ServerStatus.notifyOnPlayerCountChange :=
            ServerStatus.notifyOnPlayerCountChange config;
          ServerStatus.playerCountThreshold := threshold;
          ServerStatus.onlineColor := ServerStatus.onlineColor config;
          ServerStatus.offlineColor := ServerStatus.offlineColor config;
          ServerStatus.updateColor := ServerStatus.updateColor config;
          ServerStatus.showServerAddress := ServerStatus.showServerAddress config;
          ServerStatus.showMap := ServerStatus.showMap config |};
     ServerStatus.webhookSecret := ServerStatus.webhookSecret ctx |}.

(** The units a duration is shown in, with their length in seconds. *)
Definition durationUnits : list (string * Z) :=
  [("second", 1); ("minute", 60); ("hour", 3600); ("day", 86400)].

(** The builders of the moderation embeds. *)
Definition moderationBuilders
    : list (ModerationEmbeds.ModerationEventPayload -> ModerationEmbeds.DiscordWebhookPayload) :=
  [ ModerationEmbeds.buildBanCreatedEmbed; ModerationEmbeds.buildBanRemovedEmbed;
    ModerationEmbeds.buildKickCreatedEmbed; ModerationEmbeds.buildWarnCreatedEmbed;
    ModerationEmbeds.buildMuteCreatedEmbed; ModerationEmbeds.buildMuteRemovedEmbed ].

End FormatSpec.

(** ** Sample chat and moderation data *)

Module FormatSample.

Definition chatContext : ChatBridge.HandlerContext :=
  {| ChatBridge.config :=
       {| ChatBridge.webhookUrl := Some "https://discord.test/api/webhooks/3";
          ChatBridge.channelFilter := Some [ChatBridge.ChGlobal; ChatBridge.ChGroup];
          ChatBridge.messagePrefix := Some "!d";
          ChatBridge.stripPrefix := Some true;
          ChatBridge.showChannelIndicator := None;
          ChatBridge.showSteamId := None;
          ChatBridge.embedMode := None;
          ChatBridge.embedColor := None |};
     ChatBridge.webhookSecret := None |}.

Definition chatEvent : ChatBridge.ChatEventPayload :=
  {| ChatBridge.message := "!d  hello *all*";
     ChatBridge.player :=
       {| ChatBridge.name := "x_y"; ChatBridge.steam64Id := "76561198000000000";
          ChatBridge.avatarUrl := None |};
     ChatBridge.channel := ChatBridge.ChGroup;
     ChatBridge.timestamp := "2024-01-01T00:00:00.000Z" |}.

Definition warning : ModerationEmbeds.ModerationEventPayload :=
  {| ModerationEmbeds.player :=
       {| ModerationEmbeds.name := "Bob"; ModerationEmbeds.steam64Id := "76561198000000001" |};
     ModerationEmbeds.adminName := "Alice";
     ModerationEmbeds.reason := Some "";
     ModerationEmbeds.duration := Some 5400;
     ModerationEmbeds.severity := Some 3;
     ModerationEmbeds.timestamp := "2024-01-01T00:00:00.000Z" |}.

End FormatSample.

(** ** Measures on traces *)

Module Trace.
Import Net.

(** The sum of the delays handed to [sleep], in milliseconds. *)
Fixpoint totalWait {B} (tr : list (Event B)) : Q :=
  match tr with
  | [] => 0
  | EvSleep ms :: rest => ms + totalWait rest
  | _ :: rest => totalWait rest
  end.

(** The attempt numbers of the requests, in the order they were issued. *)
Fixpoint fetchNumbers {B} (tr : list (Event B)) : list Z :=
  match tr with
  | [] => []
  | EvFetch attempt _ _ _ :: rest => attempt :: fetchNumbers rest
  | _ :: rest => fetchNumbers rest
  end.

(** An effect of a delivery of [body] to [url] with [headers]: a request
    with exactly these, or a wait of positive length. *)
Definition deliveryEffect {B} (url : string) (headers : gmap string string)
    (body : B) (e : Event B) : Prop :=
  match e with
  | EvFetch _ url' headers' body' => url' = url /\ headers' = headers /\ body' = body
  | EvSleep ms => (0 < ms)%Q
  | EvParse _ => False
  end.

End Trace.

(** ** Vocabulary for the pure functions of the relay *)

Module RelaySpec.

(** Both secret fields are set and non-empty. *)
Definition secretActive (config : RelayTypes.IntegrationConfig) : bool :=
  Js.truthy (RelayTypes.secretHeader config) && Js.truthy (RelayTypes.secretValue config).

(** The default entry of the outbound headers. *)
Definition defaultHeader (key : string) : option string :=
  if String.eqb key "Content-Type" then Some "application/json" else None.

(** What the outbound headers hold under [key], by precedence: the secret
    header, a custom header, a forwarded inbound header, the default. *)
Definition expectedHeader (originalHeaders : gmap string string)
    (config : RelayTypes.IntegrationConfig) (key : string) : option string :=
  if secretActive config
     && String.eqb key (default "" (RelayTypes.secretHeader config))
  then RelayTypes.secretValue config
  else
    match RelayTypes.customHeaders config ≫= (fun custom => custom !! key) with
    | Some value => Some value
    | None =>
        if default true (RelayTypes.includeOriginalHeaders config) && Spec.sentinelKey key
        then originalHeaders !! key
        else defaultHeader key
    end.

(** The payload a relay body was made from. *)
Definition payloadOf (body : Relay.RelayBody) : Sdk.WebhookPayload :=
  match body with
  | Relay.Plain payload => payload
  | Relay.Enveloped envelope =>
      {| Sdk.event := RelayTypes.event envelope;
         Sdk.timestamp := RelayTypes.timestamp envelope;
         Sdk.organizationId := RelayTypes.organizationId envelope;
         Sdk.userId := RelayTypes.userId envelope;
         Sdk.data := RelayTypes.data envelope |}
  end.

(** The [source] tag of a relay body, when it has one. *)
Definition sourceOf (body : Relay.RelayBody) : option string :=
  match body with
  | Relay.Plain _ => None
  | Relay.Enveloped envelope => Some (RelayTypes.source envelope)
  end.

End RelaySpec.

(** * Properties *)

(** ** Arithmetic of the backoff block *)

Section BackoffFacts.
Import Net.

Lemma timerDelay_in_range (ms : Z) : 1 <= ms <= 2147483647 -> timerDelay ms = ms.
Proof.
  intros [H1 H2]. unfold timerDelay.
  apply Z.leb_le in H1, H2. rewrite H1, H2. reflexivity.
Qed.

Lemma timerDelay_out_of_range (ms : Z) : ms < 1 \/ 2147483647 < ms -> timerDelay ms = 1.
Proof.
  intros H. unfold timerDelay.
  destruct (1 <=? ms) eqn:H1; [|reflexivity].
  destruct (ms <=? 2147483647) eqn:H2; [|reflexivity].
  apply Z.leb_le in H1, H2. lia.
Qed.

Lemma ok_not_retried (status : Z) : shouldRetry status = true -> Js.ok status = false.
Proof.
  unfold shouldRetry, Js.ok. intros H.
  apply orb_true_iff in H as [H | H].
  - apply Z.eqb_eq in H. subst. reflexivity.
  - apply Z.leb_le in H. apply andb_false_iff. right. apply Z.leb_gt. lia.
Qed.

Lemma backoffDelay_value (baseDelayMs attempt : Z) :
  (backoffDelay baseDelayMs attempt == inject_Z baseDelayMs * 2 ^ (attempt - 2))%Q.
Proof. unfold backoffDelay. apply Qred_correct. Qed.

Lemma pow2_positive (e : Z) : (0 < 2 ^ e)%Q.
Proof. apply Qpower_0_lt. reflexivity. Qed.

Lemma positive_iff (d : Q) : positive d = true <-> (0 < d)%Q.
Proof.
  unfold positive. rewrite negb_true_iff.
  split; intros H.
  - apply Qnot_le_lt. intros Hle. apply Qle_bool_iff in Hle. congruence.
  - destruct (Qle_bool d 0) eqn:E; [|reflexivity].
    apply Qle_bool_iff in E. exfalso. eapply Qlt_not_le; eauto.
Qed.

Lemma positive_backoffDelay (baseDelayMs attempt : Z) :
  positive (backoffDelay baseDelayMs attempt) = (0 <? baseDelayMs).
Proof.
  destruct (0 <? baseDelayMs) eqn:E.
  - apply positive_iff. rewrite backoffDelay_value.
    apply Qmult_lt_0_compat; [|apply pow2_positive].
    apply Z.ltb_lt in E. rewrite Zlt_Qlt in E. exact E.
  - destruct (positive (backoffDelay baseDelayMs attempt)) eqn:P; [|reflexivity].
    apply positive_iff in P. rewrite backoffDelay_value in P.
    apply Z.ltb_ge in E. rewrite Zle_Qle in E.
    exfalso. apply (Qlt_not_le _ _ P).
    assert (Hle : (inject_Z baseDelayMs * 2 ^ (attempt - 2)
                   <= inject_Z 0 * 2 ^ (attempt - 2))%Q).
    { apply Qmult_le_compat_r; [exact E|]. apply Qlt_le_weak, pow2_positive. }
    rewrite Qmult_0_l in Hle. exact Hle.
Qed.

Lemma backoff_inside {B} (maxAttempts baseDelayMs attempt : Z) :
  attempt < maxAttempts ->
  backoff (B := B) maxAttempts baseDelayMs attempt =
    if 0 <? baseDelayMs then [EvSleep (backoffDelay baseDelayMs attempt)] else [].
Proof.
  intros H. unfold backoff.
  apply Z.ltb_lt in H. rewrite H. cbv zeta. rewrite positive_backoffDelay. reflexivity.
Qed.

Lemma backoff_last {B} (maxAttempts baseDelayMs attempt : Z) :
  maxAttempts <= attempt -> backoff (B := B) maxAttempts baseDelayMs attempt = [].
Proof. intros H. unfold backoff. apply Z.ltb_ge in H. rewrite H. reflexivity. Qed.

Lemma waits_app {B} (l1 l2 : list (Event B)) : waits (l1 ++ l2) = (waits l1 + waits l2)%nat.
Proof. unfold waits. rewrite List.filter_app, length_app. reflexivity. Qed.

Lemma requests_app {B} (l1 l2 : list (Event B)) :
  requests (l1 ++ l2) = (requests l1 + requests l2)%nat.
Proof. unfold requests. rewrite List.filter_app, length_app. reflexivity. Qed.

Lemma requests_backoff {B} (maxAttempts baseDelayMs attempt : Z) :
  requests (backoff (B := B) maxAttempts baseDelayMs attempt) = 0%nat.
Proof. unfold backoff. repeat case_match; reflexivity. Qed.

End BackoffFacts.

(** ** The trace of attempts that fall through to the backoff block *)

Section RetriedFacts.
Import Net Spec.
Context {B : Type}.
Variables (url : string) (headers : gmap string string) (body : B).
Variables maxA base : Z.

Local Abbreviation retried := (Spec.retried url headers body maxA base).

Lemma retried_snoc (k : nat) : forall a,
  retried (S k) a =
    retried k a ++ EvFetch (a + Z.of_nat k) url headers body
                :: backoff maxA base (a + Z.of_nat k).
Proof.
  induction k as [|k IH]; intros a.
  - cbn [Spec.retried]. rewrite Z.add_0_r, app_nil_r. reflexivity.
  - change (retried (S (S k)) a)
      with (EvFetch a url headers body :: backoff maxA base a ++ retried (S k) (a + 1)).
    rewrite IH. cbn [Spec.retried].
    replace (a + 1 + Z.of_nat k) with (a + Z.of_nat (S k)) by lia.
    rewrite <- app_comm_cons, app_assoc. reflexivity.
Qed.

Lemma waits_retried_inside (k : nat) : forall a,
  a + Z.of_nat k <= maxA ->
  waits (retried k a) = if 0 <? base then k else 0%nat.
Proof.
  induction k as [|k IH]; intros a Ha.
  - cbn. destruct (0 <? base); reflexivity.
  - cbn [Spec.retried].
    change (EvFetch a url headers body :: backoff maxA base a ++ retried k (a + 1))
      with ([EvFetch a url headers body] ++ backoff maxA base a ++ retried k (a + 1)).
    rewrite !waits_app, IH by lia.
    rewrite backoff_inside by lia.
    destruct (0 <? base); reflexivity.
Qed.

Lemma requests_retried (k : nat) : forall a, requests (retried k a) = k.
Proof.
  induction k as [|k IH]; intros a; [reflexivity|].
  cbn [Spec.retried].
  change (EvFetch a url headers body :: backoff maxA base a ++ retried k (a + 1))
    with ([EvFetch a url headers body] ++ backoff maxA base a ++ retried k (a + 1)).
  rewrite !requests_app, requests_backoff, IH. reflexivity.
Qed.

(** All [maxA] attempts fall through: one wait after each but the last,
    provided the base delay is positive. *)
Lemma waits_retried_all (n : nat) :
  maxA = 1 + Z.of_nat n ->
  waits (retried (S n) 1) = if 0 <? base then n else 0%nat.
Proof.
  intros HN. rewrite retried_snoc, waits_app, waits_retried_inside by lia.
  rewrite backoff_last by lia.
  change (waits [EvFetch (1 + Z.of_nat n) url headers body]) with 0%nat.
  destruct (0 <? base); lia.
Qed.

End RetriedFacts.

(** ** The retry loop of [sendRelayRequest] *)

Section RelayLoopFacts.
Import Net Spec.
Context {B : Type}.
Variables (net : Network) (url : string) (body : B) (headers : gmap string string).
Variables maxA base timeout : Z.

Local Abbreviation obs := (relayObserved timeout net).
Local Abbreviation loop := (Relay.attemptLoop net url body headers maxA base timeout).
Local Abbreviation once := (Relay.attemptOnce net timeout).
Local Abbreviation retried := (Spec.retried url headers body maxA base).

Lemma relay_once_retry (a : Z) (ls : option Z) :
  failsRetryably (obs a) = true ->
  once a ls = Relay.Continue (recorded (Relay.caught timeout) (obs a)) (carried (obs a) ls).
Proof.
  unfold Relay.attemptOnce, failsRetryably, relayObserved.
  destruct (fetchWithTimeout timeout (net a)) as [status text | err]; intros H.
  - rewrite (ok_not_retried _ H), H. reflexivity.
  - reflexivity.
Qed.

Lemma relay_once_success (a : Z) (ls : option Z) (status : Z) (text : option string) :
  obs a = Responded status text -> Js.ok status = true ->
  once a ls = Relay.Return {| Relay.success := true; Relay.error := None;
                              Relay.attempts := a; Relay.statusCode := Some status |}.
Proof. unfold Relay.attemptOnce, relayObserved. intros -> ->. reflexivity. Qed.

Lemma relay_once_refused (a : Z) (ls : option Z) (status : Z) (text : option string) :
  obs a = Responded status text -> Js.ok status = false -> shouldRetry status = false ->
  once a ls = Relay.Return {| Relay.success := false;
                              Relay.error := Some (httpError status text);
                              Relay.attempts := a; Relay.statusCode := Some status |}.
Proof. unfold Relay.attemptOnce, relayObserved. intros -> -> ->. reflexivity. Qed.

Lemma relay_loop_retried (k : nat) : forall (r : nat) (a : Z) (le : string) (ls : option Z),
  (forall j, a <= j < a + Z.of_nat k -> failsRetryably (obs j) = true) ->
  loop (k + r)%nat a le ls =
    let rest := loop r (a + Z.of_nat k)
                  (errorAfter (Relay.caught timeout) obs k a le)
                  (statusAfter obs k a ls) in
    (fst rest, retried k a ++ snd rest).
Proof.
  induction k as [|k IH]; intros r a le ls Hall.
  - cbn. rewrite Z.add_0_r. destruct (loop r a le ls); reflexivity.
  - change (S k + r)%nat with (S (k + r)). cbn [Relay.attemptLoop].
    rewrite relay_once_retry by (apply Hall; lia).
    rewrite IH by (intros j Hj; apply Hall; lia).
    cbn [errorAfter statusAfter Spec.retried fst snd].
    replace (a + 1 + Z.of_nat k) with (a + Z.of_nat (S k)) by lia.
    cbv zeta. cbn [fst snd]. rewrite <- app_comm_cons, <- app_assoc. reflexivity.
Qed.

Lemma relay_loop_head (r : nat) (a : Z) (le : string) (ls : option Z) :
  exists post, snd (loop (S r) a le ls) = EvFetch a url headers body :: post.
Proof.
  cbn [Relay.attemptLoop]. destruct (once a ls) as [res | le' ls'].
  - eexists. reflexivity.
  - destruct (loop r (a + 1) le' ls') as [res tr]. eexists. reflexivity.
Qed.

(** A successful result never carries an error text. *)
Lemma relay_loop_success_no_error (r : nat) : forall (a : Z) (le : string) (ls : option Z),
  Relay.success (fst (loop r a le ls)) = true -> Relay.error (fst (loop r a le ls)) = None.
Proof.
  induction r as [|r IH]; intros a le ls; [cbn; discriminate|].
  cbn [Relay.attemptLoop]. destruct (once a ls) as [res | le' ls'] eqn:E.
  - cbn [fst]. unfold Relay.attemptOnce in E.
    destruct (fetchWithTimeout timeout (net a)) as [status text | err]; [|discriminate].
    destruct (Js.ok status).
    + injection E as <-. reflexivity.
    + destruct (negb (shouldRetry status)); [|discriminate].
      injection E as <-. cbn. discriminate.
  - specialize (IH (a + 1) le' ls').
    destruct (loop r (a + 1) le' ls') as [res tr]. exact IH.
Qed.

Lemma relay_loop_requests_le (r : nat) : forall (a : Z) (le : string) (ls : option Z),
  (requests (snd (loop r a le ls)) <= r)%nat.
Proof.
  induction r as [|r IH]; intros a le ls; [cbn; lia|].
  cbn [Relay.attemptLoop]. destruct (once a ls) as [res | le' ls'].
  - cbn. lia.
  - specialize (IH (a + 1) le' ls').
    destruct (loop r (a + 1) le' ls') as [res tr]. cbn [snd] in *.
    change (EvFetch a url headers body :: backoff maxA base a ++ tr)
      with ([EvFetch a url headers body] ++ backoff maxA base a ++ tr).
    rewrite !requests_app, requests_backoff. cbn. lia.
Qed.

End RelayLoopFacts.

(** ** The retry loop of [sendDiscordWebhook] *)

Section DiscordLoopFacts.
Import Net Spec.
Context {P : Type}.
Variables (net : Network) (url : string) (payload : P).
Variables maxA base : Z.

Local Abbreviation obs := (discordObserved net).
Local Abbreviation loop := (Discord.attemptLoop net url payload maxA base).
Local Abbreviation once := (Discord.attemptOnce net).
Local Abbreviation retried := (Spec.retried url Discord.jsonHeaders payload maxA base).

Lemma discord_once_retry (a : Z) :
  failsRetryably (obs a) = true ->
  once a = Discord.Continue (recorded Discord.caught (obs a)).
Proof.
  unfold Discord.attemptOnce, failsRetryably, discordObserved.
  destruct (fetch (net a)) as [status text | err]; intros H.
  - rewrite (ok_not_retried _ H), H. reflexivity.
  - reflexivity.
Qed.

Lemma discord_once_success (a : Z) (status : Z) (text : option string) :
  obs a = Responded status text -> Js.ok status = true ->
  once a = Discord.Return {| Discord.success := true; Discord.error := None;
                             Discord.attempts := a |}.
Proof. unfold Discord.attemptOnce, discordObserved. intros -> ->. reflexivity. Qed.

Lemma discord_once_refused (a : Z) (status : Z) (text : option string) :
  obs a = Responded status text -> Js.ok status = false -> shouldRetry status = false ->
  once a = Discord.Return {| Discord.success := false;
                             Discord.error := Some (httpError status text);
                             Discord.attempts := a |}.
Proof. unfold Discord.attemptOnce, discordObserved. intros -> -> ->. reflexivity. Qed.

Lemma discord_loop_retried (k : nat) : forall (r : nat) (a : Z) (le : string),
  (forall j, a <= j < a + Z.of_nat k -> failsRetryably (obs j) = true) ->
  loop (k + r)%nat a le =
    let rest := loop r (a + Z.of_nat k) (errorAfter Discord.caught obs k a le) in
    (fst rest, retried k a ++ snd rest).
Proof.
  induction k as [|k IH]; intros r a le Hall.
  - cbn. rewrite Z.add_0_r. destruct (loop r a le); reflexivity.
  - change (S k + r)%nat with (S (k + r)). cbn [Discord.attemptLoop].
    rewrite discord_once_retry by (apply Hall; lia).
    rewrite IH by (intros j Hj; apply Hall; lia).
    cbn [errorAfter Spec.retried fst snd].
    replace (a + 1 + Z.of_nat k) with (a + Z.of_nat (S k)) by lia.
    cbv zeta. cbn [fst snd]. rewrite <- app_comm_cons, <- app_assoc. reflexivity.
Qed.

Lemma discord_loop_head (r : nat) (a : Z) (le : string) :
  exists post, snd (loop (S r) a le) = EvFetch a url Discord.jsonHeaders payload :: post.
Proof.
  cbn [Discord.attemptLoop]. destruct (once a) as [res | le'].
  - eexists. reflexivity.
  - destruct (loop r (a + 1) le') as [res tr]. eexists. reflexivity.
Qed.

Lemma discord_loop_success_no_error (r : nat) : forall (a : Z) (le : string),
  Discord.success (fst (loop r a le)) = true -> Discord.error (fst (loop r a le)) = None.
Proof.
  induction r as [|r IH]; intros a le; [cbn; discriminate|].
  cbn [Discord.attemptLoop]. destruct (once a) as [res | le'] eqn:E.
  - cbn [fst]. unfold Discord.attemptOnce in E.
    destruct (fetch (net a)) as [status text | err]; [|discriminate].
    destruct (Js.ok status).
    + injection E as <-. reflexivity.
    + destruct (negb (shouldRetry status)); [|discriminate].
      injection E as <-. cbn. discriminate.
  - specialize (IH (a + 1) le').
    destruct (loop r (a + 1) le') as [res tr]. exact IH.
Qed.

End DiscordLoopFacts.

(** ** What the folds over retried attempts compute *)

Section AfterFacts.
Import Net Spec.

Lemma errorAfter_last (caught : Js.Thrown -> string) (obs : Z -> Settled) (k : nat) :
  forall a le,
    errorAfter caught obs (S k) a le = recorded caught (obs (a + Z.of_nat k)).
Proof.
  induction k as [|k IH]; intros a le.
  - cbn. rewrite Z.add_0_r. reflexivity.
  - change (errorAfter caught obs (S (S k)) a le)
      with (errorAfter caught obs (S k) (a + 1) (recorded caught (obs a))).
    rewrite IH. f_equal. f_equal. lia.
Qed.

Lemma statusAfter_none (obs : Z -> Settled) (k : nat) : forall a ls,
  (forall j, a <= j < a + Z.of_nat k -> exists err, obs j = Rejected err) ->
  statusAfter obs k a ls = ls.
Proof.
  induction k as [|k IH]; intros a ls Hall; [reflexivity|].
  cbn [statusAfter]. rewrite IH by (intros j Hj; apply Hall; lia).
  destruct (Hall a ltac:(lia)) as [err ->]. reflexivity.
Qed.

Lemma statusAfter_last (obs : Z -> Settled) (k : nat) : forall a ls i status text,
  a <= i < a + Z.of_nat k ->
  obs i = Responded status text ->
  (forall j, i < j < a + Z.of_nat k -> exists err, obs j = Rejected err) ->
  statusAfter obs k a ls = Some status.
Proof.
  induction k as [|k IH]; intros a ls i status text Hi Hobs Hlater; [lia|].
  cbn [statusAfter].
  destruct (Z.eq_dec i a) as [-> | Hne].
  - rewrite Hobs. cbn [carried].
    apply statusAfter_none. intros j Hj. apply Hlater. lia.
  - apply (IH _ _ i status text); [lia | exact Hobs |].
    intros j Hj. apply Hlater. lia.
Qed.

End AfterFacts.

(** ** Whole deliveries, split at an attempt *)

Section RelayRunFacts.
Import Net Spec.
Context {B : Type}.
Variables (net : Network) (url : string) (body : B) (headers : gmap string string).
Variable options : option Relay.RelayOptions.

Local Abbreviation maxA := (Relay.maxAttemptsOf options).
Local Abbreviation base := (Relay.baseDelayMsOf options).
Local Abbreviation timeout := (Relay.timeoutMsOf options).
Local Abbreviation obs := (relayObserved timeout net).
Local Abbreviation loop := (Relay.attemptLoop net url body headers maxA base timeout).
Local Abbreviation retried := (Spec.retried url headers body maxA base).
Local Abbreviation run := (Relay.sendRelayRequest net url body headers options).

(** Attempt [k] is reached when the attempts before it all fell through;
    the delivery then continues from the loop entered at [k]. *)
Lemma relay_run_reaches (k : Z) :
  1 <= k <= maxA + 1 ->
  (forall j, 1 <= j < k -> failsRetryably (obs j) = true) ->
  run =
    let rest := loop (Z.to_nat (maxA + 1 - k)) k
                  (errorAfter (Relay.caught timeout) obs (Z.to_nat (k - 1)) 1 "")
                  (statusAfter obs (Z.to_nat (k - 1)) 1 None) in
    (fst rest, retried (Z.to_nat (k - 1)) 1 ++ snd rest).
Proof.
  intros Hk Hall. unfold Relay.sendRelayRequest. cbv zeta.
  replace (Z.to_nat maxA) with (Z.to_nat (k - 1) + Z.to_nat (maxA + 1 - k))%nat by lia.
  rewrite relay_loop_retried by (intros j Hj; apply Hall; lia).
  replace (1 + Z.of_nat (Z.to_nat (k - 1))) with k by lia.
  reflexivity.
Qed.

(** A retryable failure at attempt [n < maxAttempts] is followed by the
    backoff block and by request [n + 1]. *)
Lemma relay_run_retry_next (n : Z) :
  1 <= n < maxA ->
  (forall j, 1 <= j <= n -> failsRetryably (obs j) = true) ->
  exists post,
    snd run = retried (Z.to_nat (n - 1)) 1
                ++ EvFetch n url headers body
                :: backoff maxA base n ++ EvFetch (n + 1) url headers body :: post.
Proof.
  intros Hn Hall.
  rewrite (relay_run_reaches (n + 1)) by (try intros j Hj; try apply Hall; lia).
  cbv zeta. cbn [snd].
  replace (Z.to_nat (maxA + 1 - (n + 1))) with (S (Z.to_nat (maxA - n - 1))) by lia.
  destruct (relay_loop_head net url body headers maxA base timeout
              (Z.to_nat (maxA - n - 1)) (n + 1)
              (errorAfter (Relay.caught timeout) obs (Z.to_nat (n + 1 - 1)) 1 "")
              (statusAfter obs (Z.to_nat (n + 1 - 1)) 1 None)) as [post ->].
  exists post.
  replace (Z.to_nat (n + 1 - 1)) with (S (Z.to_nat (n - 1))) by lia.
  rewrite retried_snoc.
  replace (1 + Z.of_nat (Z.to_nat (n - 1))) with n by lia.
  rewrite <- app_assoc. reflexivity.
Qed.

(** An attempt that returns ends the delivery with its result. *)
Lemma relay_run_returns (k : Z) (res : Relay.RelayResult) :
  1 <= k <= maxA ->
  (forall j, 1 <= j < k -> failsRetryably (obs j) = true) ->
  (forall ls, Relay.attemptOnce net timeout k ls = Relay.Return res) ->
  run = (res, retried (Z.to_nat (k - 1)) 1 ++ [EvFetch k url headers body]).
Proof.
  intros Hk Hall Hret.
  rewrite (relay_run_reaches k) by (try exact Hall; lia).
  replace (Z.to_nat (maxA + 1 - k)) with (S (Z.to_nat (maxA - k))) by lia.
  cbv zeta. cbn [Relay.attemptLoop]. rewrite Hret. reflexivity.
Qed.

(** All attempts fall through: the code after the loop builds the result. *)
Lemma relay_run_exhausted :
  1 <= maxA ->
  (forall j, 1 <= j <= maxA -> failsRetryably (obs j) = true) ->
  run =
    ({| Relay.success := false;
        Relay.error := Some (recorded (Relay.caught timeout) (obs maxA));
        Relay.attempts := maxA;
        Relay.statusCode := statusAfter obs (Z.to_nat maxA) 1 None |},
     retried (Z.to_nat maxA) 1).
Proof.
  intros HN Hall.
  rewrite (relay_run_reaches (maxA + 1)) by (try intros j Hj; try apply Hall; lia).
  replace (Z.to_nat (maxA + 1 - (maxA + 1))) with 0%nat by lia.
  replace (Z.to_nat (maxA + 1 - 1)) with (S (Z.to_nat (maxA - 1))) by lia.
  cbv zeta. cbn [Relay.attemptLoop fst snd].
  rewrite errorAfter_last, app_nil_r.
  replace (1 + Z.of_nat (Z.to_nat (maxA - 1))) with maxA by lia.
  replace (S (Z.to_nat (maxA - 1))) with (Z.to_nat maxA) by lia.
  reflexivity.
Qed.

End RelayRunFacts.

Section DiscordRunFacts.
Import Net Spec.
Context {P : Type}.
Variables (net : Network) (url : string) (payload : P).
Variable options : option Discord.RetryOptions.

Local Abbreviation maxA := (Discord.maxAttemptsOf options).
Local Abbreviation base := (Discord.baseDelayMsOf options).
Local Abbreviation obs := (discordObserved net).
Local Abbreviation loop := (Discord.attemptLoop net url payload maxA base).
Local Abbreviation retried := (Spec.retried url Discord.jsonHeaders payload maxA base).
Local Abbreviation run := (Discord.sendDiscordWebhook net url payload options).

Lemma discord_run_reaches (k : Z) :
  1 <= k <= maxA + 1 ->
  (forall j, 1 <= j < k -> failsRetryably (obs j) = true) ->
  run =
    let rest := loop (Z.to_nat (maxA + 1 - k)) k
                  (errorAfter Discord.caught obs (Z.to_nat (k - 1)) 1 "") in
    (fst rest, retried (Z.to_nat (k - 1)) 1 ++ snd rest).
Proof.
  intros Hk Hall. unfold Discord.sendDiscordWebhook. cbv zeta.
  replace (Z.to_nat maxA) with (Z.to_nat (k - 1) + Z.to_nat (maxA + 1 - k))%nat by lia.
  rewrite discord_loop_retried by (intros j Hj; apply Hall; lia).
  replace (1 + Z.of_nat (Z.to_nat (k - 1))) with k by lia.
  reflexivity.
Qed.

Lemma discord_run_retry_next (n : Z) :
  1 <= n < maxA ->
  (forall j, 1 <= j <= n -> failsRetryably (obs j) = true) ->
  exists post,
    snd run = retried (Z.to_nat (n - 1)) 1
                ++ EvFetch n url Discord.jsonHeaders payload
                :: backoff maxA base n
                ++ EvFetch (n + 1) url Discord.jsonHeaders payload :: post.
Proof.
  intros Hn Hall.
  rewrite (discord_run_reaches (n + 1)) by (try intros j Hj; try apply Hall; lia).
  cbv zeta. cbn [snd].
  replace (Z.to_nat (maxA + 1 - (n + 1))) with (S (Z.to_nat (maxA - n - 1))) by lia.
  destruct (discord_loop_head net url payload maxA base
              (Z.to_nat (maxA - n - 1)) (n + 1)
              (errorAfter Discord.caught obs (Z.to_nat (n + 1 - 1)) 1 "")) as [post ->].
  exists post.
  replace (Z.to_nat (n + 1 - 1)) with (S (Z.to_nat (n - 1))) by lia.
  rewrite retried_snoc.
  replace (1 + Z.of_nat (Z.to_nat (n - 1))) with n by lia.
  rewrite <- app_assoc. reflexivity.
Qed.

Lemma discord_run_returns (k : Z) (res : Discord.WebhookResult) :
  1 <= k <= maxA ->
  (forall j, 1 <= j < k -> failsRetryably (obs j) = true) ->
  Discord.attemptOnce net k = Discord.Return res ->
  run = (res, retried (Z.to_nat (k - 1)) 1 ++ [EvFetch k url Discord.jsonHeaders payload]).
Proof.
  intros Hk Hall Hret.
  rewrite (discord_run_reaches k) by (try exact Hall; lia).
  replace (Z.to_nat (maxA + 1 - k)) with (S (Z.to_nat (maxA - k))) by lia.
  cbv zeta. cbn [Discord.attemptLoop]. rewrite Hret. reflexivity.
Qed.

Lemma discord_run_exhausted :
  1 <= maxA ->
  (forall j, 1 <= j <= maxA -> failsRetryably (obs j) = true) ->
  run =
    ({| Discord.success := false;
        Discord.error := Some (recorded Discord.caught (obs maxA));
        Discord.attempts := maxA |},
     retried (Z.to_nat maxA) 1).
Proof.
  intros HN Hall.
  rewrite (discord_run_reaches (maxA + 1)) by (try intros j Hj; try apply Hall; lia).
  replace (Z.to_nat (maxA + 1 - (maxA + 1))) with 0%nat by lia.
  replace (Z.to_nat (maxA + 1 - 1)) with (S (Z.to_nat (maxA - 1))) by lia.
  cbv zeta. cbn [Discord.attemptLoop fst snd].
  rewrite errorAfter_last, app_nil_r.
  replace (1 + Z.of_nat (Z.to_nat (maxA - 1))) with maxA by lia.
  replace (S (Z.to_nat (maxA - 1))) with (Z.to_nat maxA) by lia.
  reflexivity.
Qed.

End DiscordRunFacts.

(** ** Delivery: the checked statements *)

Section Delivery.
Import Net Spec.

(** C1.  After a retryably failed attempt [n] with
    [1 <= n <= maxAttempts - 1], [sendRelayRequest] and the retrying
    [sendDiscordWebhook] wait [baseDelayMs * 2^(n-2)] milliseconds before
    request [n + 1] when that number is positive, and go on to request
    [n + 1] without waiting when it is not; with [baseDelayMs = 1000] the
    waits before attempts 2, 3 and 4 are 500, 1000 and 2000 ms. *)
Theorem C1_backoff_between_attempts :
  (forall B (net : Network) url (body : B) headers options n,
      1 <= n <= Relay.maxAttemptsOf options - 1 ->
      (forall j, 1 <= j <= n ->
         failsRetryably (relayObserved (Relay.timeoutMsOf options) net j) = true) ->
      exists wait,
        waitAfter (snd (Relay.sendRelayRequest net url body headers options)) n wait /\
        ((0 < inject_Z (Relay.baseDelayMsOf options) * 2 ^ (n - 2))%Q ->
           exists d, wait = [EvSleep d] /\
             (d == inject_Z (Relay.baseDelayMsOf options) * 2 ^ (n - 2))%Q) /\
        ((inject_Z (Relay.baseDelayMsOf options) * 2 ^ (n - 2) <= 0)%Q -> wait = [])) /\
  (forall P (net : Network) url (payload : P) options n,
      1 <= n <= Discord.maxAttemptsOf options - 1 ->
      (forall j, 1 <= j <= n -> failsRetryably (discordObserved net j) = true) ->
      exists wait,
        waitAfter (snd (Discord.sendDiscordWebhook net url payload options)) n wait /\
        ((0 < inject_Z (Discord.baseDelayMsOf options) * 2 ^ (n - 2))%Q ->
           exists d, wait = [EvSleep d] /\
             (d == inject_Z (Discord.baseDelayMsOf options) * 2 ^ (n - 2))%Q) /\
        ((inject_Z (Discord.baseDelayMsOf options) * 2 ^ (n - 2) <= 0)%Q -> wait = [])) /\
  (backoffDelay 1000 1 = 500%Q /\ backoffDelay 1000 2 = 1000%Q /\
   backoffDelay 1000 3 = 2000%Q).
Proof.
  assert (Hwait : forall B maxA base n, n < maxA ->
    ((0 < inject_Z base * 2 ^ (n - 2))%Q ->
       exists d, backoff (B := B) maxA base n = [EvSleep d] /\
                 (d == inject_Z base * 2 ^ (n - 2))%Q) /\
    ((inject_Z base * 2 ^ (n - 2) <= 0)%Q -> backoff (B := B) maxA base n = [])).
  { intros B maxA base n Hn. unfold backoff.
    apply Z.ltb_lt in Hn. rewrite Hn. cbv zeta. split; intros Hd.
    - rewrite <- backoffDelay_value in Hd. apply positive_iff in Hd. rewrite Hd.
      eexists. split; [reflexivity | apply backoffDelay_value].
    - destruct (positive (backoffDelay base n)) eqn:E; [|reflexivity].
      apply positive_iff in E. rewrite backoffDelay_value in E.
      exfalso. eapply Qlt_not_le; eauto. }
  split; [|split].
  - intros B net url body headers options n Hn Hall.
    destruct (relay_run_retry_next net url body headers options n) as [post Htr];
      [lia | exact Hall |].
    exists (backoff (Relay.maxAttemptsOf options) (Relay.baseDelayMsOf options) n).
    split; [|apply Hwait; lia].
    unfold waitAfter. do 5 eexists. exact Htr.
  - intros P net url payload options n Hn Hall.
    destruct (discord_run_retry_next net url payload options n) as [post Htr];
      [lia | exact Hall |].
    exists (backoff (Discord.maxAttemptsOf options) (Discord.baseDelayMsOf options) n).
    split; [|apply Hwait; lia].
    unfold waitAfter. do 5 eexists. exact Htr.
  - repeat split; reflexivity.
Qed.

Lemma C1_backoff_witness :
  let options := Some {| Relay.maxAttempts := Some 4; Relay.baseDelayMs := Some 1000;
                         Relay.timeoutMs := None |} in
  exists wait,
    waitAfter
      (snd (Relay.sendRelayRequest (Sample.always (Responded 500 None))
              "https://example.test/hook" tt ∅ options)) 3 wait /\
    ((0 < inject_Z 1000 * 2 ^ (3 - 2))%Q ->
       exists d, wait = [EvSleep d] /\ (d == inject_Z 1000 * 2 ^ (3 - 2))%Q) /\
    ((inject_Z 1000 * 2 ^ (3 - 2) <= 0)%Q -> wait = []).
Proof.
  intros options.
  apply (proj1 C1_backoff_between_attempts unit (Sample.always (Responded 500 None))
           "https://example.test/hook" tt ∅ options 3).
  - cbn. lia.
  - intros j Hj. reflexivity.
Defined.

(** The whole trace of four failing attempts with the default base delay. *)
Example backoff_sequence_default :
  snd (Relay.sendRelayRequest (Sample.always (Responded 500 None)) "u" tt ∅
         (Some {| Relay.maxAttempts := Some 4; Relay.baseDelayMs := None;
                  Relay.timeoutMs := None |}))
  = [EvFetch 1 "u" ∅ tt; EvSleep 500; EvFetch 2 "u" ∅ tt; EvSleep 1000;
     EvFetch 3 "u" ∅ tt; EvSleep 2000; EvFetch 4 "u" ∅ tt].
Proof. reflexivity. Qed.

(** C2, as the code has it.  When attempt [n] is reached and its response
    has a status outside 2xx: [shouldRetry] accepts the status exactly
    when it is 429 or at least 500; for such a status request [n + 1]
    follows whenever [n < maxAttempts]; for any other status the delivery
    returns at once with [success = false], [attempts = n], that status
    and the text [HTTP <status>: <body or Unknown error>], request [n]
    being its last effect.  The retrying [sendDiscordWebhook] does the
    same, its result having no status. *)
Theorem C2_retry_classification :
  (forall B (net : Network) url (body : B) headers options n status text,
     1 <= n <= Relay.maxAttemptsOf options ->
     (forall j, 1 <= j < n ->
        failsRetryably (relayObserved (Relay.timeoutMsOf options) net j) = true) ->
     relayObserved (Relay.timeoutMsOf options) net n = Responded status text ->
     Js.ok status = false ->
     let run := Relay.sendRelayRequest net url body headers options in
     (shouldRetry status = true <-> status = 429 \/ 500 <= status) /\
     (status = 429 \/ 500 <= status ->
        n < Relay.maxAttemptsOf options -> requested (snd run) (n + 1)) /\
     (~ (status = 429 \/ 500 <= status) ->
        fst run = {| Relay.success := false;
                     Relay.error := Some ("HTTP " +:+ Js.show status +:+ ": " +:+
                                          default "Unknown error" text);
                     Relay.attempts := n;
                     Relay.statusCode := Some status |} /\
        endsWithRequest (snd run) n /\
        requests (snd run) = Z.to_nat n)) /\
  (forall P (net : Network) url (payload : P) options n status text,
     1 <= n <= Discord.maxAttemptsOf options ->
     (forall j, 1 <= j < n -> failsRetryably (discordObserved net j) = true) ->
     discordObserved net n = Responded status text ->
     Js.ok status = false ->
     let run := Discord.sendDiscordWebhook net url payload options in
     (status = 429 \/ 500 <= status ->
        n < Discord.maxAttemptsOf options -> requested (snd run) (n + 1)) /\
     (~ (status = 429 \/ 500 <= status) ->
        fst run = {| Discord.success := false;
                     Discord.error := Some ("HTTP " +:+ Js.show status +:+ ": " +:+
                                            default "Unknown error" text);
                     Discord.attempts := n |} /\
        endsWithRequest (snd run) n /\
        requests (snd run) = Z.to_nat n)).
Proof.
  assert (Hiff : forall status,
            shouldRetry status = true <-> status = 429 \/ 500 <= status).
  { intros status. unfold shouldRetry. rewrite orb_true_iff, Z.eqb_eq, Z.leb_le.
    reflexivity. }
  assert (Hno : forall status,
            ~ (status = 429 \/ 500 <= status) -> shouldRetry status = false).
  { intros status Hst. destruct (shouldRetry status) eqn:E; [|reflexivity].
    exfalso. apply Hst, Hiff, E. }
  split.
  - intros B net url body headers options n status text Hn Hall Hobs Hok run.
    split; [apply Hiff | split].
    + intros Hst Hlt.
      destruct (relay_run_retry_next net url body headers options n) as [post Htr]; [lia | |].
      * intros j Hj. destruct (Z.eq_dec j n) as [-> | Hne]; [|apply Hall; lia].
        rewrite Hobs. cbn. apply Hiff, Hst.
      * unfold requested, run. rewrite Htr. do 3 eexists.
        apply in_or_app. right. right. apply in_or_app. right. left. reflexivity.
    + intros Hst. unfold run.
      rewrite (relay_run_returns net url body headers options n
                 {| Relay.success := false; Relay.error := Some (httpError status text);
                    Relay.attempts := n; Relay.statusCode := Some status |});
        [| lia | exact Hall | intros ls; eapply relay_once_refused; eauto].
      cbn [fst snd]. split; [reflexivity | split].
      * unfold endsWithRequest. do 4 eexists. reflexivity.
      * rewrite requests_app, requests_retried. cbn. lia.
  - intros P net url payload options n status text Hn Hall Hobs Hok run. split.
    + intros Hst Hlt.
      destruct (discord_run_retry_next net url payload options n) as [post Htr]; [lia | |].
      * intros j Hj. destruct (Z.eq_dec j n) as [-> | Hne]; [|apply Hall; lia].
        rewrite Hobs. cbn. apply Hiff, Hst.
      * unfold requested, run. rewrite Htr. do 3 eexists.
        apply in_or_app. right. right. apply in_or_app. right. left. reflexivity.
    + intros Hst. unfold run.
      rewrite (discord_run_returns net url payload options n
                 {| Discord.success := false; Discord.error := Some (httpError status text);
                    Discord.attempts := n |});
        [| lia | exact Hall | eapply discord_once_refused; eauto].
      cbn [fst snd]. split; [reflexivity | split].
      * unfold endsWithRequest. do 4 eexists. reflexivity.
      * rewrite requests_app, requests_retried. cbn. lia.
Qed.

Lemma C2_retry_classification_witness :
  let run := Relay.sendRelayRequest (Sample.always (Responded 404 (Some "Not Found")))
               "https://example.test/hook" tt ∅ None in
  (shouldRetry 404 = true <-> 404 = 429 \/ 500 <= 404) /\
  (404 = 429 \/ 500 <= 404 -> 1 < Relay.maxAttemptsOf None -> requested (snd run) (1 + 1)) /\
  (~ (404 = 429 \/ 500 <= 404) ->
     fst run = {| Relay.success := false;
                  Relay.error := Some ("HTTP " +:+ Js.show 404 +:+ ": " +:+
                                       default "Unknown error" (Some "Not Found"));
                  Relay.attempts := 1;
                  Relay.statusCode := Some 404 |} /\
     endsWithRequest (snd run) 1 /\
     requests (snd run) = Z.to_nat 1).
Proof.
  apply (proj1 C2_retry_classification unit
           (Sample.always (Responded 404 (Some "Not Found")))
           "https://example.test/hook" tt ∅ None 1 404 (Some "Not Found")).
  - cbn. lia.
  - intros j Hj. lia.
  - reflexivity.
  - reflexivity.
Defined.

(** The short circuit on a 404, run. *)
Example not_found_is_not_retried :
  Relay.sendRelayRequest (Sample.always (Responded 404 (Some "Not Found")))
    "https://example.test/hook" tt ∅ None
  = ({| Relay.success := false; Relay.error := Some "HTTP 404: Not Found";
        Relay.attempts := 1; Relay.statusCode := Some 404 |},
     [EvFetch 1 "https://example.test/hook" ∅ tt]).
Proof. reflexivity. Qed.

(** C2 as worded fails on a status above 599: 600 is neither 429 nor a
    5xx status, yet every attempt is consumed. *)
Lemma C2_counterexample :
  let run := Relay.sendRelayRequest (Sample.always (Responded 600 (Some "odd")))
               "https://example.test/hook" tt ∅ None in
  Js.ok 600 = false /\
  ~ (600 = 429 \/ 500 <= 600 <= 599) /\
  Relay.attempts (fst run) = 3 /\
  requests (snd run) = 3%nat /\
  requested (snd run) 2.
Proof.
  cbv zeta. split; [reflexivity | split; [lia | split; [reflexivity | split]]].
  - reflexivity.
  - unfold requested. do 3 eexists. vm_compute. right. right. left. reflexivity.
Qed.

(** C4, as the code has it.  When all [N = maxAttempts >= 1] attempts
    fail retryably, [sendRelayRequest] returns [success = false],
    [attempts = N], the text recorded by attempt [N], and the status of
    the latest response if there was one; it issued [N] requests and
    waited [N - 1] times when [baseDelayMs > 0] and not at all when
    [baseDelayMs <= 0].  The retrying [sendDiscordWebhook] does the same,
    its result having no status.  With the default options and three 500
    responses the result is [success = false], [attempts = 3] after two
    waits. *)
Theorem C4_exhaustion :
  (forall B (net : Network) url (body : B) headers options,
     let N := Relay.maxAttemptsOf options in
     let timeout := Relay.timeoutMsOf options in
     let obs := relayObserved timeout net in
     let run := Relay.sendRelayRequest net url body headers options in
     1 <= N ->
     (forall j, 1 <= j <= N -> failsRetryably (obs j) = true) ->
     Relay.success (fst run) = false /\
     Relay.attempts (fst run) = N /\
     Relay.error (fst run) = Some (recorded (Relay.caught timeout) (obs N)) /\
     (forall k status text,
        1 <= k <= N -> obs k = Responded status text ->
        (forall j, k < j <= N -> exists err, obs j = Rejected err) ->
        Relay.statusCode (fst run) = Some status) /\
     ((forall j, 1 <= j <= N -> exists err, obs j = Rejected err) ->
        Relay.statusCode (fst run) = None) /\
     requests (snd run) = Z.to_nat N /\
     (0 < Relay.baseDelayMsOf options -> waits (snd run) = Z.to_nat (N - 1)) /\
     (Relay.baseDelayMsOf options <= 0 -> waits (snd run) = 0%nat)) /\
  (forall P (net : Network) url (payload : P) options,
     let N := Discord.maxAttemptsOf options in
     let obs := discordObserved net in
     let run := Discord.sendDiscordWebhook net url payload options in
     1 <= N ->
     (forall j, 1 <= j <= N -> failsRetryably (obs j) = true) ->
     Discord.success (fst run) = false /\
     Discord.attempts (fst run) = N /\
     Discord.error (fst run) = Some (recorded Discord.caught (obs N)) /\
     requests (snd run) = Z.to_nat N /\
     (0 < Discord.baseDelayMsOf options -> waits (snd run) = Z.to_nat (N - 1)) /\
     (Discord.baseDelayMsOf options <= 0 -> waits (snd run) = 0%nat)) /\
  (forall B (net : Network) url (body : B) headers,
     (forall j, 1 <= j <= 3 -> exists text, settled (net j) = Responded 500 text) ->
     (forall j, 1 <= j <= 3 -> latency (net j) <= 30000) ->
     let run := Relay.sendRelayRequest net url body headers None in
     Relay.success (fst run) = false /\ Relay.attempts (fst run) = 3 /\
     Relay.statusCode (fst run) = Some 500 /\ waits (snd run) = 2%nat).
Proof.
  assert (Hwaits : forall B url headers (body : B) N base,
     1 <= N ->
     (0 < base -> waits (retried url headers body N base (Z.to_nat N) 1) = Z.to_nat (N - 1)) /\
     (base <= 0 -> waits (retried url headers body N base (Z.to_nat N) 1) = 0%nat)).
  { intros B url headers body N base HN.
    replace (Z.to_nat N) with (S (Z.to_nat (N - 1))) by lia.
    rewrite waits_retried_all by lia.
    split; intros Hb.
    - apply Z.ltb_lt in Hb. rewrite Hb. reflexivity.
    - apply Z.ltb_ge in Hb. rewrite Hb. reflexivity. }
  assert (Hgen : forall B (net : Network) url (body : B) headers options,
     let N := Relay.maxAttemptsOf options in
     let timeout := Relay.timeoutMsOf options in
     let obs := relayObserved timeout net in
     let run := Relay.sendRelayRequest net url body headers options in
     1 <= N ->
     (forall j, 1 <= j <= N -> failsRetryably (obs j) = true) ->
     Relay.success (fst run) = false /\
     Relay.attempts (fst run) = N /\
     Relay.error (fst run) = Some (recorded (Relay.caught timeout) (obs N)) /\
     (forall k status text,
        1 <= k <= N -> obs k = Responded status text ->
        (forall j, k < j <= N -> exists err, obs j = Rejected err) ->
        Relay.statusCode (fst run) = Some status) /\
     ((forall j, 1 <= j <= N -> exists err, obs j = Rejected err) ->
        Relay.statusCode (fst run) = None) /\
     requests (snd run) = Z.to_nat N /\
     (0 < Relay.baseDelayMsOf options -> waits (snd run) = Z.to_nat (N - 1)) /\
     (Relay.baseDelayMsOf options <= 0 -> waits (snd run) = 0%nat)).
  { intros B net url body headers options N timeout obs run HN Hall.
    unfold run. rewrite relay_run_exhausted by assumption.
    cbn [fst snd Relay.success Relay.attempts Relay.error Relay.statusCode].
    fold N timeout obs.
    split; [reflexivity | split; [reflexivity | split; [reflexivity | split; [|split]]]].
    - intros k status text Hk Hobs Hlater.
      apply (statusAfter_last obs _ 1 None k status text); [lia | exact Hobs|].
      intros j Hj. apply Hlater. lia.
    - intros Hnone. apply statusAfter_none. intros j Hj. apply Hnone. lia.
    - split; [apply requests_retried | apply Hwaits; exact HN]. }
  split; [exact Hgen | split].
  - intros P net url payload options N obs run HN Hall.
    unfold run. rewrite discord_run_exhausted by assumption.
    cbn [fst snd Discord.success Discord.attempts Discord.error].
    fold N obs.
    split; [reflexivity | split; [reflexivity | split; [reflexivity|]]].
    split; [apply requests_retried | apply Hwaits; exact HN].
  - intros B net url body headers H500 Hlat run.
    assert (Hobs : forall j, 1 <= j <= 3 ->
              exists text, relayObserved 30000 net j = Responded 500 text).
    { intros j Hj. destruct (H500 j Hj) as [text Ht]. exists text.
      unfold relayObserved, fetchWithTimeout. change (timerDelay 30000) with 30000.
      specialize (Hlat j Hj). apply Z.ltb_ge in Hlat. rewrite Hlat. exact Ht. }
    destruct (Hgen B net url body headers None) as (Hs & Ha & _ & Hst & _ & _ & Hw & _).
    + cbn. lia.
    + intros j Hj. destruct (Hobs j Hj) as [text Ht].
      change (Relay.timeoutMsOf None) with 30000. rewrite Ht. reflexivity.
    + destruct (Hobs 3 ltac:(lia)) as [text Ht].
      repeat split; [exact Hs | exact Ha | | apply Hw; reflexivity].
      apply (Hst 3 500 text); [cbn; lia | exact Ht |].
      intros j Hj. cbn in Hj. lia.
Qed.

Lemma C4_exhaustion_witness :
  let net := Sample.script [Responded 500 (Some "down");
                            Rejected (Js.JsError "TypeError" "fetch failed")] in
  let options := Some {| Relay.maxAttempts := Some 2; Relay.baseDelayMs := Some 200;
                         Relay.timeoutMs := Some 1000 |} in
  let obs := relayObserved 1000 net in
  let run := Relay.sendRelayRequest net "https://example.test/hook" tt ∅ options in
  Relay.success (fst run) = false /\
  Relay.attempts (fst run) = 2 /\
  Relay.error (fst run) = Some (recorded (Relay.caught 1000) (obs 2)) /\
  (forall k status text,
     1 <= k <= 2 -> obs k = Responded status text ->
     (forall j, k < j <= 2 -> exists err, obs j = Rejected err) ->
     Relay.statusCode (fst run) = Some status) /\
  ((forall j, 1 <= j <= 2 -> exists err, obs j = Rejected err) ->
     Relay.statusCode (fst run) = None) /\
  requests (snd run) = Z.to_nat 2 /\
  (0 < 200 -> waits (snd run) = Z.to_nat (2 - 1)) /\
  (200 <= 0 -> waits (snd run) = 0%nat).
Proof.
  intros net options.
  apply (proj1 C4_exhaustion unit net "https://example.test/hook" tt ∅ options).
  - cbn. lia.
  - intros j Hj. cbn in Hj.
    assert (Hc : j = 1 \/ j = 2) by lia. destruct Hc as [-> | ->]; reflexivity.
Defined.

(** The run of the witness: the status of the first attempt is kept when
    the second attempt gets no response. *)
Example exhaustion_keeps_last_status :
  Relay.sendRelayRequest
    (Sample.script [Responded 500 (Some "down");
                    Rejected (Js.JsError "TypeError" "fetch failed")])
    "https://example.test/hook" tt ∅
    (Some {| Relay.maxAttempts := Some 2; Relay.baseDelayMs := Some 200;
             Relay.timeoutMs := Some 1000 |})
  = ({| Relay.success := false; Relay.error := Some "fetch failed";
        Relay.attempts := 2; Relay.statusCode := Some 500 |},
     [EvFetch 1 "https://example.test/hook" ∅ tt; EvSleep 100;
      EvFetch 2 "https://example.test/hook" ∅ tt]).
Proof. reflexivity. Qed.

(** C4 as worded fails when [baseDelayMs] is 0: three 500 responses with
    [maxAttempts = 3] exhaust the attempts without a single wait. *)
Lemma C4_counterexample :
  let net := Sample.always (Responded 500 None) in
  let options := Some {| Relay.maxAttempts := Some 3; Relay.baseDelayMs := Some 0;
                         Relay.timeoutMs := None |} in
  let run := Relay.sendRelayRequest net "https://example.test/hook" tt ∅ options in
  (forall j, 1 <= j <= 3 ->
     failsRetryably (relayObserved (Relay.timeoutMsOf options) net j) = true) /\
  Relay.success (fst run) = false /\
  Relay.attempts (fst run) = 3 /\
  waits (snd run) = 0%nat /\
  waits (snd run) <> Z.to_nat (3 - 1).
Proof.
  cbv zeta. split; [intros j Hj; reflexivity|].
  repeat split; try reflexivity. vm_compute. discriminate.
Qed.

(** C5.  When attempt [k] is reached and receives a 2xx response,
    [sendRelayRequest] returns [success = true], [attempts = k] and that
    status, without an error text, and request [k] is its last effect;
    the same holds for the retrying [sendDiscordWebhook] (whose result has
    no status).  A 200 on attempt 1 gives [attempts = 1] after the single
    request and no wait.  A result with [success = true] never has an
    error text. *)
Theorem C5_success_returns_at_once :
  (forall B (net : Network) url (body : B) headers options k status text,
     1 <= k <= Relay.maxAttemptsOf options ->
     (forall j, 1 <= j < k ->
        failsRetryably (relayObserved (Relay.timeoutMsOf options) net j) = true) ->
     relayObserved (Relay.timeoutMsOf options) net k = Responded status text ->
     Js.ok status = true ->
     let run := Relay.sendRelayRequest net url body headers options in
     fst run = {| Relay.success := true; Relay.error := None;
                  Relay.attempts := k; Relay.statusCode := Some status |} /\
     endsWithRequest (snd run) k /\
     requests (snd run) = Z.to_nat k) /\
  (forall P (net : Network) url (payload : P) options k status text,
     1 <= k <= Discord.maxAttemptsOf options ->
     (forall j, 1 <= j < k -> failsRetryably (discordObserved net j) = true) ->
     discordObserved net k = Responded status text ->
     Js.ok status = true ->
     let run := Discord.sendDiscordWebhook net url payload options in
     fst run = {| Discord.success := true; Discord.error := None;
                  Discord.attempts := k |} /\
     endsWithRequest (snd run) k /\
     requests (snd run) = Z.to_nat k) /\
  (forall B (net : Network) url (body : B) headers options text,
     1 <= Relay.maxAttemptsOf options ->
     relayObserved (Relay.timeoutMsOf options) net 1 = Responded 200 text ->
     Relay.sendRelayRequest net url body headers options =
       ({| Relay.success := true; Relay.error := None;
           Relay.attempts := 1; Relay.statusCode := Some 200 |},
        [EvFetch 1 url headers body])) /\
  (forall B (net : Network) url (body : B) headers options,
     let run := Relay.sendRelayRequest net url body headers options in
     Relay.success (fst run) = true -> Relay.error (fst run) = None) /\
  (forall P (net : Network) url (payload : P) options,
     let run := Discord.sendDiscordWebhook net url payload options in
     Discord.success (fst run) = true -> Discord.error (fst run) = None).
Proof.
  split; [|split; [|split; [|split]]].
  - intros B net url body headers options k status text Hk Hall Hobs Hok run.
    unfold run.
    rewrite (relay_run_returns net url body headers options k
               {| Relay.success := true; Relay.error := None;
                  Relay.attempts := k; Relay.statusCode := Some status |});
      [| lia | exact Hall | intros ls; eapply relay_once_success; eauto].
    cbn [fst snd]. split; [reflexivity | split].
    + unfold endsWithRequest. do 4 eexists. reflexivity.
    + rewrite requests_app, requests_retried. cbn. lia.
  - intros P net url payload options k status text Hk Hall Hobs Hok run.
    unfold run.
    rewrite (discord_run_returns net url payload options k
               {| Discord.success := true; Discord.error := None;
                  Discord.attempts := k |});
      [| lia | exact Hall | eapply discord_once_success; eauto].
    cbn [fst snd]. split; [reflexivity | split].
    + unfold endsWithRequest. do 4 eexists. reflexivity.
    + rewrite requests_app, requests_retried. cbn. lia.
  - intros B net url body headers options text HN Hobs.
    rewrite (relay_run_returns net url body headers options 1
               {| Relay.success := true; Relay.error := None;
                  Relay.attempts := 1; Relay.statusCode := Some 200 |});
      [reflexivity | lia | intros j Hj; lia |].
    intros ls. eapply relay_once_success; eauto.
  - intros B net url body headers options run.
    apply relay_loop_success_no_error.
  - intros P net url payload options run.
    apply discord_loop_success_no_error.
Qed.

Lemma C5_success_witness :
  let net := Sample.script [Responded 503 None; Responded 204 (Some "")] in
  let run := Relay.sendRelayRequest net "https://example.test/hook" tt ∅ None in
  fst run = {| Relay.success := true; Relay.error := None;
               Relay.attempts := 2; Relay.statusCode := Some 204 |} /\
  endsWithRequest (snd run) 2 /\
  requests (snd run) = Z.to_nat 2.
Proof.
  intros net run.
  apply (proj1 C5_success_returns_at_once unit net "https://example.test/hook" tt ∅ None
           2 204 (Some "")).
  - cbn. lia.
  - intros j Hj. assert (j = 1) as -> by lia. reflexivity.
  - reflexivity.
  - reflexivity.
Defined.

(** C6, as the code has it.  In [sendRelayRequest] every attempt arms
    its own abort timer with [timeoutMs] (30000 when the option is
    absent); the timer runs for [timeoutMs] ms when
    [1 <= timeoutMs <= 2147483647] and for 1 ms otherwise.  An attempt
    whose exchange outlasts the timer is aborted: it leaves
    [Request timeout (<timeoutMs>ms)] in [lastError] and counts as one
    retryably failed attempt (request [k + 1] follows when [k] is not the
    last attempt, and the result after the last attempt carries that
    text).  The abort concerns that attempt alone: when the next attempt
    is answered 2xx within its own timer, the delivery succeeds on it.
    With [timeoutMs = 0] the timeout is not switched off: every attempt
    whose exchange takes more than 1 ms is aborted. *)
Theorem C6_timeout :
  (forall B (net : Network) url (body : B) headers options k,
     let timeout := Relay.timeoutMsOf options in
     let N := Relay.maxAttemptsOf options in
     let run := Relay.sendRelayRequest net url body headers options in
     1 <= k <= N ->
     (forall j, 1 <= j < k -> failsRetryably (relayObserved timeout net j) = true) ->
     timerDelay timeout < latency (net k) ->
     (forall ls, Relay.attemptOnce net timeout k ls
                 = Relay.Continue (timeoutText timeout) ls) /\
     failsRetryably (relayObserved timeout net k) = true /\
     (k < N -> requested (snd run) (k + 1)) /\
     (k = N -> Relay.success (fst run) = false /\ Relay.attempts (fst run) = N /\
               Relay.error (fst run) = Some (timeoutText timeout)) /\
     (forall status text,
        k < N -> latency (net (k + 1)) <= timerDelay timeout ->
        settled (net (k + 1)) = Responded status text -> Js.ok status = true ->
        fst run = {| Relay.success := true; Relay.error := None;
                     Relay.attempts := k + 1; Relay.statusCode := Some status |})) /\
  (forall timeout,
     (1 <= timeout <= 2147483647 -> timerDelay timeout = timeout) /\
     (timeout < 1 \/ 2147483647 < timeout -> timerDelay timeout = 1)) /\
  (forall options,
     options ≫= Relay.timeoutMs = None -> Relay.timeoutMsOf options = 30000) /\
  (forall B (net : Network) url (body : B) headers maxAttempts baseDelayMs,
     let options := Some {| Relay.maxAttempts := maxAttempts;
                            Relay.baseDelayMs := baseDelayMs;
                            Relay.timeoutMs := Some 0 |} in
     let N := Relay.maxAttemptsOf options in
     1 <= N ->
     (forall j, 1 <= j <= N -> 1 < latency (net j)) ->
     fst (Relay.sendRelayRequest net url body headers options)
     = {| Relay.success := false; Relay.error := Some (timeoutText 0);
          Relay.attempts := N; Relay.statusCode := None |}).
Proof.
  assert (Habort : forall (net : Network) timeout j,
            timerDelay timeout < latency (net j) ->
            relayObserved timeout net j
            = Rejected (Js.JsError "AbortError" "This operation was aborted")).
  { intros net timeout j Hlate. unfold relayObserved, fetchWithTimeout.
    apply Z.ltb_lt in Hlate. rewrite Hlate. reflexivity. }
  split; [|split; [|split]].
  - intros B net url body headers options k timeout N run Hk Hall Hlate.
    pose proof (Habort net timeout k Hlate) as Hobs.
    assert (Hfail : failsRetryably (relayObserved timeout net k) = true)
      by (rewrite Hobs; reflexivity).
    assert (Hupto : forall j, 1 <= j <= k ->
              failsRetryably (relayObserved timeout net j) = true).
    { intros j Hj. destruct (Z.eq_dec j k) as [-> | Hne]; [exact Hfail | apply Hall; lia]. }
    split; [|split; [exact Hfail | split; [|split]]].
    + intros ls. rewrite relay_once_retry by exact Hfail. rewrite Hobs. reflexivity.
    + intros Hlt.
      destruct (relay_run_retry_next net url body headers options k) as [post Htr];
        [fold N; lia | exact Hupto |].
      unfold requested, run. rewrite Htr. do 3 eexists.
      apply in_or_app. right. right. apply in_or_app. right. left. reflexivity.
    + intros ->. unfold run.
      rewrite relay_run_exhausted by (try exact Hupto; fold N; lia).
      cbn [fst Relay.success Relay.attempts Relay.error].
      fold N timeout. rewrite Hobs. repeat split.
    + intros status text Hlt Hnext Hsettled Hok. unfold run.
      rewrite (relay_run_returns net url body headers options (k + 1)
                 {| Relay.success := true; Relay.error := None;
                    Relay.attempts := k + 1; Relay.statusCode := Some status |});
        [reflexivity | fold N; lia | intros j Hj; apply Hupto; lia |].
      intros ls. apply (relay_once_success net timeout (k + 1) ls status text);
        [|exact Hok].
      unfold relayObserved, fetchWithTimeout.
      apply Z.ltb_ge in Hnext. fold timeout. rewrite Hnext. exact Hsettled.
  - intros timeout. split;
      [apply timerDelay_in_range | apply timerDelay_out_of_range].
  - intros options Habsent. unfold Relay.timeoutMsOf. rewrite Habsent. reflexivity.
  - intros B net url body headers maxAttempts baseDelayMs options N HN Hlate.
    assert (Hobs : forall j, 1 <= j <= N ->
              relayObserved 0 net j
              = Rejected (Js.JsError "AbortError" "This operation was aborted")).
    { intros j Hj. apply Habort. change (timerDelay 0) with 1. apply Hlate, Hj. }
    rewrite relay_run_exhausted;
      [| exact HN
       | intros j Hj; change (Relay.timeoutMsOf options) with 0;
         rewrite Hobs by exact Hj; reflexivity].
    cbn [fst]. fold N. change (Relay.timeoutMsOf options) with 0.
    rewrite (Hobs N) by lia.
    rewrite statusAfter_none; [reflexivity|].
    intros j Hj. eexists. apply Hobs. lia.
Qed.

Lemma C6_timeout_witness :
  let net : Network :=
    fun n => {| latency := if n =? 1 then 45000 else 20;
                settled := Responded 200 (Some "ok") |} in
  let run := Relay.sendRelayRequest net "https://example.test/hook" tt ∅ None in
  (forall ls, Relay.attemptOnce net 30000 1 ls = Relay.Continue (timeoutText 30000) ls) /\
  failsRetryably (relayObserved 30000 net 1) = true /\
  (1 < 3 -> requested (snd run) (1 + 1)) /\
  (1 = 3 -> Relay.success (fst run) = false /\ Relay.attempts (fst run) = 3 /\
            Relay.error (fst run) = Some (timeoutText 30000)) /\
  (forall status text,
     1 < 3 -> latency (net (1 + 1)) <= timerDelay 30000 ->
     settled (net (1 + 1)) = Responded status text -> Js.ok status = true ->
     fst run = {| Relay.success := true; Relay.error := None;
                  Relay.attempts := 1 + 1; Relay.statusCode := Some status |}).
Proof.
  intros net.
  apply (proj1 C6_timeout unit net "https://example.test/hook" tt ∅ None 1).
  - cbn. lia.
  - intros j Hj. lia.
  - cbn. lia.
Defined.

(** The run of the witness: the first attempt is aborted after 30 s, the
    second is answered within its own timer. *)
Example timeout_then_success :
  let net : Network :=
    fun n => {| latency := if n =? 1 then 45000 else 20;
                settled := Responded 200 (Some "ok") |} in
  fst (Relay.sendRelayRequest net "https://example.test/hook" tt ∅ None)
  = {| Relay.success := true; Relay.error := None;
       Relay.attempts := 2; Relay.statusCode := Some 200 |}.
Proof. reflexivity. Qed.

(** C6 as worded fails for [timeoutMs = 0]: the remote answers 200 to
    every attempt after 20 ms, and every attempt is aborted. *)
Lemma C6_counterexample :
  let net := Sample.always (Responded 200 (Some "ok")) in
  let options := Some {| Relay.maxAttempts := None; Relay.baseDelayMs := None;
                         Relay.timeoutMs := Some 0 |} in
  (forall j, settled (net j) = Responded 200 (Some "ok")) /\
  fst (Relay.sendRelayRequest net "https://example.test/hook" tt ∅ options)
  = {| Relay.success := false; Relay.error := Some "Request timeout (0ms)";
       Relay.attempts := 3; Relay.statusCode := None |}.
Proof. cbv zeta. split; [intros j|]; reflexivity. Qed.

(** *** The two retry loops side by side *)

Lemma relay_discord_once (net : Network) (timeout a : Z) (ls : option Z) :
  latency (net a) <= timerDelay timeout ->
  namedAbort (settled (net a)) = false ->
  match Relay.attemptOnce net timeout a ls, Discord.attemptOnce net a with
  | Relay.Return r, Discord.Return d => summary r = d
  | Relay.Continue le _, Discord.Continue le' => le = le'
  | _, _ => False
  end.
Proof.
  intros Hlat Hname. unfold Relay.attemptOnce, Discord.attemptOnce, fetchWithTimeout, fetch.
  apply Z.ltb_ge in Hlat. rewrite Hlat.
  destruct (settled (net a)) as [status text | [name message | ]].
  - destruct (Js.ok status); [reflexivity|].
    destruct (negb (shouldRetry status)); reflexivity.
  - cbn in Hname. cbn. rewrite Hname. reflexivity.
  - reflexivity.
Qed.

Lemma relay_discord_loop {P} (net : Network) (url : string) (payload : P)
    (maxA base timeout : Z) (r : nat) :
  forall (a : Z) (le : string) (ls : option Z),
    (forall j, a <= j < a + Z.of_nat r ->
       latency (net j) <= timerDelay timeout /\ namedAbort (settled (net j)) = false) ->
    let relay := Relay.attemptLoop net url payload Discord.jsonHeaders
                   maxA base timeout r a le ls in
    (summary (fst relay), snd relay) = Discord.attemptLoop net url payload maxA base r a le.
Proof.
  induction r as [|r IH]; intros a le ls Hall; [reflexivity|].
  cbv zeta. cbn [Relay.attemptLoop Discord.attemptLoop].
  destruct (Hall a ltac:(lia)) as [Hlat Hname].
  pose proof (relay_discord_once net timeout a ls Hlat Hname) as Honce.
  destruct (Relay.attemptOnce net timeout a ls) as [res | le' ls'],
           (Discord.attemptOnce net a) as [d | le'']; try contradiction.
  - cbn [fst snd]. rewrite Honce. reflexivity.
  - subst le''.
    specialize (IH (a + 1) le' ls' ltac:(intros j Hj; apply Hall; lia)).
    cbv zeta in IH.
    destruct (Relay.attemptLoop net url payload Discord.jsonHeaders maxA base timeout
                r (a + 1) le' ls') as [res tr].
    destruct (Discord.attemptLoop net url payload maxA base r (a + 1) le') as [d dtr].
    cbn [fst snd] in *. injection IH as -> ->. reflexivity.
Qed.

Lemma discord_loop_requests_le {P} (net : Network) (url : string) (payload : P)
    (maxA base : Z) (r : nat) : forall (a : Z) (le : string),
  (requests (snd (Discord.attemptLoop net url payload maxA base r a le)) <= r)%nat.
Proof.
  induction r as [|r IH]; intros a le; [cbn; lia|].
  cbn [Discord.attemptLoop]. destruct (Discord.attemptOnce net a) as [res | le'].
  - cbn. lia.
  - specialize (IH (a + 1) le').
    destruct (Discord.attemptLoop net url payload maxA base r (a + 1) le') as [res tr].
    cbn [snd] in *.
    change (EvFetch a url Discord.jsonHeaders payload :: backoff maxA base a ++ tr)
      with ([EvFetch a url Discord.jsonHeaders payload] ++ backoff maxA base a ++ tr).
    rewrite !requests_app, requests_backoff. cbn. lia.
Qed.

(** C3, as the code has it.  [sendRelayRequest] and the retrying
    [sendDiscordWebhook] issue at most [maxAttempts] requests (3 by
    default), and whenever the relay's abort timer fires in no attempt
    (no exchange outlasts the delay the timer is armed with) and no
    rejection is named [AbortError] they perform the same requests and
    waits and return the same [success], [error] and [attempts] (the
    relay result carrying [statusCode] in addition).  The
    moderation-webhooks [sendDiscordWebhook] that takes no options issues
    exactly one request and returns the [success] and [error] of the
    retrying function run with [maxAttempts = 1]. *)
Theorem C3_delivery_variants :
  (forall P (net : Network) url (payload : P) maxAttempts baseDelayMs timeoutMs,
     let relayOptions := Some {| Relay.maxAttempts := maxAttempts;
                                 Relay.baseDelayMs := baseDelayMs;
                                 Relay.timeoutMs := timeoutMs |} in
     let retryOptions := Some {| Discord.maxAttempts := maxAttempts;
                                 Discord.baseDelayMs := baseDelayMs |} in
     let relay := Relay.sendRelayRequest net url payload Discord.jsonHeaders relayOptions in
     let discord := Discord.sendDiscordWebhook net url payload retryOptions in
     (requests (snd relay) <= Z.to_nat (default 3%Z maxAttempts))%nat /\
     (requests (snd discord) <= Z.to_nat (default 3%Z maxAttempts))%nat /\
     ((forall j, 1 <= j <= default 3 maxAttempts ->
         latency (net j) <= timerDelay (default 30000 timeoutMs) /\
         namedAbort (settled (net j)) = false) ->
      (summary (fst relay), snd relay) = discord)) /\
  (forall P (net : Network) url (payload : P) baseDelayMs,
     let once := DiscordOnce.sendDiscordWebhook net url payload in
     let discord := Discord.sendDiscordWebhook net url payload
                      (Some {| Discord.maxAttempts := Some 1;
                               Discord.baseDelayMs := baseDelayMs |}) in
     requests (snd once) = 1%nat /\
     (verdict (fst discord), snd discord) = once).
Proof.
  split.
  - intros P net url payload maxAttempts baseDelayMs timeoutMs
           relayOptions retryOptions relay discord.
    split; [apply relay_loop_requests_le | split; [apply discord_loop_requests_le|]].
    intros Hall. unfold relay, discord, Relay.sendRelayRequest, Discord.sendDiscordWebhook.
    cbv zeta. apply relay_discord_loop.
    intros j Hj. apply Hall.
    unfold retryOptions in Hj. destruct maxAttempts; cbn in Hj |- *; lia.
  - intros P net url payload baseDelayMs once discord. split; [reflexivity|].
    change discord
      with (Discord.attemptLoop net url payload 1 (default 1000 baseDelayMs) 1%nat 1 "").
    unfold once, DiscordOnce.sendDiscordWebhook.
    cbn [Discord.attemptLoop]. unfold Discord.attemptOnce.
    destruct (fetch (net 1)) as [status text | err]; [|reflexivity].
    destruct (Js.ok status) eqn:Hok; cbn [negb]; [reflexivity|].
    destruct (shouldRetry status); reflexivity.
Qed.

Lemma C3_delivery_variants_witness :
  let net := Sample.script [Responded 429 (Some "slow down"); Responded 204 None] in
  let relay := Relay.sendRelayRequest net "https://example.test/hook" tt Discord.jsonHeaders
                 (Some {| Relay.maxAttempts := None; Relay.baseDelayMs := Some 100;
                          Relay.timeoutMs := None |}) in
  let discord := Discord.sendDiscordWebhook net "https://example.test/hook" tt
                   (Some {| Discord.maxAttempts := None;
                            Discord.baseDelayMs := Some 100 |}) in
  (summary (fst relay), snd relay) = discord.
Proof.
  intros net.
  apply (proj1 C3_delivery_variants unit net "https://example.test/hook" tt
           None (Some 100) None).
  intros j Hj. split; [cbn; lia|].
  cbn in Hj. assert (Hc : j = 1 \/ j = 2 \/ j = 3) by lia.
  destruct Hc as [-> | [-> | ->]]; reflexivity.
Defined.

(** C3 as worded fails in three ways.  On the variant without retries:
    a 500 followed by a 200 is a success after two attempts for
    [sendRelayRequest] and for the retrying [sendDiscordWebhook], and a
    failure after one request for the variant of moderation-webhooks
    that takes no options.  On a slow remote: a 200 that arrives after
    45 s is a success on the first attempt for the retrying
    [sendDiscordWebhook], which has no timer, and a failure after three
    aborted attempts for [sendRelayRequest].  On a rejection named
    [AbortError] that the transport raises by itself: the two record
    different error texts. *)
Lemma C3_counterexample :
  (let net := Sample.script [Responded 500 (Some "down"); Responded 200 (Some "ok")] in
   let relay :=
     Relay.sendRelayRequest net "https://example.test/hook" tt Discord.jsonHeaders None in
   let discord := Discord.sendDiscordWebhook net "https://example.test/hook" tt None in
   let once := DiscordOnce.sendDiscordWebhook net "https://example.test/hook" tt in
   Relay.success (fst relay) = true /\ Relay.attempts (fst relay) = 2 /\
   Discord.success (fst discord) = true /\ Discord.attempts (fst discord) = 2 /\
   DiscordOnce.success (fst once) = false /\
   DiscordOnce.error (fst once) = Some "HTTP 500: down" /\
   requests (snd once) = 1%nat /\ requests (snd relay) = 2%nat /\
   DiscordOnce.success (fst once) <> Relay.success (fst relay)) /\
  (let net : Network :=
     fun _ => {| latency := 45000; settled := Responded 200 (Some "ok") |} in
   let relay :=
     Relay.sendRelayRequest net "https://example.test/hook" tt Discord.jsonHeaders None in
   let discord := Discord.sendDiscordWebhook net "https://example.test/hook" tt None in
   fst relay = {| Relay.success := false; Relay.error := Some "Request timeout (30000ms)";
                  Relay.attempts := 3; Relay.statusCode := None |} /\
   requests (snd relay) = 3%nat /\
   discord = ({| Discord.success := true; Discord.error := None; Discord.attempts := 1 |},
              [EvFetch 1 "https://example.test/hook" Discord.jsonHeaders tt]) /\
   summary (fst relay) <> fst discord) /\
  (let net := Sample.always (Rejected (Js.JsError "AbortError" "socket closed")) in
   let relay :=
     Relay.sendRelayRequest net "https://example.test/hook" tt Discord.jsonHeaders None in
   let discord := Discord.sendDiscordWebhook net "https://example.test/hook" tt None in
   (forall j, latency (net j) <= timerDelay 30000) /\
   Relay.error (fst relay) = Some "Request timeout (30000ms)" /\
   Discord.error (fst discord) = Some "socket closed" /\
   summary (fst relay) <> fst discord).
Proof.
  cbv zeta. split; [|split].
  - repeat split; try reflexivity. vm_compute. discriminate.
  - split; [reflexivity | split; [reflexivity | split; [reflexivity|]]].
    vm_compute. discriminate.
  - split; [intros j; vm_compute; discriminate|].
    split; [reflexivity | split; [reflexivity|]].
    vm_compute. discriminate.
Qed.

End Delivery.

(** ** Outbound headers of the relay *)

Section RelayHeaders.
Import Spec.

Lemma forwardSentinel_union (originalHeaders headers : gmap string string) :
  Relay.forwardSentinel originalHeaders headers
  = filter (fun kv => sentinelKey kv.1 = true) originalHeaders ∪ headers.
Proof.
  unfold Relay.forwardSentinel.
  apply (map_fold_weak_ind
           (fun r m => r = filter (fun kv => sentinelKey kv.1 = true) m ∪ headers)).
  - rewrite map_filter_empty, (left_id_L ∅ (∪)). reflexivity.
  - intros key value m r Hfresh ->.
    fold (sentinelKey key). destruct (sentinelKey key) eqn:Hk.
    + rewrite map_filter_insert_True by exact Hk.
      rewrite insert_union_l. reflexivity.
    + rewrite map_filter_insert_not by (intros y Hy; cbv beta in Hy; cbn [fst] in Hy; congruence).
      reflexivity.
Qed.

Lemma addAll_union (custom headers : gmap string string) :
  Relay.addAll custom headers = custom ∪ headers.
Proof.
  unfold Relay.addAll.
  apply (map_fold_weak_ind (fun r m => r = m ∪ headers)).
  - rewrite (left_id_L ∅ (∪)). reflexivity.
  - intros key value m r Hfresh ->. rewrite insert_union_l. reflexivity.
Qed.

Lemma forwardSentinel_agree (h1 h2 headers : gmap string string) :
  (forall key, sentinelKey key = true -> h1 !! key = h2 !! key) ->
  Relay.forwardSentinel h1 headers = Relay.forwardSentinel h2 headers.
Proof.
  intros Hagree. rewrite !forwardSentinel_union. f_equal.
  apply map_filter_strong_ext_1. intros key value. cbn [fst].
  split; intros [Hk Hv]; (split; [exact Hk|]).
  - rewrite <- (Hagree key Hk). exact Hv.
  - rewrite (Hagree key Hk). exact Hv.
Qed.

Lemma forwardSentinel_keeps (originalHeaders headers : gmap string string) key :
  is_Some (headers !! key) ->
  is_Some (Relay.forwardSentinel originalHeaders headers !! key).
Proof.
  intros H. rewrite forwardSentinel_union. apply lookup_union_is_Some. right. exact H.
Qed.

Lemma addAll_keeps (custom headers : gmap string string) key :
  is_Some (headers !! key) -> is_Some (Relay.addAll custom headers !! key).
Proof.
  intros H. rewrite addAll_union. apply lookup_union_is_Some. right. exact H.
Qed.

Lemma buildRelayHeaders_secret (originalHeaders : gmap string string)
    (config : RelayTypes.IntegrationConfig) :
  Relay.buildRelayHeaders originalHeaders config
  = match RelayTypes.secretHeader config, RelayTypes.secretValue config with
    | Some secretHeader, Some secretValue =>
        if Js.truthy (Some secretHeader) && Js.truthy (Some secretValue)
        then <[secretHeader := secretValue]>
               (Relay.buildRelayHeaders originalHeaders (withoutSecret config))
        else Relay.buildRelayHeaders originalHeaders (withoutSecret config)
    | _, _ => Relay.buildRelayHeaders originalHeaders (withoutSecret config)
    end.
Proof.
  unfold Relay.buildRelayHeaders. cbn [withoutSecret RelayTypes.secretHeader
    RelayTypes.secretValue RelayTypes.customHeaders RelayTypes.includeOriginalHeaders].
  destruct (RelayTypes.secretHeader config), (RelayTypes.secretValue config); reflexivity.
Qed.

(** C10.  The outbound headers depend on the inbound headers only
    through the entries whose lowercased name starts with [x-sentinel-];
    they always have a [Content-Type] entry; and the secret header is set
    to the secret value when both are non-empty, and otherwise nothing is
    added for it. *)
Theorem C10_relay_headers :
  (forall (h1 h2 : gmap string string) config,
     (forall key, sentinelKey key = true -> h1 !! key = h2 !! key) ->
     Relay.buildRelayHeaders h1 config = Relay.buildRelayHeaders h2 config) /\
  (forall (originalHeaders : gmap string string) config,
     is_Some (Relay.buildRelayHeaders originalHeaders config !! "Content-Type")) /\
  (forall (originalHeaders : gmap string string) config secretHeader secretValue,
     RelayTypes.secretHeader config = Some secretHeader ->
     RelayTypes.secretValue config = Some secretValue ->
     secretHeader <> "" -> secretValue <> "" ->
     Relay.buildRelayHeaders originalHeaders config
     = <[secretHeader := secretValue]>
         (Relay.buildRelayHeaders originalHeaders (withoutSecret config)) /\
     Relay.buildRelayHeaders originalHeaders config !! secretHeader = Some secretValue) /\
  (forall (originalHeaders : gmap string string) config,
     Js.truthy (RelayTypes.secretHeader config)
       && Js.truthy (RelayTypes.secretValue config) = false ->
     Relay.buildRelayHeaders originalHeaders config
     = Relay.buildRelayHeaders originalHeaders (withoutSecret config)).
Proof.
  split; [|split; [|split]].
  - intros h1 h2 config Hagree. unfold Relay.buildRelayHeaders.
    destruct (default true (RelayTypes.includeOriginalHeaders config)); [|reflexivity].
    rewrite (forwardSentinel_agree h1 h2 _ Hagree). reflexivity.
  - intros originalHeaders config. unfold Relay.buildRelayHeaders.
    set (h0 := ({[ "Content-Type" := "application/json" ]} : gmap string string)).
    assert (H0 : is_Some (h0 !! "Content-Type")).
    { unfold h0. rewrite lookup_singleton_eq. eexists. reflexivity. }
    set (h1 := if default true (RelayTypes.includeOriginalHeaders config)
               then Relay.forwardSentinel originalHeaders h0 else h0).
    assert (H1 : is_Some (h1 !! "Content-Type")).
    { unfold h1. destruct (default true _); [apply forwardSentinel_keeps|]; exact H0. }
    set (h2 := match RelayTypes.customHeaders config with
               | Some custom => Relay.addAll custom h1
               | None => h1
               end).
    assert (H2 : is_Some (h2 !! "Content-Type")).
    { unfold h2. destruct (RelayTypes.customHeaders config); [apply addAll_keeps|]; exact H1. }
    destruct (RelayTypes.secretHeader config) as [sh|], (RelayTypes.secretValue config) as [sv|];
      try exact H2.
    destruct (Js.truthy (Some sh) && Js.truthy (Some sv)); [|exact H2].
    rewrite lookup_insert. case_decide; [eexists; reflexivity | exact H2].
  - intros originalHeaders config sh sv Hh Hv Hhne Hvne.
    assert (Heq : Relay.buildRelayHeaders originalHeaders config
                  = <[sh := sv]> (Relay.buildRelayHeaders originalHeaders (withoutSecret config))).
    { rewrite buildRelayHeaders_secret, Hh, Hv.
      destruct sh; [congruence|]. destruct sv; [congruence|]. reflexivity. }
    split; [exact Heq|]. rewrite Heq. apply lookup_insert_eq.
  - intros originalHeaders config Hfalsy.
    rewrite buildRelayHeaders_secret.
    destruct (RelayTypes.secretHeader config) as [sh|], (RelayTypes.secretValue config) as [sv|];
      try reflexivity.
    rewrite Hfalsy. reflexivity.
Qed.

Lemma C10_relay_headers_witness :
  Relay.buildRelayHeaders
    (<["X-Sentinel-Event" := "chat.message"]> {[ "cookie" := "session=1" ]})
    Sample.relayConfig
  = Relay.buildRelayHeaders
      (<["X-Sentinel-Event" := "chat.message"]> {[ "authorization" := "Bearer t" ]})
      Sample.relayConfig.
Proof.
  apply (proj1 C10_relay_headers).
  intros key Hkey.
  destruct (decide (key = "X-Sentinel-Event")) as [-> | Hne].
  - rewrite !lookup_insert_eq. reflexivity.
  - rewrite !lookup_insert_ne by congruence.
    destruct (decide (key = "cookie")) as [-> | Hc]; [discriminate Hkey|].
    destruct (decide (key = "authorization")) as [-> | Ha]; [discriminate Hkey|].
    rewrite !lookup_singleton_ne by congruence. reflexivity.
Defined.

End RelayHeaders.

(** ** The inbound gate and the relay handler *)

Section Handlers.
Import Net Sdk Spec.

Lemma truthy_spec (s : option string) :
  Js.truthy s = true <-> exists v, s = Some v /\ v <> "".
Proof.
  split.
  - destruct s as [[|c v]|]; cbn; try discriminate. intros _. eexists. split; [reflexivity|discriminate].
  - intros (v & -> & Hv). destruct v; [congruence | reflexivity].
Qed.

Lemma falsy_spec (s : option string) :
  Js.truthy s = false <-> s = None \/ s = Some "".
Proof.
  split.
  - destruct s as [[|c v]|]; cbn; try discriminate; auto.
  - intros [-> | ->]; reflexivity.
Qed.



(** C7, as the code has it.  With a truthy webhook secret, every
    handler answers a request whose [x-sentinel-signature] header is
    absent or empty with [{ok: false, message: Missing signature header}]
    and a request whose non-empty signature fails verification with
    [{ok: false, message: Invalid signature}]; in both cases it has
    neither parsed the body nor run a handler nor sent anything. *)
Theorem C7_signature_gate :
  forall (E : Externals),
  (forall ctx net rawBody (headers : gmap string string),
     Js.truthy (RelayTypes.webhookSecret ctx) = true ->
     ((headers !! signatureHeader = None \/ headers !! signatureHeader = Some "") ->
        RelayHandler.handleWebhook ctx net rawBody headers
        = (Js.Returned {| ok := false; message := "Missing signature header" |}, [])) /\
     (forall signature secret,
        headers !! signatureHeader = Some signature -> signature <> "" ->
        RelayTypes.webhookSecret ctx = Some secret ->
        verifyWebhookSignature rawBody signature secret = false ->
        RelayHandler.handleWebhook ctx net rawBody headers
        = (Js.Returned {| ok := false; message := "Invalid signature" |}, []))) /\
  (forall P webhookSecret
          (router : Decoded -> Js.Completion WebhookResponse * list (Event P))
          rawBody (headers : gmap string string),
     Js.truthy webhookSecret = true ->
     ((headers !! signatureHeader = None \/ headers !! signatureHeader = Some "") ->
        DiscordHandler.handleWebhook webhookSecret router rawBody headers
        = (Js.Returned {| ok := false; message := "Missing signature header" |}, [])) /\
     (forall signature secret,
        headers !! signatureHeader = Some signature -> signature <> "" ->
        webhookSecret = Some secret ->
        verifyWebhookSignature rawBody signature secret = false ->
        DiscordHandler.handleWebhook webhookSecret router rawBody headers
        = (Js.Returned {| ok := false; message := "Invalid signature" |}, []))).
Proof.
  intros E. split.
  - intros ctx net rawBody headers Hsecret. unfold RelayHandler.handleWebhook.
    rewrite Hsecret. fold signatureHeader. split.
    + intros Hmissing. apply falsy_spec in Hmissing. rewrite Hmissing. reflexivity.
    + intros signature secret Hsig Hne Hsec Hverify.
      assert (Ht : Js.truthy (headers !! signatureHeader) = true)
        by (apply truthy_spec; eauto).
      rewrite Ht, Hsig, Hsec. cbn [negb default from_option id]. rewrite Hverify. reflexivity.
  - intros P webhookSecret router rawBody headers Hsecret.
    unfold DiscordHandler.handleWebhook.
    rewrite Hsecret. fold signatureHeader. split.
    + intros Hmissing. apply falsy_spec in Hmissing. rewrite Hmissing. reflexivity.
    + intros signature secret Hsig Hne Hsec Hverify.
      assert (Ht : Js.truthy (headers !! signatureHeader) = true)
        by (apply truthy_spec; eauto).
      rewrite Ht, Hsig, Hsec. cbn [negb default from_option id]. rewrite Hverify. reflexivity.
Qed.

Lemma C7_signature_gate_witness :
  let ctx := {| RelayTypes.config := Sample.relayConfig;
                RelayTypes.webhookSecret := Some "s3cret" |} in
  let headers : gmap string string := {[ signatureHeader := "forged" ]} in
  RelayHandler.handleWebhook (E := Sample.externals) ctx
    (Sample.always (Responded 200 None)) "chat.message" headers
  = (Js.Returned {| ok := false; message := "Invalid signature" |}, []).
Proof.
  intros ctx headers.
  apply (proj2 (proj1 (C7_signature_gate Sample.externals) ctx
                  (Sample.always (Responded 200 None)) "chat.message" headers
                  eq_refl) "forged" "s3cret").
  - reflexivity.
  - discriminate.
  - reflexivity.
  - reflexivity.
Defined.

(** C7 as worded fails on an empty signature header: the header is
    present and does not verify, and the answer is the one for a missing
    header. *)
Lemma C7_counterexample :
  let ctx := {| RelayTypes.config := Sample.relayConfig;
                RelayTypes.webhookSecret := Some "s3cret" |} in
  let headers : gmap string string := {[ signatureHeader := "" ]} in
  headers !! signatureHeader = Some "" /\
  verifyWebhookSignature (Externals := Sample.externals) "chat.message" "" "s3cret" = false /\
  fst (RelayHandler.handleWebhook (E := Sample.externals) ctx
         (Sample.always (Responded 200 None)) "chat.message" headers)
  = Js.Returned {| ok := false; message := "Missing signature header" |} /\
  fst (RelayHandler.handleWebhook (E := Sample.externals) ctx
         (Sample.always (Responded 200 None)) "chat.message" headers)
  <> Js.Returned {| ok := false; message := "Invalid signature" |}.
Proof.
  cbv zeta. split; [reflexivity | split; [reflexivity | split; [reflexivity|]]].
  vm_compute. discriminate.
Qed.

(** The signature block lets the request through: no secret is
    configured, or the non-empty signature verifies. *)
Lemma relay_gate_open {E : Externals} ctx net rawBody (headers : gmap string string) :
  Js.truthy (RelayTypes.webhookSecret ctx) = false \/
  (exists signature secret,
     headers !! signatureHeader = Some signature /\ signature <> "" /\
     RelayTypes.webhookSecret ctx = Some secret /\
     verifyWebhookSignature rawBody signature secret = true) ->
  RelayHandler.handleWebhook ctx net rawBody headers
  = RelayHandler.relay ctx net rawBody headers.
Proof.
  unfold RelayHandler.handleWebhook. fold signatureHeader.
  intros [Hoff | (signature & secret & Hsig & Hne & Hsec & Hverify)].
  - rewrite Hoff. reflexivity.
  - destruct (Js.truthy (RelayTypes.webhookSecret ctx)); [|reflexivity].
    assert (Ht : Js.truthy (headers !! signatureHeader) = true)
      by (apply truthy_spec; eauto).
    rewrite Ht, Hsig, Hsec. cbn [negb default from_option id]. rewrite Hverify. reflexivity.
Qed.

(** C8.  In the webhook-relay handler, once the signature block is
    passed or skipped and the body is decoded: a missing (or empty)
    [targetUrl] gives [{ok: true, message: Target URL not configured,
    skipping}]; an event that matches none of [eventPatterns] gives an
    [ok: true] skip message, which names the event when a target is
    configured; in both cases the only effect is the decoding of the
    body, so no request is sent.  An absent or empty pattern list matches
    every event. *)
Theorem C8_relay_skips :
  forall (E : Externals),
  (forall ctx net rawBody (headers : gmap string string) payload,
     Js.truthy (RelayTypes.webhookSecret ctx) = false \/
     (exists signature secret,
        headers !! signatureHeader = Some signature /\ signature <> "" /\
        RelayTypes.webhookSecret ctx = Some secret /\
        verifyWebhookSignature rawBody signature secret = true) ->
     JSON_parse rawBody = Js.Returned (DPayload payload) ->
     let config := RelayTypes.config ctx in
     let answer := RelayHandler.handleWebhook ctx net rawBody headers in
     (Js.truthy (RelayTypes.targetUrl config) = false ->
        answer = (Js.Returned {| ok := true;
                                 message := "Target URL not configured, skipping" |},
                  [EvParse rawBody])) /\
     (Relay.matchesEventPatterns (event payload) (RelayTypes.eventPatterns config) = false ->
        exists text,
          answer = (Js.Returned {| ok := true; message := text |}, [EvParse rawBody]) /\
          requests (snd answer) = 0%nat /\
          (Js.truthy (RelayTypes.targetUrl config) = true ->
             text = "Event '" +:+ event payload +:+ "' does not match patterns, skipping"))) /\
  (forall eventKind,
     Relay.matchesEventPatterns eventKind None = true /\
     Relay.matchesEventPatterns eventKind (Some []) = true).
Proof.
  intros E. split; [|intros eventKind; split; reflexivity].
  intros ctx net rawBody headers payload Hgate Hparse config answer.
  unfold answer. rewrite relay_gate_open by exact Hgate.
  unfold RelayHandler.relay. rewrite Hparse. fold config. split.
  - intros Hurl. rewrite Hurl. reflexivity.
  - intros Hmatch. rewrite Hmatch. cbn [negb].
    destruct (Js.truthy (RelayTypes.targetUrl config)); cbn [negb].
    + eexists. split; [reflexivity | split; [reflexivity | intros _; reflexivity]].
    + eexists. split; [reflexivity | split; [reflexivity | discriminate]].
Qed.

Lemma C8_relay_skips_witness :
  let ctx := {| RelayTypes.config := Sample.relayConfig; RelayTypes.webhookSecret := None |} in
  let answer := RelayHandler.handleWebhook (E := Sample.externals) ctx
                  (Sample.always (Responded 200 None)) "player.connected" ∅ in
  exists text,
    answer = (Js.Returned {| ok := true; message := text |}, [EvParse "player.connected"]) /\
    requests (snd answer) = 0%nat /\
    (Js.truthy (RelayTypes.targetUrl Sample.relayConfig) = true ->
       text = "Event 'player.connected' does not match patterns, skipping").
Proof.
  intros ctx.
  refine (proj2 (proj1 (C8_relay_skips Sample.externals) ctx
                   (Sample.always (Responded 200 None)) "player.connected" ∅
                   {| event := "player.connected";
                      timestamp := "2024-01-01T00:00:00.000Z";
                      organizationId := "org-1"; userId := None; data := Js.JNull |}
                   _ _) _).
  - left. reflexivity.
  - reflexivity.
  - reflexivity.
Defined.

(** The scenarios of the relay handler, run: no target configured, and
    the pattern list [chat.*] against [player.connected] and
    [chat.message]. *)
Example relay_without_target :
  RelayHandler.handleWebhook (E := Sample.externals)
    {| RelayTypes.config :=
         {| RelayTypes.targetUrl := None; RelayTypes.eventPatterns := None;
            RelayTypes.customHeaders := None; RelayTypes.includeOriginalHeaders := None;
            RelayTypes.transformPayload := None; RelayTypes.maxRetries := None;
            RelayTypes.retryDelayMs := None; RelayTypes.timeoutMs := None;
            RelayTypes.secretHeader := None; RelayTypes.secretValue := None |};
       RelayTypes.webhookSecret := None |}
    (Sample.always (Responded 200 None)) "chat.message" ∅
  = (Js.Returned {| ok := true; message := "Target URL not configured, skipping" |},
     [EvParse "chat.message"]).
Proof. reflexivity. Qed.

Example relay_matching_event_is_sent :
  let answer :=
    RelayHandler.handleWebhook (E := Sample.externals)
      {| RelayTypes.config := Sample.relayConfig; RelayTypes.webhookSecret := None |}
      (Sample.always (Responded 200 None)) "chat.message" ∅ in
  fst answer = Js.Returned {| ok := true; message := "Relayed to (200)" |} /\
  requests (snd answer) = 1%nat.
Proof. split; reflexivity. Qed.

(** A request with a forged signature, sent to a handler whose secret is
    empty: it is relayed, on the second attempt. *)
Example unsigned_request_is_relayed :
  fst (RelayHandler.handleWebhook (E := Sample.externals)
         {| RelayTypes.config := Sample.relayConfig; RelayTypes.webhookSecret := Some "" |}
         (Sample.script [Responded 502 None; Responded 200 None]) "chat.message"
         {[ Spec.signatureHeader := "forged" ]})
  = Js.Returned {| ok := true; message := "Relayed to (200) (2 attempts)" |}.
Proof. reflexivity. Qed.

End Handlers.

(** ** The Discord handlers, run on the sample collaborators *)

Section Scenarios.
Import Net Sdk.

Example server_status_signed_event_is_sent :
  ServerStatus.createHandler (E := Sample.externals) (C := Sample.serverStatus)
    Sample.serverStatusContext (Sample.always (Responded 204 None))
    "gameserver.connected"
    {[ Spec.signatureHeader := Sample.sign "gameserver.connected" "s3cret" ]}
  = (Js.Returned {| ok := true; message := "Sent to Discord" |},
     [EvParse "gameserver.connected";
      EvFetch 1 "https://discord.test/api/webhooks/1" Discord.jsonHeaders "Server Online"]).
Proof. reflexivity. Qed.

Example server_status_update_is_off_by_default :
  ServerStatus.createHandler (E := Sample.externals) (C := Sample.serverStatus)
    Sample.serverStatusContext (Sample.always (Responded 204 None))
    "gameserver.updated"
    {[ Spec.signatureHeader := Sample.sign "gameserver.updated" "s3cret" ]}
  = (Js.Returned {| ok := true; message := "Update notifications disabled, skipping" |},
     [EvParse "gameserver.updated"]).
Proof. reflexivity. Qed.

Example server_status_unsigned_event_is_rejected :
  ServerStatus.createHandler (E := Sample.externals) (C := Sample.serverStatus)
    Sample.serverStatusContext (Sample.always (Responded 204 None))
    "gameserver.connected" ∅
  = (Js.Returned {| ok := false; message := "Missing signature header" |}, []).
Proof. reflexivity. Qed.

Example moderation_exhausts_three_attempts :
  fst (Moderation.createHandler (E := Sample.externals) (C := Sample.moderation)
         Sample.moderationContext (Sample.always (Responded 500 (Some "down")))
         "moderation.ban.created" ∅)
  = Js.Returned {| ok := false;
                   message := "Discord webhook failed after 3 attempts: HTTP 500: down" |}.
Proof. reflexivity. Qed.

Example moderation_unconfigured_event_is_skipped :
  Moderation.createHandler (E := Sample.externals) (C := Sample.moderation)
    Sample.moderationContext (Sample.always (Responded 204 None))
    "moderation.kick.created" ∅
  = (Js.Returned {| ok := true; message := "Webhook URL not configured, skipping" |},
     [EvParse "moderation.kick.created"]).
Proof. reflexivity. Qed.

Example unregistered_event_is_not_an_error :
  exists text,
    Moderation.createHandler (E := Sample.externals) (C := Sample.moderation)
      Sample.moderationContext (Sample.always (Responded 204 None)) "foo.bar" ∅
    = (Js.Returned {| ok := true; message := text |}, [EvParse "foo.bar"]).
Proof. eexists. reflexivity. Qed.

Example pattern_examples :
  matchesPatternSpec "chat.message" "chat.*" = true /\
  matchesPatternSpec "player.connected" "chat.*" = false /\
  matchesPatternSpec "chat.message" "chat.message" = true /\
  matchesPatternSpec "chat.message" "chat" = false.
Proof. repeat split; reflexivity. Qed.

End Scenarios.

(** * Further properties of the sources *)

(** ** The retry loops: budget, counting and shape of the trace *)

Section LoopShape.
Import Net Spec Trace.

Lemma relay_once_return_attempts (net : Network) (timeout a : Z) (ls : option Z)
    (res : Relay.RelayResult) :
  Relay.attemptOnce net timeout a ls = Relay.Return res -> Relay.attempts res = a.
Proof.
  unfold Relay.attemptOnce.
  destruct (fetchWithTimeout timeout (net a)) as [status text | err]; [|discriminate].
  destruct (Js.ok status); [intros [= <-]; reflexivity|].
  destruct (negb (shouldRetry status)); [intros [= <-]; reflexivity | discriminate].
Qed.

Lemma discord_once_return_attempts (net : Network) (a : Z) (res : Discord.WebhookResult) :
  Discord.attemptOnce net a = Discord.Return res -> Discord.attempts res = a.
Proof.
  unfold Discord.attemptOnce.
  destruct (fetch (net a)) as [status text | err]; [|discriminate].
  destruct (Js.ok status); [intros [= <-]; reflexivity|].
  destruct (negb (shouldRetry status)); [intros [= <-]; reflexivity | discriminate].
Qed.

Lemma fetchNumbers_app {B} (l1 l2 : list (Event B)) :
  fetchNumbers (l1 ++ l2) = fetchNumbers l1 ++ fetchNumbers l2.
Proof.
  induction l1 as [|[raw | n u h b | ms] l1 IH]; cbn; rewrite ?IH; reflexivity.
Qed.

Lemma fetchNumbers_backoff {B} (maxA base a : Z) :
  fetchNumbers (backoff (B := B) maxA base a) = [].
Proof. unfold backoff. repeat case_match; reflexivity. Qed.

Lemma deliveryEffect_backoff {B} url headers (body : B) (maxA base a : Z) :
  Forall (deliveryEffect url headers body) (backoff maxA base a).
Proof.
  unfold backoff. destruct (a <? maxA); [|constructor].
  cbv zeta. destruct (positive (backoffDelay base a)) eqn:E; constructor; [|constructor].
  cbn. apply positive_iff, E.
Qed.

(** The invariant of the relay loop entered at attempt [a] with [r]
    iterations to go. *)
Lemma relay_loop_shape {B} (net : Network) url (body : B) headers (maxA base timeout : Z)
    (r : nat) : forall a le ls,
  a + Z.of_nat r = maxA + 1 ->
  let run := Relay.attemptLoop net url body headers maxA base timeout r a le ls in
  a - 1 <= Relay.attempts (fst run) <= maxA /\
  fetchNumbers (snd run) = seqZ a (Relay.attempts (fst run) - a + 1) /\
  Forall (deliveryEffect url headers body) (snd run) /\
  (r = 0%nat /\ snd run = [] \/
   r <> 0%nat /\ endsWithRequest (snd run) (Relay.attempts (fst run))).
Proof.
  induction r as [|r IH]; intros a le ls Ha; cbv zeta.
  - cbn. replace (maxA - a + 1) with 0 by lia.
    repeat split; try lia; [constructor | left; split; reflexivity].
  - cbn [Relay.attemptLoop].
    destruct (Relay.attemptOnce net timeout a ls) as [res | le' ls'] eqn:E.
    + apply relay_once_return_attempts in E. cbn [fst snd]. rewrite E.
      replace (a - a + 1) with 1 by lia.
      repeat split; try lia.
      * constructor; [cbn; auto | constructor].
      * right. split; [discriminate|]. exists [], url, headers, body. reflexivity.
    + specialize (IH (a + 1) le' ls' ltac:(lia)). cbv zeta in IH.
      destruct (Relay.attemptLoop net url body headers maxA base timeout r (a + 1) le' ls')
        as [res tr].
      cbn [fst snd] in *. destruct IH as (Hb & Hn & Hf & He).
      repeat split; try lia.
      * cbn [fetchNumbers]. rewrite fetchNumbers_app, fetchNumbers_backoff, Hn.
        cbn [app].
        replace (Relay.attempts res - a + 1) with (Z.succ (Relay.attempts res - (a + 1) + 1))
          by lia.
        rewrite (seqZ_cons a) by lia.
        replace (Z.succ a) with (a + 1) by lia.
        replace (Z.pred (Z.succ (Relay.attempts res - (a + 1) + 1)))
          with (Relay.attempts res - (a + 1) + 1) by lia.
        reflexivity.
      * constructor; [cbn; auto|].
        apply Forall_app. split; [apply deliveryEffect_backoff | exact Hf].
      * right. split; [discriminate|].
        destruct He as [[-> ->] | [_ (pre & u & h & b & ->)]].
        { rewrite backoff_last by lia.
          exists [], url, headers, body. cbn. f_equal. f_equal. lia. }
        { exists (EvFetch a url headers body :: backoff maxA base a ++ pre), u, h, b.
          rewrite <- app_comm_cons, <- app_assoc. reflexivity. }
Qed.

Lemma discord_loop_shape {P} (net : Network) url (payload : P) (maxA base : Z)
    (r : nat) : forall a le,
  a + Z.of_nat r = maxA + 1 ->
  let run := Discord.attemptLoop net url payload maxA base r a le in
  a - 1 <= Discord.attempts (fst run) <= maxA /\
  fetchNumbers (snd run) = seqZ a (Discord.attempts (fst run) - a + 1) /\
  Forall (deliveryEffect url Discord.jsonHeaders payload) (snd run) /\
  (r = 0%nat /\ snd run = [] \/
   r <> 0%nat /\ endsWithRequest (snd run) (Discord.attempts (fst run))).
Proof.
  induction r as [|r IH]; intros a le Ha; cbv zeta.
  - cbn. replace (maxA - a + 1) with 0 by lia.
    repeat split; try lia; [constructor | left; split; reflexivity].
  - cbn [Discord.attemptLoop].
    destruct (Discord.attemptOnce net a) as [res | le'] eqn:E.
    + apply discord_once_return_attempts in E. cbn [fst snd]. rewrite E.
      replace (a - a + 1) with 1 by lia.
      repeat split; try lia.
      * constructor; [cbn; auto | constructor].
      * right. split; [discriminate|].
        exists [], url, Discord.jsonHeaders, payload. reflexivity.
    + specialize (IH (a + 1) le' ltac:(lia)). cbv zeta in IH.
      destruct (Discord.attemptLoop net url payload maxA base r (a + 1) le') as [res tr].
      cbn [fst snd] in *. destruct IH as (Hb & Hn & Hf & He).
      repeat split; try lia.
      * cbn [fetchNumbers]. rewrite fetchNumbers_app, fetchNumbers_backoff, Hn.
        cbn [app].
        replace (Discord.attempts res - a + 1)
          with (Z.succ (Discord.attempts res - (a + 1) + 1)) by lia.
        rewrite (seqZ_cons a) by lia.
        replace (Z.succ a) with (a + 1) by lia.
        replace (Z.pred (Z.succ (Discord.attempts res - (a + 1) + 1)))
          with (Discord.attempts res - (a + 1) + 1) by lia.
        reflexivity.
      * constructor; [cbn; auto|].
        apply Forall_app. split; [apply deliveryEffect_backoff | exact Hf].
      * right. split; [discriminate|].
        destruct He as [[-> ->] | [_ (pre & u & h & b & ->)]].
        { rewrite backoff_last by lia.
          exists [], url, Discord.jsonHeaders, payload. cbn. f_equal. f_equal. lia. }
        { exists (EvFetch a url Discord.jsonHeaders payload :: backoff maxA base a ++ pre),
                 u, h, b.
          rewrite <- app_comm_cons, <- app_assoc. reflexivity. }
Qed.

Lemma requests_fetchNumbers {B} (tr : list (Event B)) :
  requests tr = length (fetchNumbers tr).
Proof.
  unfold requests. induction tr as [|[raw | n u h b | ms] tr IH]; cbn; rewrite ?IH; reflexivity.
Qed.

End LoopShape.

Section DeliveryBudget.
Import Net Spec Trace.

(** X1.  [sendRelayRequest] and the retrying [sendDiscordWebhook] called with
    [maxAttempts <= 0] skip the loop: no request is issued and the result
    is a failure with the empty error text, [attempts] being the
    [maxAttempts] given. *)
Theorem delivery_without_budget :
  (forall B (net : Network) url (body : B) headers options,
     Relay.maxAttemptsOf options <= 0 ->
     Relay.sendRelayRequest net url body headers options
     = ({| Relay.success := false; Relay.error := Some "";
           Relay.attempts := Relay.maxAttemptsOf options;
           Relay.statusCode := None |}, [])) /\
  (forall P (net : Network) url (payload : P) options,
     Discord.maxAttemptsOf options <= 0 ->
     Discord.sendDiscordWebhook net url payload options
     = ({| Discord.success := false; Discord.error := Some "";
           Discord.attempts := Discord.maxAttemptsOf options |}, [])).
Proof.
  split.
  - intros B net url body headers options Hle. unfold Relay.sendRelayRequest.
    cbv zeta. replace (Z.to_nat (Relay.maxAttemptsOf options)) with 0%nat by lia.
    reflexivity.
  - intros P net url payload options Hle. unfold Discord.sendDiscordWebhook.
    cbv zeta. replace (Z.to_nat (Discord.maxAttemptsOf options)) with 0%nat by lia.
    reflexivity.
Qed.

Lemma delivery_without_budget_witness :
  Relay.sendRelayRequest (Sample.always (Responded 200 None)) "https://example.test/hook"
    tt ∅ (Some {| Relay.maxAttempts := Some 0; Relay.baseDelayMs := None;
                  Relay.timeoutMs := None |})
  = ({| Relay.success := false; Relay.error := Some ""; Relay.attempts := 0;
        Relay.statusCode := None |}, []).
Proof.
  apply (proj1 delivery_without_budget unit (Sample.always (Responded 200 None))).
  cbn. lia.
Defined.

(** X2.  With [maxAttempts >= 1] the [attempts] of the result lie between 1
    and [maxAttempts] and count exactly the requests that were issued. *)
Theorem delivery_attempts_count_requests :
  (forall B (net : Network) url (body : B) headers options,
     1 <= Relay.maxAttemptsOf options ->
     let run := Relay.sendRelayRequest net url body headers options in
     1 <= Relay.attempts (fst run) <= Relay.maxAttemptsOf options /\
     requests (snd run) = Z.to_nat (Relay.attempts (fst run))) /\
  (forall P (net : Network) url (payload : P) options,
     1 <= Discord.maxAttemptsOf options ->
     let run := Discord.sendDiscordWebhook net url payload options in
     1 <= Discord.attempts (fst run) <= Discord.maxAttemptsOf options /\
     requests (snd run) = Z.to_nat (Discord.attempts (fst run))).
Proof.
  split.
  - intros B net url body headers options HN run.
    subst run. unfold Relay.sendRelayRequest. cbv zeta.
    destruct (relay_loop_shape net url body headers (Relay.maxAttemptsOf options)
                (Relay.baseDelayMsOf options) (Relay.timeoutMsOf options)
                (Z.to_nat (Relay.maxAttemptsOf options)) 1 "" None ltac:(lia))
      as (Hb & Hn & _ & He).
    cbv zeta in Hb, Hn, He.
    destruct He as [[H0 _] | [_ (pre & u & h & b & He)]]; [lia|].
    match goal with |- 1 <= ?x <= _ /\ _ => assert (Hpos : 1 <= x) end.
    { match goal with |- 1 <= ?x => destruct (Z_le_gt_dec 1 x) as [|Hgt]; [assumption|] end.
      exfalso. rewrite He, fetchNumbers_app in Hn. cbn [fetchNumbers] in Hn.
      match type of Hn with _ = seqZ 1 ?n => replace n with 0 in Hn by lia end.
      cbn in Hn. destruct (fetchNumbers pre); discriminate. }
    split; [lia|].
    rewrite requests_fetchNumbers, Hn, length_seqZ. lia.
  - intros P net url payload options HN run.
    subst run. unfold Discord.sendDiscordWebhook. cbv zeta.
    destruct (discord_loop_shape net url payload (Discord.maxAttemptsOf options)
                (Discord.baseDelayMsOf options)
                (Z.to_nat (Discord.maxAttemptsOf options)) 1 "" ltac:(lia))
      as (Hb & Hn & _ & He).
    cbv zeta in Hb, Hn, He.
    destruct He as [[H0 _] | [_ (pre & u & h & b & He)]]; [lia|].
    match goal with |- 1 <= ?x <= _ /\ _ => assert (Hpos : 1 <= x) end.
    { match goal with |- 1 <= ?x => destruct (Z_le_gt_dec 1 x) as [|Hgt]; [assumption|] end.
      exfalso. rewrite He, fetchNumbers_app in Hn. cbn [fetchNumbers] in Hn.
      match type of Hn with _ = seqZ 1 ?n => replace n with 0 in Hn by lia end.
      cbn in Hn. destruct (fetchNumbers pre); discriminate. }
    split; [lia|].
    rewrite requests_fetchNumbers, Hn, length_seqZ. lia.
Qed.

Lemma delivery_attempts_count_witness :
  let run := Relay.sendRelayRequest
               (Sample.script [Responded 503 None; Responded 404 None])
               "https://example.test/hook" tt ∅ None in
  1 <= Relay.attempts (fst run) <= 3 /\
  requests (snd run) = Z.to_nat (Relay.attempts (fst run)).
Proof.
  apply (proj1 delivery_attempts_count_requests unit
           (Sample.script [Responded 503 None; Responded 404 None])
           "https://example.test/hook" tt ∅ None).
  cbn. lia.
Defined.

(** X3.  The trace of a delivery with [maxAttempts >= 1]: the requests are
    numbered 1, 2, ... up to [attempts]; each carries the url, headers
    and body of the call; every wait has a positive length; and the last
    effect is the request numbered [attempts], so nothing is waited for
    after the final attempt. *)
Theorem delivery_trace_shape :
  (forall B (net : Network) url (body : B) headers options,
     1 <= Relay.maxAttemptsOf options ->
     let run := Relay.sendRelayRequest net url body headers options in
     fetchNumbers (snd run) = seqZ 1 (Relay.attempts (fst run)) /\
     Forall (deliveryEffect url headers body) (snd run) /\
     endsWithRequest (snd run) (Relay.attempts (fst run))) /\
  (forall P (net : Network) url (payload : P) options,
     1 <= Discord.maxAttemptsOf options ->
     let run := Discord.sendDiscordWebhook net url payload options in
     fetchNumbers (snd run) = seqZ 1 (Discord.attempts (fst run)) /\
     Forall (deliveryEffect url Discord.jsonHeaders payload) (snd run) /\
     endsWithRequest (snd run) (Discord.attempts (fst run))).
Proof.
  split.
  - intros B net url body headers options HN run.
    subst run. unfold Relay.sendRelayRequest. cbv zeta.
    destruct (relay_loop_shape net url body headers (Relay.maxAttemptsOf options)
                (Relay.baseDelayMsOf options) (Relay.timeoutMsOf options)
                (Z.to_nat (Relay.maxAttemptsOf options)) 1 "" None ltac:(lia))
      as (Hb & Hn & Hf & He).
    cbv zeta in Hb, Hn, Hf, He.
    destruct He as [[H0 _] | [_ He]]; [lia|].
    split; [|split; assumption].
    rewrite Hn. f_equal. lia.
  - intros P net url payload options HN run.
    subst run. unfold Discord.sendDiscordWebhook. cbv zeta.
    destruct (discord_loop_shape net url payload (Discord.maxAttemptsOf options)
                (Discord.baseDelayMsOf options)
                (Z.to_nat (Discord.maxAttemptsOf options)) 1 "" ltac:(lia))
      as (Hb & Hn & Hf & He).
    cbv zeta in Hb, Hn, Hf, He.
    destruct He as [[H0 _] | [_ He]]; [lia|].
    split; [|split; assumption].
    rewrite Hn. f_equal. lia.
Qed.

Lemma delivery_trace_shape_witness :
  let run := Relay.sendRelayRequest
               (Sample.script [Responded 503 None; Responded 429 None; Responded 200 None])
               "https://example.test/hook" tt ∅ None in
  fetchNumbers (snd run) = seqZ 1 (Relay.attempts (fst run)) /\
  Forall (deliveryEffect "https://example.test/hook" ∅ tt) (snd run) /\
  endsWithRequest (snd run) (Relay.attempts (fst run)).
Proof.
  apply (proj1 delivery_trace_shape unit
           (Sample.script [Responded 503 None; Responded 429 None; Responded 200 None])
           "https://example.test/hook" tt ∅ None).
  cbn. lia.
Defined.

End DeliveryBudget.

(** ** When a delivery succeeds, and what a failure carries *)

Section DeliveryOutcome.
Import Net Spec Trace.

Lemma relay_once_continue_retryable (net : Network) (timeout a : Z) (ls : option Z) le ls' :
  Relay.attemptOnce net timeout a ls = Relay.Continue le ls' ->
  failsRetryably (relayObserved timeout net a) = true.
Proof.
  unfold Relay.attemptOnce, relayObserved, failsRetryably.
  destruct (fetchWithTimeout timeout (net a)) as [status text | err]; [|reflexivity].
  destruct (Js.ok status); [discriminate|].
  destruct (shouldRetry status); [reflexivity | discriminate].
Qed.

Lemma relay_once_return_cases (net : Network) (timeout a : Z) (ls : option Z) res :
  Relay.attemptOnce net timeout a ls = Relay.Return res ->
  exists status text,
    relayObserved timeout net a = Responded status text /\
    (Js.ok status = true /\
     res = {| Relay.success := true; Relay.error := None;
              Relay.attempts := a; Relay.statusCode := Some status |}
     \/
     Js.ok status = false /\ shouldRetry status = false /\
     res = {| Relay.success := false; Relay.error := Some (httpError status text);
              Relay.attempts := a; Relay.statusCode := Some status |}).
Proof.
  unfold Relay.attemptOnce, relayObserved.
  destruct (fetchWithTimeout timeout (net a)) as [status text | err]; [|discriminate].
  intros H. exists status, text. split; [reflexivity|].
  destruct (Js.ok status); [injection H as <-; left; auto|].
  destruct (shouldRetry status); [discriminate|].
  injection H as <-. right. auto.
Qed.

Lemma relay_loop_success_inv {B} (net : Network) url (body : B) headers
    (maxA base timeout : Z) (r : nat) : forall a le ls,
  Relay.success (fst (Relay.attemptLoop net url body headers maxA base timeout r a le ls))
    = true ->
  exists k status text,
    a <= k < a + Z.of_nat r /\
    (forall j, a <= j < k -> failsRetryably (relayObserved timeout net j) = true) /\
    relayObserved timeout net k = Responded status text /\
    Js.ok status = true.
Proof.
  induction r as [|r IH]; intros a le ls; [cbn; discriminate|].
  cbn [Relay.attemptLoop].
  destruct (Relay.attemptOnce net timeout a ls) as [res | le' ls'] eqn:E.
  - cbn [fst]. intros Hs.
    destruct (relay_once_return_cases _ _ _ _ _ E)
      as (status & text & Hobs & [[Hok ->] | (_ & _ & ->)]); [|discriminate].
    exists a, status, text. repeat split; try lia; assumption.
  - specialize (IH (a + 1) le' ls').
    destruct (Relay.attemptLoop net url body headers maxA base timeout r (a + 1) le' ls')
      as [res tr]. cbn [fst] in *. intros Hs.
    destruct (IH Hs) as (k & status & text & Hk & Hall & Hobs & Hok).
    exists k, status, text. repeat split; try lia; try assumption.
    intros j Hj. destruct (Z.eq_dec j a) as [-> | Hne].
    + eapply relay_once_continue_retryable; eauto.
    + apply Hall. lia.
Qed.

Lemma relay_loop_failure_has_error {B} (net : Network) url (body : B) headers
    (maxA base timeout : Z) (r : nat) : forall a le ls,
  Relay.success (fst (Relay.attemptLoop net url body headers maxA base timeout r a le ls))
    = false ->
  exists text,
    Relay.error (fst (Relay.attemptLoop net url body headers maxA base timeout r a le ls))
    = Some text.
Proof.
  induction r as [|r IH]; intros a le ls; [cbn; eauto|].
  cbn [Relay.attemptLoop].
  destruct (Relay.attemptOnce net timeout a ls) as [res | le' ls'] eqn:E.
  - cbn [fst]. intros Hs.
    destruct (relay_once_return_cases _ _ _ _ _ E)
      as (status & text & Hobs & [[Hok ->] | (_ & _ & ->)]); [discriminate|].
    cbn. eauto.
  - specialize (IH (a + 1) le' ls').
    destruct (Relay.attemptLoop net url body headers maxA base timeout r (a + 1) le' ls')
      as [res tr]. exact IH.
Qed.

(** X4.  [sendRelayRequest] succeeds exactly when some attempt [k]
    within the budget is answered with a 2xx status after all earlier
    attempts failed retryably; whenever there is such an attempt the
    result names it and its status and has no error text.  A failed
    delivery always carries an error text. *)
Theorem relay_success_characterised :
  forall B (net : Network) url (body : B) headers options,
    let run := Relay.sendRelayRequest net url body headers options in
    let obs := relayObserved (Relay.timeoutMsOf options) net in
    (Relay.success (fst run) = true <->
     exists k status text,
       1 <= k <= Relay.maxAttemptsOf options /\
       (forall j, 1 <= j < k -> failsRetryably (obs j) = true) /\
       obs k = Responded status text /\ 200 <= status <= 299) /\
    (forall k status text,
       1 <= k <= Relay.maxAttemptsOf options ->
       (forall j, 1 <= j < k -> failsRetryably (obs j) = true) ->
       obs k = Responded status text -> 200 <= status <= 299 ->
       fst run = {| Relay.success := true; Relay.error := None;
                    Relay.attempts := k; Relay.statusCode := Some status |}) /\
    (Relay.success (fst run) = false -> exists text, Relay.error (fst run) = Some text).
Proof.
  intros B net url body headers options run obs.
  assert (Hif : forall k status text,
            1 <= k <= Relay.maxAttemptsOf options ->
            (forall j, 1 <= j < k -> failsRetryably (obs j) = true) ->
            obs k = Responded status text -> 200 <= status <= 299 ->
            fst run = {| Relay.success := true; Relay.error := None;
                         Relay.attempts := k; Relay.statusCode := Some status |}).
  { intros k status text Hk Hall Hobs Hst. unfold run.
    rewrite (relay_run_returns net url body headers options k
               {| Relay.success := true; Relay.error := None;
                  Relay.attempts := k; Relay.statusCode := Some status |});
      [reflexivity | exact Hk | exact Hall |].
    intros ls. apply (relay_once_success net _ k ls status text); [exact Hobs|].
    unfold Js.ok. apply andb_true_iff. split; apply Z.leb_le; lia. }
  split; [split | split; [exact Hif|]].
  - intros Hs. unfold run, Relay.sendRelayRequest in Hs. cbv zeta in Hs.
    apply relay_loop_success_inv in Hs as (k & status & text & Hk & Hall & Hobs & Hok).
    exists k, status, text.
    split; [lia | split; [exact Hall | split; [exact Hobs|]]].
    unfold Js.ok in Hok. apply andb_true_iff in Hok as [H1 H2].
    apply Z.leb_le in H1, H2. lia.
  - intros (k & status & text & Hk & Hall & Hobs & Hst).
    rewrite (Hif k status text Hk Hall Hobs Hst). reflexivity.
  - apply relay_loop_failure_has_error.
Qed.

End DeliveryOutcome.

(** ** The time spent waiting *)

Section WaitingTime.
Import Net Spec Trace.

Lemma totalWait_app {B} (l1 l2 : list (Event B)) :
  (totalWait (l1 ++ l2) == totalWait l1 + totalWait l2)%Q.
Proof.
  induction l1 as [|[raw | n u h b | ms] l1 IH]; cbn [app totalWait].
  - ring.
  - exact IH.
  - exact IH.
  - rewrite IH. ring.
Qed.

Lemma pow2_step (a : Z) : (2 ^ (a - 1) == 2 * 2 ^ (a - 2))%Q.
Proof.
  replace (a - 1) with (1 + (a - 2)) by lia.
  rewrite Qpower_plus by discriminate. reflexivity.
Qed.

Lemma totalWait_backoff {B} (maxA base a : Z) :
  0 <= base ->
  (totalWait (backoff (B := B) maxA base a)
   == if a <? maxA then inject_Z base * 2 ^ (a - 2) else 0)%Q.
Proof.
  intros Hb. unfold backoff. destruct (a <? maxA); [|reflexivity].
  cbv zeta. rewrite positive_backoffDelay.
  destruct (0 <? base) eqn:E; cbn [totalWait].
  - rewrite backoffDelay_value. ring.
  - apply Z.ltb_ge in E. assert (base = 0) as -> by lia. ring.
Qed.

Lemma relay_loop_totalWait {B} (net : Network) url (body : B) headers
    (maxA base timeout : Z) (r : nat) : forall a le ls,
  0 <= base -> a + Z.of_nat (S r) = maxA + 1 ->
  (totalWait (snd (Relay.attemptLoop net url body headers maxA base timeout (S r) a le ls))
   <= inject_Z base * (2 ^ (maxA - 2) - 2 ^ (a - 2)))%Q.
Proof.
  induction r as [|r IH]; intros a le ls Hb Ha.
  - assert (a = maxA) as -> by lia.
    cbn [Relay.attemptLoop].
    destruct (Relay.attemptOnce net timeout maxA ls) as [res | le' ls'];
      cbn [snd totalWait].
    + lra.
    + rewrite totalWait_app, totalWait_backoff by exact Hb.
      rewrite Z.ltb_irrefl. cbn [totalWait]. lra.
  - assert (Hbase : (0 <= inject_Z base)%Q) by (rewrite Zle_Qle in Hb; exact Hb).
    assert (Hmono : (2 ^ (a - 2) <= 2 ^ (maxA - 2))%Q).
    { apply Qpower_le_compat_l; [lia | discriminate]. }
    pose proof (pow2_step a) as Hstep.
    change (Relay.attemptLoop net url body headers maxA base timeout (S (S r)) a le ls)
      with (match Relay.attemptOnce net timeout a ls with
            | Relay.Return res => (res, [EvFetch a url headers body])
            | Relay.Continue le' ls' =>
                (let '(res, tr) :=
                   Relay.attemptLoop net url body headers maxA base timeout (S r)
                     (a + 1) le' ls' in
                 (res, EvFetch a url headers body :: backoff maxA base a ++ tr))
            end).
    destruct (Relay.attemptOnce net timeout a ls) as [res | le' ls'].
    + cbn [snd totalWait].
      set (x := (2 ^ (a - 2))%Q) in *. set (y := (2 ^ (maxA - 2))%Q) in *.
      set (b := inject_Z base) in *. nra.
    + specialize (IH (a + 1) le' ls' Hb ltac:(lia)).
      destruct (Relay.attemptLoop net url body headers maxA base timeout (S r)
                  (a + 1) le' ls') as [res tr].
      cbn [snd totalWait] in *.
      rewrite totalWait_app, totalWait_backoff by exact Hb.
      replace (a + 1 - 2) with (a - 1) in IH by lia.
      rewrite Hstep in IH.
      assert (E : (a <? maxA) = true) by (apply Z.ltb_lt; lia). rewrite E.
      set (x := (2 ^ (a - 2))%Q) in *. set (y := (2 ^ (maxA - 2))%Q) in *.
      set (b := inject_Z base) in *. set (w := totalWait tr) in *.
      nra.
Qed.

Lemma discord_loop_totalWait {P} (net : Network) url (payload : P)
    (maxA base : Z) (r : nat) : forall a le,
  0 <= base -> a + Z.of_nat (S r) = maxA + 1 ->
  (totalWait (snd (Discord.attemptLoop net url payload maxA base (S r) a le))
   <= inject_Z base * (2 ^ (maxA - 2) - 2 ^ (a - 2)))%Q.
Proof.
  induction r as [|r IH]; intros a le Hb Ha.
  - assert (a = maxA) as -> by lia.
    cbn [Discord.attemptLoop].
    destruct (Discord.attemptOnce net maxA) as [res | le']; cbn [snd totalWait].
    + lra.
    + rewrite totalWait_app, totalWait_backoff by exact Hb.
      rewrite Z.ltb_irrefl. cbn [totalWait]. lra.
  - assert (Hbase : (0 <= inject_Z base)%Q) by (rewrite Zle_Qle in Hb; exact Hb).
    assert (Hmono : (2 ^ (a - 2) <= 2 ^ (maxA - 2))%Q).
    { apply Qpower_le_compat_l; [lia | discriminate]. }
    pose proof (pow2_step a) as Hstep.
    change (Discord.attemptLoop net url payload maxA base (S (S r)) a le)
      with (match Discord.attemptOnce net a with
            | Discord.Return res => (res, [EvFetch a url Discord.jsonHeaders payload])
            | Discord.Continue le' =>
                (let '(res, tr) :=
                   Discord.attemptLoop net url payload maxA base (S r) (a + 1) le' in
                 (res, EvFetch a url Discord.jsonHeaders payload
                         :: backoff maxA base a ++ tr))
            end).
    destruct (Discord.attemptOnce net a) as [res | le'].
    + cbn [snd totalWait].
      set (x := (2 ^ (a - 2))%Q) in *. set (y := (2 ^ (maxA - 2))%Q) in *.
      set (b := inject_Z base) in *. nra.
    + specialize (IH (a + 1) le' Hb ltac:(lia)).
      destruct (Discord.attemptLoop net url payload maxA base (S r) (a + 1) le')
        as [res tr].
      cbn [snd totalWait] in *.
      rewrite totalWait_app, totalWait_backoff by exact Hb.
      replace (a + 1 - 2) with (a - 1) in IH by lia.
      rewrite Hstep in IH.
      assert (E : (a <? maxA) = true) by (apply Z.ltb_lt; lia). rewrite E.
      set (x := (2 ^ (a - 2))%Q) in *. set (y := (2 ^ (maxA - 2))%Q) in *.
      set (b := inject_Z base) in *. set (w := totalWait tr) in *.
      nra.
Qed.

(** X5.  With a base delay that is not negative, a delivery waits in total at
    most [baseDelayMs * (2^(maxAttempts-1) - 1) / 2] milliseconds, which
    is 1500 ms for the default options. *)
Theorem delivery_total_wait_bounded :
  (forall B (net : Network) url (body : B) headers options,
     1 <= Relay.maxAttemptsOf options -> 0 <= Relay.baseDelayMsOf options ->
     (totalWait (snd (Relay.sendRelayRequest net url body headers options))
      <= inject_Z (Relay.baseDelayMsOf options)
         * (2 ^ (Relay.maxAttemptsOf options - 1) - 1) / 2)%Q) /\
  (forall P (net : Network) url (payload : P) options,
     1 <= Discord.maxAttemptsOf options -> 0 <= Discord.baseDelayMsOf options ->
     (totalWait (snd (Discord.sendDiscordWebhook net url payload options))
      <= inject_Z (Discord.baseDelayMsOf options)
         * (2 ^ (Discord.maxAttemptsOf options - 1) - 1) / 2)%Q) /\
  (forall B (net : Network) url (body : B) headers,
     (totalWait (snd (Relay.sendRelayRequest net url body headers None)) <= 1500)%Q).
Proof.
  assert (Hrelay : forall B (net : Network) url (body : B) headers options,
     1 <= Relay.maxAttemptsOf options -> 0 <= Relay.baseDelayMsOf options ->
     (totalWait (snd (Relay.sendRelayRequest net url body headers options))
      <= inject_Z (Relay.baseDelayMsOf options)
         * (2 ^ (Relay.maxAttemptsOf options - 1) - 1) / 2)%Q).
  { intros B net url body headers options HN Hb.
    unfold Relay.sendRelayRequest. cbv zeta.
    replace (Z.to_nat (Relay.maxAttemptsOf options))
      with (S (Z.to_nat (Relay.maxAttemptsOf options - 1))) by lia.
    eapply Qle_trans; [apply relay_loop_totalWait; [exact Hb | lia]|].
    pose proof (pow2_step (Relay.maxAttemptsOf options)) as Hstep.
    replace (1 - 2) with (-1) by lia.
    change (2 ^ (-1))%Q with (1 # 2)%Q.
    rewrite Hstep. apply Qle_lteq. right. field. }
  split; [exact Hrelay | split].
  - intros P net url payload options HN Hb.
    unfold Discord.sendDiscordWebhook. cbv zeta.
    replace (Z.to_nat (Discord.maxAttemptsOf options))
      with (S (Z.to_nat (Discord.maxAttemptsOf options - 1))) by lia.
    eapply Qle_trans; [apply discord_loop_totalWait; [exact Hb | lia]|].
    pose proof (pow2_step (Discord.maxAttemptsOf options)) as Hstep.
    replace (1 - 2) with (-1) by lia.
    change (2 ^ (-1))%Q with (1 # 2)%Q.
    rewrite Hstep. apply Qle_lteq. right. field.
  - intros B net url body headers.
    eapply Qle_trans; [apply Hrelay; cbn; lia|].
    cbn. discriminate.
Qed.

Lemma delivery_total_wait_witness :
  let tr := snd (Relay.sendRelayRequest (Sample.always (Responded 503 None))
                   "https://example.test/hook" tt ∅
                   (Some {| Relay.maxAttempts := Some 5; Relay.baseDelayMs := Some 200;
                            Relay.timeoutMs := None |})) in
  (totalWait tr <= inject_Z 200 * (2 ^ (5 - 1) - 1) / 2)%Q.
Proof.
  apply (proj1 delivery_total_wait_bounded unit (Sample.always (Responded 503 None))
           "https://example.test/hook" tt ∅
           (Some {| Relay.maxAttempts := Some 5; Relay.baseDelayMs := Some 200;
                    Relay.timeoutMs := None |})); cbn; lia.
Defined.

(** The bound is met when every attempt fails: 100 + 200 + 400 + 800. *)
Example total_wait_of_five_failures :
  totalWait (snd (Relay.sendRelayRequest (Sample.always (Responded 503 None))
                    "https://example.test/hook" tt ∅
                    (Some {| Relay.maxAttempts := Some 5; Relay.baseDelayMs := Some 200;
                             Relay.timeoutMs := None |})))
  = 1500%Q.
Proof. reflexivity. Qed.

End WaitingTime.

Section DeliveryOutcomeWitness.
Import Net Spec.

Lemma relay_success_characterised_witness :
  fst (Relay.sendRelayRequest (Sample.script [Responded 503 None; Responded 201 (Some "made")])
         "https://example.test/hook" tt ∅ None)
  = {| Relay.success := true; Relay.error := None;
       Relay.attempts := 2; Relay.statusCode := Some 201 |}.
Proof.
  apply (proj1 (proj2 (relay_success_characterised unit
                         (Sample.script [Responded 503 None; Responded 201 (Some "made")])
                         "https://example.test/hook" tt ∅ None)) 2 201 (Some "made")).
  - cbn. lia.
  - intros j Hj. assert (j = 1) as -> by lia. reflexivity.
  - reflexivity.
  - lia.
Defined.

End DeliveryOutcomeWitness.

(** ** The pure functions of [relay.ts] *)

Section RelayPure.
Import Sdk Spec RelaySpec.

Lemma relay_headers_entry (originalHeaders : gmap string string) config key :
  Relay.buildRelayHeaders originalHeaders config !! key
  = expectedHeader originalHeaders config key.
Proof.
  assert (Hbase : forall incl : bool,
    (if incl
     then Relay.forwardSentinel originalHeaders {[ "Content-Type" := "application/json" ]}
     else {[ "Content-Type" := "application/json" ]}) !! key
    = if incl && sentinelKey key then originalHeaders !! key else defaultHeader key).
  { intros incl. unfold defaultHeader.
    assert (Hct : ({[ "Content-Type" := "application/json" ]} : gmap string string) !! key
                  = if String.eqb key "Content-Type" then Some "application/json" else None).
    { destruct (String.eqb_spec key "Content-Type") as [-> | Hne].
      - apply lookup_singleton_eq.
      - apply lookup_singleton_ne. congruence. }
    destruct incl; cbn [andb]; [|exact Hct].
    rewrite forwardSentinel_union.
    destruct (sentinelKey key) eqn:Hk.
    - destruct (originalHeaders !! key) as [v|] eqn:Hv.
      + apply lookup_union_Some_l. apply map_lookup_filter_Some. split; [exact Hv | exact Hk].
      + rewrite lookup_union_r.
        * rewrite Hct. destruct (String.eqb_spec key "Content-Type") as [Heq | _];
            [rewrite Heq in Hk; discriminate Hk | reflexivity].
        * apply map_lookup_filter_None. left. exact Hv.
    - rewrite lookup_union_r; [exact Hct|].
      apply map_lookup_filter_None. right. intros v _ Hp.
      cbv beta in Hp. cbn [fst] in Hp. congruence. }
  assert (Hcustom : forall headers : gmap string string,
    match RelayTypes.customHeaders config with
    | Some custom => Relay.addAll custom headers
    | None => headers
    end !! key
    = match RelayTypes.customHeaders config ≫= (fun custom => custom !! key) with
      | Some value => Some value
      | None => headers !! key
      end).
  { intros headers. destruct (RelayTypes.customHeaders config) as [custom|]; [|reflexivity].
    cbn. rewrite addAll_union.
    destruct (custom !! key) as [v|] eqn:Hv.
    - apply lookup_union_Some_l. exact Hv.
    - apply lookup_union_r. exact Hv. }
  unfold expectedHeader, secretActive, Relay.buildRelayHeaders.
  destruct (RelayTypes.secretHeader config) as [sh|] eqn:Hsh,
           (RelayTypes.secretValue config) as [sv|] eqn:Hsv;
    cbn [default from_option id];
    change (Js.truthy None) with false;
    rewrite ?andb_false_r; cbn [andb];
    try (rewrite Hcustom, Hbase; reflexivity).
  destruct (Js.truthy (Some sh) && Js.truthy (Some sv)) eqn:Hact; cbn [andb].
  - destruct (String.eqb_spec key sh) as [Heq | Hne].
    + rewrite Heq. apply lookup_insert_eq.
    + rewrite lookup_insert_ne by congruence. rewrite Hcustom, Hbase. reflexivity.
  - rewrite Hcustom, Hbase. reflexivity.
Qed.

(** X6.  The outbound headers, entry by entry: the secret header (when both
    secret fields are non-empty) wins over a custom header of the same
    name, a custom header wins over a forwarded inbound header, inbound
    headers are forwarded only under [includeOriginalHeaders] (default
    true) and only when their lowercased name starts with [x-sentinel-],
    and [Content-Type: application/json] is what remains. *)
Theorem buildRelayHeaders_lookup :
  forall (originalHeaders : gmap string string) config key,
    Relay.buildRelayHeaders originalHeaders config !! key
    = expectedHeader originalHeaders config key.
Proof. exact relay_headers_entry. Qed.

(** X7.  Inbound headers never reach the outbound request by accident: with
    [includeOriginalHeaders = false] the outbound headers do not depend on
    the inbound ones at all, and in any configuration an inbound header
    whose lowercased name does not start with [x-sentinel-] is absent from
    the outbound headers unless the configuration itself supplies that
    name (as custom header, as secret header, or as [Content-Type]). *)
Theorem buildRelayHeaders_no_leak :
  (forall (h1 h2 : gmap string string) config,
     RelayTypes.includeOriginalHeaders config = Some false ->
     Relay.buildRelayHeaders h1 config = Relay.buildRelayHeaders h2 config) /\
  (forall (originalHeaders : gmap string string) config key,
     sentinelKey key = false ->
     key <> "Content-Type" ->
     RelayTypes.customHeaders config ≫= (fun custom => custom !! key) = None ->
     RelayTypes.secretHeader config <> Some key ->
     Relay.buildRelayHeaders originalHeaders config !! key = None).
Proof.
  split.
  - intros h1 h2 config Hoff. apply map_eq. intros key.
    rewrite !relay_headers_entry. unfold expectedHeader. rewrite Hoff. reflexivity.
  - intros originalHeaders config key Hk Hct Hcustom Hsecret.
    rewrite relay_headers_entry. unfold expectedHeader, secretActive.
    assert (Hnot : Js.truthy (RelayTypes.secretHeader config)
                   && Js.truthy (RelayTypes.secretValue config)
                   && String.eqb key (default "" (RelayTypes.secretHeader config)) = false).
    { destruct (RelayTypes.secretHeader config) as [sh|]; [|reflexivity].
      cbn [default from_option id].
      destruct (String.eqb_spec key sh) as [-> | _]; [congruence|].
      apply andb_false_r. }
    rewrite Hnot, Hcustom, Hk, andb_false_r. unfold defaultHeader.
    destruct (String.eqb_spec key "Content-Type"); [contradiction | reflexivity].
Qed.

Lemma buildRelayHeaders_no_leak_witness :
  Relay.buildRelayHeaders {[ "authorization" := "Bearer inbound" ]} Sample.relayConfig
    !! "authorization" = None.
Proof.
  apply (proj2 buildRelayHeaders_no_leak); [reflexivity | discriminate | reflexivity |].
  discriminate.
Defined.

(** X8.  The envelope built by [transformPayload] loses nothing: from the
    relay body the payload is recovered, whether or not the transform is
    enabled; the body is the payload itself when the transform is off and
    an envelope tagged [sentinel] when it is on. *)
Theorem transformPayload_round_trip :
  forall payload transform,
    payloadOf (Relay.transformPayload payload transform) = payload /\
    sourceOf (Relay.transformPayload payload transform)
    = if transform then Some "sentinel" else None.
Proof.
  intros [event timestamp organizationId userId data] [|]; split; reflexivity.
Qed.

(** X9.  With a pattern list that is not empty, an event passes
    [matchesEventPatterns] exactly when [matchesPattern] accepts it for
    one of the patterns; so lengthening such a list never rejects an
    event that passed, whereas going from the empty list (which passes
    everything) to a one-pattern list can. *)
Theorem matchesEventPatterns_any :
  forall (E : Externals) (eventKind : string) (patterns : list string),
    patterns <> [] ->
    (Relay.matchesEventPatterns eventKind (Some patterns) = true <->
       exists pattern, In pattern patterns /\ matchesPattern eventKind pattern = true) /\
    (forall more,
       Relay.matchesEventPatterns eventKind (Some patterns) = true ->
       Relay.matchesEventPatterns eventKind (Some (patterns ++ more)) = true) /\
    (forall pattern,
       Relay.matchesEventPatterns eventKind (Some [pattern])
       = matchesPattern eventKind pattern).
Proof.
  intros E eventKind patterns Hne.
  assert (Hex : forall l, l <> [] ->
            Relay.matchesEventPatterns eventKind (Some l)
            = existsb (fun pattern => matchesPattern eventKind pattern) l).
  { intros [|p l] Hl; [congruence | reflexivity]. }
  split; [|split].
  - rewrite Hex by exact Hne. rewrite existsb_exists. reflexivity.
  - intros more. rewrite !Hex; [| destruct patterns; [congruence | discriminate] | exact Hne].
    rewrite existsb_app. intros ->. reflexivity.
  - intros pattern. rewrite Hex by discriminate. cbn. apply orb_false_r.
Qed.

Lemma matchesEventPatterns_any_witness :
  Relay.matchesEventPatterns (E := Sample.externals) "chat.message"
    (Some ["player.*"; "chat.*"]) = true <->
  exists pattern, In pattern ["player.*"; "chat.*"] /\
                  matchesPattern (Externals := Sample.externals) "chat.message" pattern = true.
Proof.
  apply (proj1 (matchesEventPatterns_any Sample.externals "chat.message"
                  ["player.*"; "chat.*"] ltac:(discriminate))).
Defined.

End RelayPure.

(** ** The relay handler: what it sends, when it faults, what [ok] means *)

Section RelayHandlerFacts.
Import Net Sdk Spec Trace.

Lemma fetch_in_fetchNumbers {B} (tr : list (Event B)) n url headers (body : B) :
  In (EvFetch n url headers body) tr -> In n (fetchNumbers tr).
Proof.
  induction tr as [|[raw | m u h b | ms] tr IH]; cbn; [tauto | | |].
  - intros [H | H]; [discriminate | auto].
  - intros [H | H]; [injection H as -> _ _ _; left; reflexivity | right; auto].
  - intros [H | H]; [discriminate | auto].
Qed.

Lemma relay_request_in_trace {B} (net : Network) url (body : B) headers options
    n url' headers' body' :
  In (EvFetch n url' headers' body')
     (snd (Relay.sendRelayRequest net url body headers options)) ->
  url' = url /\ headers' = headers /\ body' = body /\
  1 <= n <= Relay.maxAttemptsOf options.
Proof.
  unfold Relay.sendRelayRequest. cbv zeta.
  destruct (Z_le_gt_dec (Relay.maxAttemptsOf options) 0) as [Hle | Hgt].
  - replace (Z.to_nat (Relay.maxAttemptsOf options)) with 0%nat by lia.
    cbn. tauto.
  - intros Hin.
    destruct (relay_loop_shape net url body headers (Relay.maxAttemptsOf options)
                (Relay.baseDelayMsOf options) (Relay.timeoutMsOf options)
                (Z.to_nat (Relay.maxAttemptsOf options)) 1 "" None ltac:(lia))
      as (Hb & Hn & Hf & _).
    cbv zeta in Hb, Hn, Hf.
    pose proof (proj1 (List.Forall_forall _ _) Hf _ Hin) as (-> & -> & ->).
    apply fetch_in_fetchNumbers in Hin. rewrite Hn in Hin.
    apply list_elem_of_In, elem_of_seqZ in Hin.
    repeat split; try reflexivity; lia.
Qed.

(** X10.  Every request the relay handler issues is for a body that decoded,
    goes to the configured [targetUrl] with the headers of
    [buildRelayHeaders] and the body of [transformPayload], for an event
    that passes the pattern filter, within [maxRetries] attempts (3 by
    default), and, when a webhook secret is configured, only after the
    signature of the request has been verified. *)
Theorem relay_handler_requests :
  forall (E : Externals) ctx net rawBody (headers : gmap string string)
         n url requestHeaders body,
    In (EvFetch n url requestHeaders body)
       (snd (RelayHandler.handleWebhook ctx net rawBody headers)) ->
    let config := RelayTypes.config ctx in
    exists payload,
      JSON_parse rawBody = Js.Returned (DPayload payload) /\
      RelayTypes.targetUrl config = Some url /\ url <> "" /\
      Relay.matchesEventPatterns (event payload) (RelayTypes.eventPatterns config) = true /\
      requestHeaders = Relay.buildRelayHeaders headers config /\
      body = Relay.transformPayload payload
               (default false (RelayTypes.transformPayload config)) /\
      1 <= n <= default 3 (RelayTypes.maxRetries config) /\
      (Js.truthy (RelayTypes.webhookSecret ctx) = true ->
       exists signature secret,
         headers !! signatureHeader = Some signature /\
         RelayTypes.webhookSecret ctx = Some secret /\
         verifyWebhookSignature rawBody signature secret = true).
Proof.
  intros E ctx net rawBody headers n url requestHeaders body Hin config.
  assert (Hrelay : In (EvFetch n url requestHeaders body)
                      (snd (RelayHandler.relay ctx net rawBody headers)) ->
    exists payload,
      JSON_parse rawBody = Js.Returned (DPayload payload) /\
      RelayTypes.targetUrl config = Some url /\ url <> "" /\
      Relay.matchesEventPatterns (event payload) (RelayTypes.eventPatterns config) = true /\
      requestHeaders = Relay.buildRelayHeaders headers config /\
      body = Relay.transformPayload payload
               (default false (RelayTypes.transformPayload config)) /\
      1 <= n <= default 3 (RelayTypes.maxRetries config)).
  { unfold RelayHandler.relay. fold config.
    destruct (JSON_parse rawBody) as [decoded | e]; [|cbn; intros [H | []]; discriminate].
    destruct (Js.truthy (RelayTypes.targetUrl config)) eqn:Hurl; cbn [negb];
      [|cbn; intros [H | []]; discriminate].
    destruct decoded as [|payload]; [cbn; intros [H | []]; discriminate|].
    destruct (Relay.matchesEventPatterns (event payload) (RelayTypes.eventPatterns config))
      eqn:Hmatch; cbn [negb]; [|cbn; intros [H | []]; discriminate].
    match goal with
    | |- context [Relay.sendRelayRequest ?nt ?u ?b ?h ?o] =>
        pose proof (relay_request_in_trace nt u b h o n url requestHeaders body) as Hreq;
        destruct (Relay.sendRelayRequest nt u b h o) as [result tr]
    end.
    cbn [snd] in *. intros [H | H]; [discriminate|].
    destruct (Hreq H) as (Hu & Hh & Hb & Hn).
    apply truthy_spec in Hurl as (target & Htarget & Hne).
    rewrite Htarget in Hu. cbn [default from_option id] in Hu.
    change (Relay.maxAttemptsOf _) with (default 3 (RelayTypes.maxRetries config)) in Hn.
    exists payload. rewrite Htarget, Hu.
    split; [reflexivity|]. split; [reflexivity|]. split; [exact Hne|].
    split; [first [exact Hmatch | reflexivity]|].
    split; [exact Hh|]. split; [exact Hb|]. exact Hn. }
  unfold RelayHandler.handleWebhook in Hin. fold signatureHeader in Hin.
  destruct (Js.truthy (RelayTypes.webhookSecret ctx)) eqn:Hsecret.
  - destruct (Js.truthy (headers !! signatureHeader)) eqn:Hsig; cbn [negb] in Hin;
      [|destruct Hin].
    destruct (verifyWebhookSignature rawBody (default "" (headers !! signatureHeader))
                (default "" (RelayTypes.webhookSecret ctx))) eqn:Hverify;
      cbn [negb] in Hin; [|destruct Hin].
    destruct (Hrelay Hin) as (payload & H1 & H2 & H3 & H4 & H5 & H6 & H7).
    refine (ex_intro _ payload
              (conj H1 (conj H2 (conj H3 (conj H4 (conj H5 (conj H6 (conj H7 _)))))))).
    intros _.
    apply truthy_spec in Hsig as (signature & Hs & _).
    apply truthy_spec in Hsecret as (secret & Hk & _).
    rewrite Hs, Hk in Hverify. cbn in Hverify. eauto.
  - destruct (Hrelay Hin) as (payload & H1 & H2 & H3 & H4 & H5 & H6 & H7).
    refine (ex_intro _ payload
              (conj H1 (conj H2 (conj H3 (conj H4 (conj H5 (conj H6 (conj H7 _)))))))).
    discriminate.
Qed.

Lemma relay_handler_requests_witness :
  let ctx := {| RelayTypes.config := Sample.relayConfig;
                RelayTypes.webhookSecret := Some "s3cret" |} in
  let headers : gmap string string :=
    {[ signatureHeader := Sample.sign "chat.message" "s3cret" ]} in
  exists payload,
    JSON_parse (Externals := Sample.externals) "chat.message"
    = Js.Returned (DPayload payload) /\
    RelayTypes.targetUrl Sample.relayConfig = Some "https://example.test/hook" /\
    "https://example.test/hook" <> "" /\
    Relay.matchesEventPatterns (E := Sample.externals) (event payload)
      (RelayTypes.eventPatterns Sample.relayConfig) = true /\
    Relay.buildRelayHeaders headers Sample.relayConfig
    = Relay.buildRelayHeaders headers Sample.relayConfig /\
    Relay.transformPayload (Sample.payloadNamed "chat.message") false
    = Relay.transformPayload payload
        (default false (RelayTypes.transformPayload Sample.relayConfig)) /\
    1 <= 1 <= default 3 (RelayTypes.maxRetries Sample.relayConfig) /\
    (Js.truthy (Some "s3cret") = true ->
     exists signature secret,
       headers !! signatureHeader = Some signature /\
       Some "s3cret" = Some secret /\
       verifyWebhookSignature (Externals := Sample.externals) "chat.message" signature secret
       = true).
Proof.
  intros ctx headers.
  apply (relay_handler_requests Sample.externals ctx (Sample.always (Responded 200 None))
           "chat.message" headers 1 "https://example.test/hook"
           (Relay.buildRelayHeaders headers Sample.relayConfig)
           (Relay.transformPayload (Sample.payloadNamed "chat.message") false)).
  vm_compute. right. left. reflexivity.
Defined.

(** X11.  When the relay handler rejects.  Once the signature block is
    passed or skipped: a body that [JSON.parse] rejects makes the handler
    reject with that error; the body [null] makes it reject with a
    [TypeError] when a target URL is configured (reading the event kind
    of [null]) and is skipped like any other body when none is; in both
    cases the decoding is the only effect.  A body that decodes to an
    event envelope never makes the handler reject, and neither does a
    request that the signature block refuses. *)
Theorem relay_handler_faults :
  forall (E : Externals) ctx net rawBody (headers : gmap string string),
    let answer := RelayHandler.handleWebhook ctx net rawBody headers in
    let gateOpen :=
      Js.truthy (RelayTypes.webhookSecret ctx) = false \/
      (exists signature secret,
         headers !! signatureHeader = Some signature /\ signature <> "" /\
         RelayTypes.webhookSecret ctx = Some secret /\
         verifyWebhookSignature rawBody signature secret = true) in
    (forall e, gateOpen -> JSON_parse rawBody = Js.Threw e ->
       answer = (Js.Threw e, [EvParse rawBody])) /\
    (gateOpen -> JSON_parse rawBody = Js.Returned DNull ->
       answer
       = if Js.truthy (RelayTypes.targetUrl (RelayTypes.config ctx))
         then (Js.Threw (Js.JsError "TypeError"
                           "Cannot read properties of null (reading 'event')"),
               [EvParse rawBody])
         else (Js.Returned {| ok := true;
                              message := "Target URL not configured, skipping" |},
               [EvParse rawBody])) /\
    (forall payload, JSON_parse rawBody = Js.Returned (DPayload payload) ->
       exists response, fst answer = Js.Returned response) /\
    (forall e, fst answer = Js.Threw e ->
       gateOpen /\ snd answer = [EvParse rawBody] /\
       (JSON_parse rawBody = Js.Threw e \/
        JSON_parse rawBody = Js.Returned DNull /\
        Js.truthy (RelayTypes.targetUrl (RelayTypes.config ctx)) = true /\
        e = Js.nullRead "event")).
Proof.
  intros E ctx net rawBody headers answer gateOpen.
  assert (Hreturns : forall payload,
            JSON_parse rawBody = Js.Returned (DPayload payload) ->
            exists response,
              fst (RelayHandler.relay ctx net rawBody headers) = Js.Returned response).
  { intros payload Hparse. unfold RelayHandler.relay. rewrite Hparse.
    destruct (negb (Js.truthy _)); [eexists; reflexivity|].
    destruct (negb (Relay.matchesEventPatterns _ _)); [eexists; reflexivity|].
    destruct (Relay.sendRelayRequest _ _ _ _ _). eexists. reflexivity. }
  assert (Hthrows : forall e,
            fst (RelayHandler.relay ctx net rawBody headers) = Js.Threw e ->
            snd (RelayHandler.relay ctx net rawBody headers) = [EvParse rawBody] /\
            (JSON_parse rawBody = Js.Threw e \/
             JSON_parse rawBody = Js.Returned DNull /\
             Js.truthy (RelayTypes.targetUrl (RelayTypes.config ctx)) = true /\
             e = Js.nullRead "event")).
  { intros e. unfold RelayHandler.relay.
    destruct (JSON_parse rawBody) as [[|payload] | e'] eqn:Hparse.
    - destruct (Js.truthy (RelayTypes.targetUrl (RelayTypes.config ctx)));
        cbn [negb fst snd]; [|discriminate].
      intros [= <-]. split; [reflexivity | right; auto].
    - destruct (Hreturns payload eq_refl) as [response Hr].
      unfold RelayHandler.relay in Hr. rewrite Hparse in Hr. rewrite Hr. discriminate.
    - cbn [fst snd]. intros [= ->]. split; [reflexivity | left; reflexivity]. }
  split; [|split; [|split]].
  - intros e Hgate Hparse. unfold answer. rewrite relay_gate_open by exact Hgate.
    unfold RelayHandler.relay. rewrite Hparse. reflexivity.
  - intros Hgate Hparse. unfold answer. rewrite relay_gate_open by exact Hgate.
    unfold RelayHandler.relay. rewrite Hparse.
    destruct (Js.truthy (RelayTypes.targetUrl (RelayTypes.config ctx))); reflexivity.
  - intros payload Hparse. unfold answer, RelayHandler.handleWebhook.
    destruct (Js.truthy (RelayTypes.webhookSecret ctx)); [|exact (Hreturns payload Hparse)].
    destruct (negb (Js.truthy _)); [eexists; reflexivity|].
    destruct (negb (verifyWebhookSignature _ _ _));
      [eexists; reflexivity | exact (Hreturns payload Hparse)].
  - intros e. unfold answer, gateOpen, RelayHandler.handleWebhook.
    fold signatureHeader.
    destruct (Js.truthy (RelayTypes.webhookSecret ctx)) eqn:Hsecret.
    + destruct (Js.truthy (headers !! signatureHeader)) eqn:Hsig; cbn [negb];
        [|discriminate].
      destruct (verifyWebhookSignature rawBody (default "" (headers !! signatureHeader))
                  (default "" (RelayTypes.webhookSecret ctx))) eqn:Hverify;
        cbn [negb]; [|discriminate].
      intros Hthrew. split; [|exact (Hthrows e Hthrew)].
      right. apply truthy_spec in Hsig as (signature & Hs & Hne).
      apply truthy_spec in Hsecret as (secret & Hk & _).
      rewrite Hs, Hk in Hverify. cbn in Hverify. eauto 6.
    + intros Hthrew. split; [left; reflexivity | exact (Hthrows e Hthrew)].
Qed.

Lemma relay_handler_faults_witness :
  let ctx := {| RelayTypes.config := Sample.relayConfig; RelayTypes.webhookSecret := None |} in
  RelayHandler.handleWebhook (E := Sample.externals) ctx
    (Sample.always (Responded 200 None)) "null" ∅
  = (Js.Threw (Js.JsError "TypeError" "Cannot read properties of null (reading 'event')"),
     [EvParse "null"]).
Proof.
  intros ctx.
  apply (proj1 (proj2 (relay_handler_faults Sample.externals ctx
                         (Sample.always (Responded 200 None)) "null" ∅))).
  - left. reflexivity.
  - reflexivity.
Defined.

End RelayHandlerFacts.

(** ** A handler without a webhook secret *)

Section NoSecret.
Import Net Sdk Spec.







End NoSecret.

(** ** discord-chat-bridge: escaping, prefixes and filters *)

Section ChatBridgeFacts.
Import Net Sdk Spec Trace FormatSpec.

Lemma special_backslash : ChatBridge.markdownSpecial ChatBridge.backslash = true.
Proof. reflexivity. Qed.

Lemma not_special_not_backslash (c : ascii) :
  ChatBridge.markdownSpecial c = false -> Ascii.eqb c ChatBridge.backslash = false.
Proof.
  intros H. destruct (Ascii.eqb_spec c ChatBridge.backslash) as [-> | _]; [|reflexivity].
  rewrite special_backslash in H. discriminate.
Qed.

(** X12.  [escapeMarkdown] can be undone, so two texts are never escaped to
    the same text; in its result no markdown character stands unescaped;
    and the result is longer than the text by one character for each
    markdown character. *)
Theorem escapeMarkdown_reversible :
  forall text,
    unescapeMarkdown (ChatBridge.escapeMarkdown text) = text /\
    wellEscaped (ChatBridge.escapeMarkdown text) = true /\
    String.length (ChatBridge.escapeMarkdown text)
    = (String.length text + specials text)%nat.
Proof.
  induction text as [|c rest (IH1 & IH2 & IH3)]; [repeat split; reflexivity|].
  cbn [ChatBridge.escapeMarkdown specials].
  destruct (ChatBridge.markdownSpecial c) eqn:Hc.
  - cbn [unescapeMarkdown wellEscaped String.length].
    rewrite Ascii.eqb_refl, Hc, IH1, IH2, IH3. repeat split; try reflexivity. lia.
  - cbn [unescapeMarkdown wellEscaped String.length].
    rewrite (not_special_not_backslash _ Hc), Hc, IH1, IH2, IH3.
    repeat split; reflexivity.
Qed.

Lemma prefix_slice (p s : string) :
  String.prefix p s = true -> s = p +:+ JsString.slice (String.length p) s.
Proof.
  revert s. induction p as [|c p IH]; intros s; [reflexivity|].
  destruct s as [|d s]; cbn [String.prefix]; [discriminate|].
  destruct (Ascii.ascii_dec c d) as [-> | Hne]; [|discriminate].
  intros H.
  change (String d s = String d (p +:+ JsString.slice (String.length p) s)).
  rewrite <- (IH s H). reflexivity.
Qed.

Lemma trimStart_space1 (c1 : ascii) (r1 : string) :
  JsString.space1 c1 = true ->
  JsString.trimStart (String c1 r1) = JsString.trimStart r1.
Proof. intros H. cbn [JsString.trimStart]. rewrite H. reflexivity. Qed.

Lemma trimStart_space2 (c1 c2 : ascii) (r2 : string) :
  JsString.space1 c1 = false -> JsString.space2 c1 c2 = true ->
  JsString.trimStart (String c1 (String c2 r2)) = JsString.trimStart r2.
Proof. intros H1 H2. cbn [JsString.trimStart]. rewrite H1, H2. reflexivity. Qed.

Lemma trimStart_space3 (c1 c2 c3 : ascii) (r3 : string) :
  JsString.space1 c1 = false -> JsString.space2 c1 c2 = false ->
  JsString.space3 c1 c2 c3 = true ->
  JsString.trimStart (String c1 (String c2 (String c3 r3))) = JsString.trimStart r3.
Proof. intros H1 H2 H3. cbn [JsString.trimStart]. rewrite H1, H2, H3. reflexivity. Qed.

Lemma trimStart_kept (s : string) :
  match s with
  | String c1 (String c2 (String c3 _)) =>
      JsString.space1 c1 = false /\ JsString.space2 c1 c2 = false /\
      JsString.space3 c1 c2 c3 = false
  | String c1 (String c2 EmptyString) =>
      JsString.space1 c1 = false /\ JsString.space2 c1 c2 = false
  | String c1 EmptyString => JsString.space1 c1 = false
  | EmptyString => True
  end ->
  JsString.trimStart s = s.
Proof.
  destruct s as [|c1 [|c2 [|c3 r3]]]; cbn [JsString.trimStart].
  - reflexivity.
  - intros ->. reflexivity.
  - intros [-> ->]. reflexivity.
  - intros (-> & -> & ->). reflexivity.
Qed.

Lemma trimStart_split_bounded (n : nat) : forall s,
  (String.length s <= n)%nat ->
  (exists gap, s = gap +:+ JsString.trimStart s /\ JsString.trimStart gap = "") /\
  JsString.trimStart (JsString.trimStart s) = JsString.trimStart s.
Proof.
  induction n as [|n IH]; intros s Hlen.
  - destruct s; [|cbn in Hlen; lia]. split; [exists ""; split|]; reflexivity.
  - assert (Hkeep : forall t, JsString.trimStart t = t ->
              (exists gap, t = gap +:+ JsString.trimStart t /\ JsString.trimStart gap = "") /\
              JsString.trimStart (JsString.trimStart t) = JsString.trimStart t).
    { intros t Ht. rewrite !Ht. split; [exists ""; split; reflexivity|reflexivity]. }
    destruct s as [|c1 r1]; [apply Hkeep; reflexivity|].
    cbn [String.length] in Hlen.
    destruct (JsString.space1 c1) eqn:H1.
    { destruct (IH r1 ltac:(lia)) as [(gap & Hgap & Hws) Hidem].
      rewrite (trimStart_space1 c1 r1 H1). split; [|exact Hidem].
      exists (String c1 gap). split.
      - change (String c1 r1 = String c1 (gap +:+ JsString.trimStart r1)).
        rewrite <- Hgap. reflexivity.
      - rewrite (trimStart_space1 c1 gap H1). exact Hws. }
    destruct r1 as [|c2 r2]; [apply Hkeep, trimStart_kept; exact H1|].
    cbn [String.length] in Hlen.
    destruct (JsString.space2 c1 c2) eqn:H2.
    { destruct (IH r2 ltac:(lia)) as [(gap & Hgap & Hws) Hidem].
      rewrite (trimStart_space2 c1 c2 r2 H1 H2). split; [|exact Hidem].
      exists (String c1 (String c2 gap)). split.
      - change (String c1 (String c2 r2)
                = String c1 (String c2 (gap +:+ JsString.trimStart r2))).
        rewrite <- Hgap. reflexivity.
      - rewrite (trimStart_space2 c1 c2 gap H1 H2). exact Hws. }
    destruct r2 as [|c3 r3]; [apply Hkeep, trimStart_kept; split; assumption|].
    cbn [String.length] in Hlen.
    destruct (JsString.space3 c1 c2 c3) eqn:H3.
    { destruct (IH r3 ltac:(lia)) as [(gap & Hgap & Hws) Hidem].
      rewrite (trimStart_space3 c1 c2 c3 r3 H1 H2 H3). split; [|exact Hidem].
      exists (String c1 (String c2 (String c3 gap))). split.
      - change (String c1 (String c2 (String c3 r3))
                = String c1 (String c2 (String c3 (gap +:+ JsString.trimStart r3)))).
        rewrite <- Hgap. reflexivity.
      - rewrite (trimStart_space3 c1 c2 c3 gap H1 H2 H3). exact Hws. }
    apply Hkeep, trimStart_kept. repeat split; assumption.
Qed.

(** X13.  What [processMessage] removes.  When a prefix is configured, the
    stripping is on and the message starts with the prefix, the message
    is the prefix, a run of white space and the result, and the result
    does not start with white space; in every other case the message is
    returned as it is. *)
Theorem processMessage_strips_prefix :
  forall message prefix stripPrefix,
    (Js.truthy prefix = true -> stripPrefix = true ->
     ChatBridge.passesPrefixFilter message prefix = true ->
     exists gap,
       message = default "" prefix +:+ gap
                   +:+ ChatBridge.processMessage message prefix stripPrefix /\
       JsString.trimStart gap = "" /\
       JsString.trimStart (ChatBridge.processMessage message prefix stripPrefix)
       = ChatBridge.processMessage message prefix stripPrefix) /\
    (Js.truthy prefix = false \/ stripPrefix = false \/
     ChatBridge.passesPrefixFilter message prefix = false ->
     ChatBridge.processMessage message prefix stripPrefix = message).
Proof.
  intros message prefix stripPrefix. unfold ChatBridge.processMessage,
    ChatBridge.passesPrefixFilter. split.
  - intros Hp -> Hpass. rewrite Hp in Hpass |- *. cbn [negb andb] in *.
    rewrite Hpass. unfold Js.startsWith in Hpass.
    set (rest := JsString.slice (String.length (default "" prefix)) message).
    destruct (trimStart_split_bounded (String.length rest) rest (le_n _))
      as [(gap & Hgap & Hws) Hidem].
    exists gap. split; [|split; assumption].
    rewrite <- Hgap. apply prefix_slice, Hpass.
  - intros [Hp | [-> | Hpass]].
    + rewrite Hp. reflexivity.
    + rewrite andb_false_r. reflexivity.
    + destruct (Js.truthy prefix); [|reflexivity]. cbn [negb andb] in *.
      rewrite Hpass, andb_false_r. reflexivity.
Qed.

Lemma processMessage_strips_prefix_witness :
  exists gap,
    "!d   hello there" = default "" (Some "!d") +:+ gap
                           +:+ ChatBridge.processMessage "!d   hello there" (Some "!d") true /\
    JsString.trimStart gap = "" /\
    JsString.trimStart (ChatBridge.processMessage "!d   hello there" (Some "!d") true)
    = ChatBridge.processMessage "!d   hello there" (Some "!d") true.
Proof.
  apply (proj1 (processMessage_strips_prefix "!d   hello there" (Some "!d") true));
    reflexivity.
Defined.

End ChatBridgeFacts.

(** ** What the Discord handlers report *)

Section DiscordReportFacts.
Import Net Sdk Spec Trace.

Lemma discord_once_continue_retryable (net : Network) (a : Z) le :
  Discord.attemptOnce net a = Discord.Continue le ->
  failsRetryably (discordObserved net a) = true.
Proof.
  unfold Discord.attemptOnce, discordObserved, failsRetryably.
  destruct (fetch (net a)) as [status text | err]; [|reflexivity].
  destruct (Js.ok status); [discriminate|].
  destruct (shouldRetry status); [reflexivity | discriminate].
Qed.

Lemma discord_once_return_cases (net : Network) (a : Z) res :
  Discord.attemptOnce net a = Discord.Return res ->
  exists status text,
    discordObserved net a = Responded status text /\
    (Js.ok status = true /\
     res = {| Discord.success := true; Discord.error := None; Discord.attempts := a |}
     \/
     Js.ok status = false /\ shouldRetry status = false /\
     res = {| Discord.success := false; Discord.error := Some (httpError status text);
              Discord.attempts := a |}).
Proof.
  unfold Discord.attemptOnce, discordObserved.
  destruct (fetch (net a)) as [status text | err]; [|discriminate].
  intros H. exists status, text. split; [reflexivity|].
  destruct (Js.ok status); [injection H as <-; left; auto|].
  destruct (shouldRetry status); [discriminate|].
  injection H as <-. right. auto.
Qed.

Lemma discord_loop_success_inv {P} (net : Network) url (payload : P)
    (maxA base : Z) (r : nat) : forall a le,
  Discord.success (fst (Discord.attemptLoop net url payload maxA base r a le)) = true ->
  exists k status text,
    a <= k < a + Z.of_nat r /\
    (forall j, a <= j < k -> failsRetryably (discordObserved net j) = true) /\
    discordObserved net k = Responded status text /\
    Js.ok status = true /\
    Discord.attempts (fst (Discord.attemptLoop net url payload maxA base r a le)) = k.
Proof.
  induction r as [|r IH]; intros a le; [cbn; discriminate|].
  cbn [Discord.attemptLoop].
  destruct (Discord.attemptOnce net a) as [res | le'] eqn:E.
  - cbn [fst]. intros Hs.
    destruct (discord_once_return_cases _ _ _ E)
      as (status & text & Hobs & [[Hok ->] | (_ & _ & ->)]); [|discriminate].
    exists a, status, text. repeat split; try lia; assumption.
  - specialize (IH (a + 1) le').
    destruct (Discord.attemptLoop net url payload maxA base r (a + 1) le') as [res tr].
    cbn [fst] in *. intros Hs.
    destruct (IH Hs) as (k & status & text & Hk & Hall & Hobs & Hok & Hatt).
    exists k, status, text. repeat split; try lia; try assumption.
    intros j Hj. destruct (Z.eq_dec j a) as [-> | Hne].
    + eapply discord_once_continue_retryable; eauto.
    + apply Hall. lia.
Qed.

Lemma discord_loop_failure_has_error {P} (net : Network) url (payload : P)
    (maxA base : Z) (r : nat) : forall a le,
  Discord.success (fst (Discord.attemptLoop net url payload maxA base r a le)) = false ->
  exists text,
    Discord.error (fst (Discord.attemptLoop net url payload maxA base r a le)) = Some text.
Proof.
  induction r as [|r IH]; intros a le; [cbn; eauto|].
  cbn [Discord.attemptLoop].
  destruct (Discord.attemptOnce net a) as [res | le'] eqn:E.
  - cbn [fst]. intros Hs.
    destruct (discord_once_return_cases _ _ _ E)
      as (status & text & Hobs & [[Hok ->] | (_ & _ & ->)]); [discriminate|].
    cbn. eauto.
  - specialize (IH (a + 1) le').
    destruct (Discord.attemptLoop net url payload maxA base r (a + 1) le') as [res tr].
    exact IH.
Qed.

(** The run of the retrying [sendDiscordWebhook] with the default
    options, as the handlers call it. *)
Lemma discord_default_run_shape {P} (net : Network) url (payload : P) :
  let run := Discord.sendDiscordWebhook net url payload None in
  1 <= Discord.attempts (fst run) <= 3 /\
  requests (snd run) = Z.to_nat (Discord.attempts (fst run)) /\
  Forall (deliveryEffect url Discord.jsonHeaders payload) (snd run).
Proof.
  cbv zeta. unfold Discord.sendDiscordWebhook. cbv zeta.
  change (Discord.maxAttemptsOf None) with 3.
  change (Z.to_nat 3) with 3%nat.
  destruct (discord_loop_shape net url payload 3 (Discord.baseDelayMsOf None) 3 1 ""
              ltac:(lia)) as (Hb & Hn & Hf & He).
  cbv zeta in Hb, Hn, Hf, He.
  destruct He as [[H0 _] | [_ (pre & u & h & b & He)]]; [discriminate|].
  match goal with |- 1 <= ?x <= _ /\ _ => assert (Hpos : 1 <= x) end.
  { match goal with |- 1 <= ?x => destruct (Z_le_gt_dec 1 x) as [|Hgt]; [assumption|] end.
    exfalso. rewrite He, fetchNumbers_app in Hn. cbn [fetchNumbers] in Hn.
    match type of Hn with _ = seqZ 1 ?n => replace n with 0 in Hn by lia end.
    cbn in Hn. destruct (fetchNumbers pre); discriminate. }
  split; [lia|]. split; [|exact Hf].
  rewrite requests_fetchNumbers, Hn, length_seqZ. lia.
Qed.

Lemma sendAndReport_effects {P} (net : Network) url (embed : P) :
  (1 <= requests (snd (DiscordHandler.sendAndReport net url embed)) <= 3)%nat /\
  Forall (deliveryEffect url Discord.jsonHeaders embed)
         (snd (DiscordHandler.sendAndReport net url embed)).
Proof.
  unfold DiscordHandler.sendAndReport.
  pose proof (discord_default_run_shape net url embed) as H. cbv zeta in H.
  destruct (Discord.sendDiscordWebhook net url embed None) as [result tr].
  cbn [fst snd] in *. destruct H as (Hb & Hn & Hf). split; [lia | exact Hf].
Qed.

(** X14.  What a Discord handler answers after a delivery.  The handler always
    returns a response and issues between one and three requests, each to
    the given URL with the JSON content type and the given embed.  The
    response is a success exactly when some attempt [k <= 3] is answered
    with a 2xx status after the earlier ones failed retryably, and then
    [k] requests were issued and the message names [k] when it is not 1.
    A failure response names the number of requests issued and ends with
    the error text of the delivery. *)
Theorem discord_report_outcome :
  forall P (net : Network) url (embed : P),
    let answer := DiscordHandler.sendAndReport net url embed in
    exists response,
      fst answer = Js.Returned response /\
      (1 <= requests (snd answer) <= 3)%nat /\
      Forall (deliveryEffect url Discord.jsonHeaders embed) (snd answer) /\
      (ok response = true <->
       exists k status text,
         1 <= k <= 3 /\
         (forall j, 1 <= j < k -> failsRetryably (discordObserved net j) = true) /\
         discordObserved net k = Responded status text /\ 200 <= status <= 299) /\
      (ok response = true ->
       let k := Z.of_nat (requests (snd answer)) in
       message response
       = if 1 <? k then "Sent to Discord (" +:+ Js.show k +:+ " attempts)"
         else "Sent to Discord") /\
      (ok response = false ->
       let n := Z.of_nat (requests (snd answer)) in
       exists text,
         message response
         = "Discord webhook failed after " +:+ Js.show n +:+ " attempt"
           +:+ (if n =? 1 then "" else "s") +:+ ": " +:+ text).
Proof.
  intros P net url embed answer.
  destruct (sendAndReport_effects net url embed) as [Hreq Heff].
  fold answer in Hreq, Heff.
  pose proof (discord_default_run_shape net url embed) as Hshape. cbv zeta in Hshape.
  pose proof (discord_loop_success_inv net url embed 3 (Discord.baseDelayMsOf None) 3 1 "")
    as Hinv.
  pose proof (discord_loop_failure_has_error net url embed 3 (Discord.baseDelayMsOf None)
                3 1 "") as Hfail.
  pose proof (fun k res => discord_run_returns net url embed None k res) as Hret.
  unfold answer, DiscordHandler.sendAndReport in *.
  unfold Discord.sendDiscordWebhook in *. cbv zeta in *.
  change (Discord.maxAttemptsOf None) with 3 in *.
  change (Z.to_nat 3) with 3%nat in *.
  destruct (Discord.attemptLoop net url embed 3 (Discord.baseDelayMsOf None) 3 1 "")
    as [result tr] eqn:Hrun.
  cbn [fst snd] in *. destruct Hshape as (Hb & Hn & _).
  assert (Hatt : Z.of_nat (requests tr) = Discord.attempts result) by lia.
  eexists. split; [reflexivity|]. split; [exact Hreq|]. split; [exact Heff|].
  destruct (Discord.success result) eqn:Hs; cbn [negb ok message errorResponse
    successResponse].
  - split; [split; [intros _ | reflexivity]|split; [intros _|discriminate]].
    + destruct (Hinv eq_refl) as (k & status & text & Hk & Hall & Hobs & Hok & _).
      exists k, status, text. repeat split; try lia; try assumption.
      * unfold Js.ok in Hok. apply andb_true_iff in Hok as [H1 _]. lia.
      * unfold Js.ok in Hok. apply andb_true_iff in Hok as [_ H2]. lia.
    + cbv zeta. rewrite Hatt. reflexivity.
  - split; [split; [discriminate|]|split; [discriminate|intros _]].
    + intros (k & status & text & Hk & Hall & Hobs & H1 & H2). exfalso.
      assert (Hok : Js.ok status = true).
      { unfold Js.ok. apply andb_true_iff. split; lia. }
      specialize (Hret k {| Discord.success := true; Discord.error := None;
                            Discord.attempts := k |} Hk Hall
                    (discord_once_success net k status text Hobs Hok)).
      injection Hret as -> _. discriminate.
    + cbv zeta. destruct (Hfail eq_refl) as (text & Herr). exists text.
      unfold DiscordHandler.formatErrorMessage. rewrite Hatt, Herr.
      destruct (Discord.attempts result =? 1); reflexivity.
Qed.

End DiscordReportFacts.

(** ** Which events the Discord handlers forward *)

Section DiscordFilters.
Import Net Sdk Spec Trace.

Lemma sendAndReport_requests_nonzero {P} (net : Network) url (embed : P) :
  requests (snd (DiscordHandler.sendAndReport net url embed)) <> 0%nat.
Proof. destruct (sendAndReport_effects net url embed) as [H _]. lia. Qed.

Lemma channelEqb_eq (a b : ChatBridge.ChatChannel) :
  ChatBridge.channelEqb a b = true <-> a = b.
Proof. destruct a, b; cbn; split; intros H; congruence. Qed.

Lemma existsb_channel (channel : ChatBridge.ChatChannel) allowed :
  existsb (ChatBridge.channelEqb channel) allowed = true <-> In channel allowed.
Proof.
  rewrite existsb_exists. split.
  - intros (x & Hin & Heq). apply channelEqb_eq in Heq. subst. exact Hin.
  - intros Hin. exists channel. split; [exact Hin | apply channelEqb_eq; reflexivity].
Qed.

Lemma passesChannelFilter_spec (channel : ChatBridge.ChatChannel) allowed :
  ChatBridge.passesChannelFilter channel allowed = true <->
  (forall l, allowed = Some l -> l = [] \/ In channel l).
Proof.
  unfold ChatBridge.passesChannelFilter. destruct allowed as [[|c l]|].
  - split; [intros _ l' [= <-]; left; reflexivity | reflexivity].
  - rewrite existsb_channel. split.
    + intros H l' [= <-]. right. exact H.
    + intros H. destruct (H _ eq_refl) as [? | ?]; [discriminate | assumption].
  - split; [intros _ l' [=] | reflexivity].
Qed.

Lemma prefix_app (p rest : string) : String.prefix p (p +:+ rest) = true.
Proof.
  induction p as [|c p IH]; [destruct rest; reflexivity|].
  change (String c p +:+ rest) with (String c (p +:+ rest)).
  cbn [String.prefix]. destruct (Ascii.ascii_dec c c); [exact IH | congruence].
Qed.

Lemma passesPrefixFilter_spec (message : string) (prefix : option string) :
  ChatBridge.passesPrefixFilter message prefix = true <->
  (Js.truthy prefix = true -> exists rest, message = default "" prefix +:+ rest).
Proof.
  unfold ChatBridge.passesPrefixFilter, Js.startsWith.
  destruct (Js.truthy prefix); cbn [negb].
  - split.
    + intros H _. eexists. apply prefix_slice, H.
    + intros H. destruct (H eq_refl) as [rest ->]. apply prefix_app.
  - split; [intros _ [=] | reflexivity].
Qed.

(** X15.  The chat handler forwards a message exactly when a webhook URL is
    configured, the channel filter is absent, empty or lists the channel
    of the message, and the configured prefix, if any, starts the
    message.  Every effect of the handler is then a request carrying
    [buildChatMessage] of the event to that URL, or a wait; a message
    that is not forwarded is answered with a success. *)
Theorem chat_handler_filters :
  forall (ctx : ChatBridge.HandlerContext) (net : Network)
         (data : ChatBridge.ChatEventPayload),
    let cfg := ChatBridge.config ctx in
    let answer := ChatBridge.onChatMessage ctx net data in
    (requests (snd answer) <> 0%nat <->
     Js.truthy (ChatBridge.webhookUrl cfg) = true /\
     (forall allowed, ChatBridge.channelFilter cfg = Some allowed ->
        allowed = [] \/ In (ChatBridge.channel data) allowed) /\
     (Js.truthy (ChatBridge.messagePrefix cfg) = true ->
      exists rest,
        ChatBridge.message data = default "" (ChatBridge.messagePrefix cfg) +:+ rest)) /\
    Forall (deliveryEffect (default "" (ChatBridge.webhookUrl cfg)) Discord.jsonHeaders
              (ChatBridge.buildChatMessage data cfg)) (snd answer) /\
    (requests (snd answer) = 0%nat ->
     exists text, fst answer = Js.Returned {| ok := true; message := text |}).
Proof.
  intros ctx net data cfg answer.
  rewrite <- passesChannelFilter_spec, <- passesPrefixFilter_spec.
  unfold answer, ChatBridge.onChatMessage. fold cfg.
  destruct (Js.truthy (ChatBridge.webhookUrl cfg)); cbn [negb].
  2:{ cbn [fst snd]. split; [split; [intros H; exfalso; apply H; reflexivity|]|].
      - intros (? & _); discriminate.
      - split; [constructor | intros _; eexists; reflexivity]. }
  destruct (ChatBridge.passesChannelFilter (ChatBridge.channel data)
              (ChatBridge.channelFilter cfg)); cbn [negb].
  2:{ cbn [fst snd]. split; [split; [intros H; exfalso; apply H; reflexivity|]|].
      - intros (_ & ? & _); discriminate.
      - split; [constructor | intros _; eexists; reflexivity]. }
  destruct (ChatBridge.passesPrefixFilter (ChatBridge.message data)
              (ChatBridge.messagePrefix cfg)); cbn [negb].
  2:{ cbn [fst snd]. split; [split; [intros H; exfalso; apply H; reflexivity|]|].
      - intros (_ & _ & ?); discriminate.
      - split; [constructor | intros _; eexists; reflexivity]. }
  split; [split; [intros _; repeat split | intros _; apply sendAndReport_requests_nonzero]|].
  split; [apply sendAndReport_effects|].
  intros H. exfalso. exact (sendAndReport_requests_nonzero _ _ _ H).
Qed.

(** The shape shared by the server-status handlers: a URL check, a flag
    check and the delivery. *)
Lemma gated_delivery {P} (net : Network) (url : option string) (flag : bool)
    (note : string) (embed : P) :
  let answer :=
    if negb (Js.truthy url) then
      (Js.Returned (successResponse "Webhook URL not configured, skipping"), [])
    else if negb flag then (Js.Returned (successResponse note), [])
    else DiscordHandler.sendAndReport net (default "" url) embed in
  (requests (snd answer) <> 0%nat <-> Js.truthy url = true /\ flag = true) /\
  (requests (snd answer) <> 0%nat
   \/ snd answer = [] /\
      exists text, fst answer = Js.Returned {| ok := true; message := text |}).
Proof.
  cbv zeta. destruct (Js.truthy url); cbn [negb].
  2:{ cbn [fst snd]. split; [split|].
      - intros H. exfalso. apply H. reflexivity.
      - intros [? _]. discriminate.
      - right. split; [reflexivity | eexists; reflexivity]. }
  destruct flag; cbn [negb].
  - split; [split|].
    + intros _. split; reflexivity.
    + intros _. apply sendAndReport_requests_nonzero.
    + left. apply sendAndReport_requests_nonzero.
  - cbn [fst snd]. split; [split|].
    + intros H. exfalso. apply H. reflexivity.
    + intros [_ ?]. discriminate.
    + right. split; [reflexivity | eexists; reflexivity].
Qed.

Lemma default_true_iff (flag : option bool) : default true flag = true <-> flag <> Some false.
Proof. destruct flag as [[|]|]; cbn; split; congruence. Qed.

Lemma default_false_iff (flag : option bool) : default false flag = true <-> flag = Some true.
Proof. destruct flag as [[|]|]; cbn; split; congruence. Qed.

(** X16.  The server-status handlers: a connect and a disconnect event are
    forwarded unless the URL is missing or the notification is switched
    off; a player-count update is forwarded only when the URL is
    configured and [notifyOnPlayerCountChange] is set to true.  An event
    that is not forwarded has no effect and is answered with a success. *)
Theorem server_status_notification_flags :
  forall (Embed : Type) (C : ServerStatus.Collaborators Embed)
         (ctx : ServerStatus.HandlerContext) (net : Network) (payload : WebhookPayload),
    let cfg := ServerStatus.config ctx in
    let url := ServerStatus.webhookUrl cfg in
    let sent (answer : Js.Completion WebhookResponse * list (Event Embed)) :=
      requests (snd answer) <> 0%nat in
    let skipped (answer : Js.Completion WebhookResponse * list (Event Embed)) :=
      snd answer = [] /\
      exists text, fst answer = Js.Returned {| ok := true; message := text |} in
    (sent (ServerStatus.onConnected ctx net payload) <->
     Js.truthy url = true /\ ServerStatus.notifyOnConnect cfg <> Some false) /\
    (sent (ServerStatus.onDisconnected ctx net payload) <->
     Js.truthy url = true /\ ServerStatus.notifyOnDisconnect cfg <> Some false) /\
    (sent (ServerStatus.onUpdated ctx net payload) <->
     Js.truthy url = true /\ ServerStatus.notifyOnPlayerCountChange cfg = Some true) /\
    (sent (ServerStatus.onConnected ctx net payload)
     \/ skipped (ServerStatus.onConnected ctx net payload)) /\
    (sent (ServerStatus.onDisconnected ctx net payload)
     \/ skipped (ServerStatus.onDisconnected ctx net payload)) /\
    (sent (ServerStatus.onUpdated ctx net payload)
     \/ skipped (ServerStatus.onUpdated ctx net payload)).
Proof.
  intros Embed C ctx net payload cfg url sent skipped.
  rewrite <- !default_true_iff, <- default_false_iff.
  destruct (gated_delivery net url (default true (ServerStatus.notifyOnConnect cfg))
              "Connect notifications disabled, skipping"
              (ServerStatus.buildServerConnectedEmbed (data payload) cfg)) as [Hc1 Hc2].
  destruct (gated_delivery net url (default true (ServerStatus.notifyOnDisconnect cfg))
              "Disconnect notifications disabled, skipping"
              (ServerStatus.buildServerDisconnectedEmbed (data payload) cfg)) as [Hd1 Hd2].
  destruct (gated_delivery net url
              (default false (ServerStatus.notifyOnPlayerCountChange cfg))
              "Update notifications disabled, skipping"
              (ServerStatus.buildServerUpdatedEmbed (data payload) cfg)) as [Hu1 Hu2].
  exact (conj Hc1 (conj Hd1 (conj Hu1 (conj Hc2 (conj Hd2 Hu2))))).
Qed.

End DiscordFilters.

(** ** The texts of the moderation and player embeds *)

Section EmbedFacts.
Import FormatSpec.

Lemma append_nonempty (a b : string) (c : ascii) : a +:+ String c b <> "".
Proof. destruct a; discriminate. Qed.

Lemma counted_nonempty (n : Z) (word : string) : ModerationEmbeds.counted n word <> "".
Proof. unfold ModerationEmbeds.counted. apply append_nonempty. Qed.

Lemma formatDuration_nonempty (seconds : option Z) :
  ModerationEmbeds.formatDuration seconds <> "".
Proof.
  unfold ModerationEmbeds.formatDuration. destruct seconds as [seconds|]; [|discriminate].
  repeat case_match; apply counted_nonempty.
Qed.

Lemma reasonText_nonempty (payload : ModerationEmbeds.ModerationEventPayload) :
  ModerationEmbeds.reasonText payload <> "" /\
  (Js.truthy (ModerationEmbeds.reason payload) = true ->
   Some (ModerationEmbeds.reasonText payload) = ModerationEmbeds.reason payload) /\
  (Js.truthy (ModerationEmbeds.reason payload) = false ->
   ModerationEmbeds.reasonText payload = "No reason provided").
Proof.
  unfold ModerationEmbeds.reasonText.
  destruct (ModerationEmbeds.reason payload) as [[|c r]|]; cbn;
    repeat split; try discriminate; reflexivity.
Qed.

(** X17.  A duration of [seconds >= 0] is shown as a whole count of the
    largest of second, minute, hour and day that does not exceed it
    (seconds below one minute), rounded down, with the plural [s]
    unless the count is 1. *)
Theorem formatDuration_units :
  forall seconds, 0 <= seconds ->
    exists n word size,
      In (word, size) durationUnits /\
      ModerationEmbeds.formatDuration (Some seconds)
      = Js.show n +:+ " " +:+ word +:+ (if n =? 1 then "" else "s") /\
      size * n <= seconds < size * (n + 1) /\
      (size = 1 \/ size <= seconds) /\
      (forall word' size', In (word', size') durationUnits ->
         size' <= seconds -> size' <= size).
Proof.
  intros seconds Hpos. unfold ModerationEmbeds.formatDuration, ModerationEmbeds.counted.
  assert (Hunits : forall (size : Z) word' size',
            In (word', size') durationUnits ->
            (forall s, In s [1; 60; 3600; 86400] -> s <= seconds -> s <= size) ->
            size' <= seconds -> size' <= size).
  { intros size word' size' Hin Hall. apply Hall.
    cbn in Hin |- *. intuition congruence. }
  destruct (seconds <? 60) eqn:H1; [apply Z.ltb_lt in H1 | apply Z.ltb_ge in H1].
  { exists seconds, "second", 1. split; [cbn; auto|].
    split; [destruct (seconds =? 1); reflexivity|].
    split; [lia|]. split; [left; reflexivity|].
    intros w s Hin. apply (Hunits 1 w s Hin). cbn. intros s' Hs'. lia. }
  destruct (seconds <? 3600) eqn:H2; [apply Z.ltb_lt in H2 | apply Z.ltb_ge in H2].
  { exists (seconds / 60), "minute", 60. split; [cbn; auto|].
    split; [cbv zeta; destruct (seconds / 60 =? 1); reflexivity|].
    pose proof (Z.div_mod seconds 60 ltac:(lia)).
    pose proof (Z.mod_pos_bound seconds 60 ltac:(lia)).
    split; [lia|]. split; [right; lia|].
    intros w s Hin. apply (Hunits 60 w s Hin). cbn. intros s' Hs'. lia. }
  destruct (seconds <? 86400) eqn:H3; [apply Z.ltb_lt in H3 | apply Z.ltb_ge in H3].
  { exists (seconds / 3600), "hour", 3600. split; [cbn; auto|].
    split; [cbv zeta; destruct (seconds / 3600 =? 1); reflexivity|].
    pose proof (Z.div_mod seconds 3600 ltac:(lia)).
    pose proof (Z.mod_pos_bound seconds 3600 ltac:(lia)).
    split; [lia|]. split; [right; lia|].
    intros w s Hin. apply (Hunits 3600 w s Hin). cbn. intros s' Hs'. lia. }
  exists (seconds / 86400), "day", 86400. split; [cbn; auto 6|].
  split; [cbv zeta; destruct (seconds / 86400 =? 1); reflexivity|].
  pose proof (Z.div_mod seconds 86400 ltac:(lia)).
  pose proof (Z.mod_pos_bound seconds 86400 ltac:(lia)).
  split; [lia|]. split; [right; lia|].
  intros w s Hin. apply (Hunits 86400 w s Hin). cbn. intros s' Hs'. lia.
Qed.

Lemma formatDuration_units_witness :
  exists n word size,
    In (word, size) durationUnits /\
    ModerationEmbeds.formatDuration (Some 5400)
    = Js.show n +:+ " " +:+ word +:+ (if n =? 1 then "" else "s") /\
    size * n <= 5400 < size * (n + 1) /\
    (size = 1 \/ size <= 5400) /\
    (forall word' size', In (word', size') durationUnits -> size' <= 5400 -> size' <= size).
Proof. apply (formatDuration_units 5400). lia. Defined.

(** X18.  Each of the six moderation builders yields exactly one embed; its
    fields start with Player (name and Steam ID), Moderator and Reason;
    the Reason is never empty, being the reason given or, when that is
    missing or empty, the text [No reason provided]; at most one further
    field follows (Duration or Severity), never empty; the embed carries
    the timestamp of the event. *)
Theorem moderation_embed_fields :
  Forall
    (fun build =>
       forall payload : ModerationEmbeds.ModerationEventPayload,
       exists embed who moderator why extra,
         ModerationEmbeds.embeds (build payload) = [embed] /\
         ModerationEmbeds.fields embed = who :: moderator :: why :: extra /\
         ModerationEmbeds.fieldName who = "Player" /\
         ModerationEmbeds.value who
         = ModerationEmbeds.name (ModerationEmbeds.player payload) +:+ " (`"
           +:+ ModerationEmbeds.steam64Id (ModerationEmbeds.player payload) +:+ "`)" /\
         ModerationEmbeds.fieldName moderator = "Moderator" /\
         ModerationEmbeds.value moderator = ModerationEmbeds.adminName payload /\
         ModerationEmbeds.fieldName why = "Reason" /\
         ModerationEmbeds.value why <> "" /\
         (Js.truthy (ModerationEmbeds.reason payload) = true ->
          Some (ModerationEmbeds.value why) = ModerationEmbeds.reason payload) /\
         (Js.truthy (ModerationEmbeds.reason payload) = false ->
          ModerationEmbeds.value why = "No reason provided") /\
         (length extra <= 1)%nat /\
         Forall (fun field => ModerationEmbeds.value field <> "") extra /\
         ModerationEmbeds.embedTimestamp embed = ModerationEmbeds.timestamp payload)
    moderationBuilders.
Proof.
  assert (Hcommon : forall title color extra payload,
            (length extra <= 1)%nat ->
            Forall (fun field => ModerationEmbeds.value field <> "") extra ->
            exists embed who moderator why extra',
              ModerationEmbeds.embeds
                (ModerationEmbeds.oneEmbed title color
                   (ModerationEmbeds.commonFields payload ++ extra) payload) = [embed] /\
              ModerationEmbeds.fields embed = who :: moderator :: why :: extra' /\
              ModerationEmbeds.fieldName who = "Player" /\
              ModerationEmbeds.value who
              = ModerationEmbeds.name (ModerationEmbeds.player payload) +:+ " (`"
                +:+ ModerationEmbeds.steam64Id (ModerationEmbeds.player payload) +:+ "`)" /\
              ModerationEmbeds.fieldName moderator = "Moderator" /\
              ModerationEmbeds.value moderator = ModerationEmbeds.adminName payload /\
              ModerationEmbeds.fieldName why = "Reason" /\
              ModerationEmbeds.value why <> "" /\
              (Js.truthy (ModerationEmbeds.reason payload) = true ->
               Some (ModerationEmbeds.value why) = ModerationEmbeds.reason payload) /\
              (Js.truthy (ModerationEmbeds.reason payload) = false ->
               ModerationEmbeds.value why = "No reason provided") /\
              (length extra' <= 1)%nat /\
              Forall (fun field => ModerationEmbeds.value field <> "") extra' /\
              ModerationEmbeds.embedTimestamp embed = ModerationEmbeds.timestamp payload).
  { intros title color extra payload Hlen Hne.
    destruct (reasonText_nonempty payload) as (Hr1 & Hr2 & Hr3).
    unfold ModerationEmbeds.oneEmbed, ModerationEmbeds.commonFields.
    do 4 eexists. exists extra.
    split; [reflexivity|]. split; [reflexivity|].
    cbn [ModerationEmbeds.fieldName ModerationEmbeds.value ModerationEmbeds.embedTimestamp].
    unfold ModerationEmbeds.formatPlayer. tauto. }
  assert (Hduration : forall payload,
            Forall (fun field => ModerationEmbeds.value field <> "")
                   [ModerationEmbeds.durationField payload]).
  { intros payload. constructor; [apply formatDuration_nonempty | constructor]. }
  unfold moderationBuilders. repeat constructor; intros payload.
  - apply Hcommon; [cbn; lia | apply Hduration].
  - unfold ModerationEmbeds.buildBanRemovedEmbed.
    rewrite <- (app_nil_r (ModerationEmbeds.commonFields payload)).
    apply Hcommon; [cbn; lia | constructor].
  - unfold ModerationEmbeds.buildKickCreatedEmbed.
    rewrite <- (app_nil_r (ModerationEmbeds.commonFields payload)).
    apply Hcommon; [cbn; lia | constructor].
  - unfold ModerationEmbeds.buildWarnCreatedEmbed. cbv zeta.
    destruct (ModerationEmbeds.severity payload) as [level|].
    + apply Hcommon; [cbn; lia|]. constructor; [apply append_nonempty | constructor].
    + rewrite <- (app_nil_r (ModerationEmbeds.commonFields payload)).
      apply Hcommon; [cbn; lia | constructor].
  - apply Hcommon; [cbn; lia | apply Hduration].
  - unfold ModerationEmbeds.buildMuteRemovedEmbed.
    rewrite <- (app_nil_r (ModerationEmbeds.commonFields payload)).
    apply Hcommon; [cbn; lia | constructor].
Qed.

Lemma regionalIndicator_letter (c : ascii) :
  letter c = true ->
  JsString.fromCodePoint (127462 + JsString.code (JsString.upperChar c) - 65)%N
  = regionalIndicator (letterIndex c).
Proof.
  destruct c as [[|] [|] [|] [|] [|] [|] [|] [|]];
    intros H; vm_compute in H; try discriminate H; vm_compute; reflexivity.
Qed.

Lemma letterIndex_bound (c : ascii) : letter c = true -> (letterIndex c < 26)%N.
Proof.
  destruct c as [[|] [|] [|] [|] [|] [|] [|] [|]];
    intros H; vm_compute in H; try discriminate H; vm_compute; reflexivity.
Qed.

(** X19.  A country code of two ASCII letters, in either case, becomes the two
    regional indicator symbols of its letters (U+1F1E6 plus the position
    in the alphabet, in UTF-8), and [formatPlayerName] puts this flag and
    a space before the name when flags are shown; without a country code,
    or with flags switched off, the name is left as it is. *)
Theorem countryCodeToFlag_letters :
  forall (a b : ascii) (playerName : string),
    letter a = true -> letter b = true ->
    let code := Some (String a (String b "")) in
    let flag := regionalIndicator (letterIndex a) +:+ regionalIndicator (letterIndex b) in
    PlayerActivity.countryCodeToFlag code = flag /\
    (letterIndex a < 26)%N /\ (letterIndex b < 26)%N /\
    PlayerActivity.formatPlayerName playerName code true = flag +:+ " " +:+ playerName /\
    PlayerActivity.formatPlayerName playerName code false = playerName /\
    PlayerActivity.formatPlayerName playerName None true = playerName.
Proof.
  intros a b playerName Ha Hb code flag.
  assert (Hflag : PlayerActivity.countryCodeToFlag code = flag).
  { unfold code, flag.
    change (PlayerActivity.countryCodeToFlag (Some (String a (String b ""))))
      with (JsString.fromCodePoint (127462 + JsString.code (JsString.upperChar a) - 65)%N
            +:+ (JsString.fromCodePoint
                   (127462 + JsString.code (JsString.upperChar b) - 65)%N +:+ "")).
    rewrite (regionalIndicator_letter a Ha), (regionalIndicator_letter b Hb).
    reflexivity. }
  split; [exact Hflag|].
  split; [apply letterIndex_bound, Ha|]. split; [apply letterIndex_bound, Hb|].
  unfold PlayerActivity.formatPlayerName. rewrite Hflag.
  repeat split; reflexivity.
Qed.

Lemma countryCodeToFlag_letters_witness :
  let code := Some "de" in
  let flag := regionalIndicator (letterIndex "d") +:+ regionalIndicator (letterIndex "e") in
  PlayerActivity.countryCodeToFlag code = flag /\
  (letterIndex "d" < 26)%N /\ (letterIndex "e" < 26)%N /\
  PlayerActivity.formatPlayerName "Bob" code true = flag +:+ " " +:+ "Bob" /\
  PlayerActivity.formatPlayerName "Bob" code false = "Bob" /\
  PlayerActivity.formatPlayerName "Bob" None true = "Bob".
Proof. apply (countryCodeToFlag_letters "d" "e" "Bob"); reflexivity. Defined.

End EmbedFacts.

(** ** discord-server-status: the configured threshold *)

Section ServerStatusThreshold.
Import Net Sdk FormatSpec.

(** X20.  [playerCountThreshold] is a field of the configuration that nothing
    reads: with the builders of [discord.ts], the answer and the effects
    of each of the three server-status handlers, and of the handler
    [createHandler] returns, are the same whatever threshold is
    configured.  In particular a player-count update is forwarded or not
    by [notifyOnPlayerCountChange] alone, however small the change. *)
Theorem server_status_threshold_unused :
  forall (E : Externals) (view : Js.Json -> ServerEmbeds.GameServerEventPayload)
         (connected disconnected updated : string)
         (ctx : ServerStatus.HandlerContext) (threshold : option Z) (net : Network),
    let C := ServerEmbeds.collaborators view connected disconnected updated in
    let ctx' := withThreshold ctx threshold in
    (forall payload,
       ServerStatus.onConnected (C := C) ctx' net payload
       = ServerStatus.onConnected (C := C) ctx net payload /\
       ServerStatus.onDisconnected (C := C) ctx' net payload
       = ServerStatus.onDisconnected (C := C) ctx net payload /\
       ServerStatus.onUpdated (C := C) ctx' net payload
       = ServerStatus.onUpdated (C := C) ctx net payload) /\
    (forall rawBody headers,
       ServerStatus.createHandler (C := C) ctx' net rawBody headers
       = ServerStatus.createHandler (C := C) ctx net rawBody headers).
Proof.
  intros E view connected disconnected updated ctx threshold net C ctx'.
  assert (Hhandlers : forall payload,
       ServerStatus.onConnected (C := C) ctx' net payload
       = ServerStatus.onConnected (C := C) ctx net payload /\
       ServerStatus.onDisconnected (C := C) ctx' net payload
       = ServerStatus.onDisconnected (C := C) ctx net payload /\
       ServerStatus.onUpdated (C := C) ctx' net payload
       = ServerStatus.onUpdated (C := C) ctx net payload).
  { intros payload. destruct ctx as [[] secret]. repeat split; reflexivity. }
  split; [exact Hhandlers|].
  intros rawBody headers. unfold ServerStatus.createHandler.
  replace (ServerStatus.registry (C := C) ctx' net)
    with (ServerStatus.registry (C := C) ctx net); [reflexivity|].
  unfold ServerStatus.registry.
  assert (Hc : ServerStatus.onConnected (C := C) ctx' net
               = ServerStatus.onConnected (C := C) ctx net).
  { destruct ctx as [[] secret]. reflexivity. }
  assert (Hd : ServerStatus.onDisconnected (C := C) ctx' net
               = ServerStatus.onDisconnected (C := C) ctx net).
  { destruct ctx as [[] secret]. reflexivity. }
  assert (Hu : ServerStatus.onUpdated (C := C) ctx' net
               = ServerStatus.onUpdated (C := C) ctx net).
  { destruct ctx as [[] secret]. reflexivity. }
  rewrite Hc, Hd, Hu. reflexivity.
Qed.

End ServerStatusThreshold.

(** ** What the relay handler reports *)

Section RelayReportFacts.
Import Net Sdk Spec Trace.

Lemma relay_run_attempts_requests {B} (net : Network) url (body : B) headers options :
  requests (snd (Relay.sendRelayRequest net url body headers options)) <> 0%nat ->
  Z.of_nat (requests (snd (Relay.sendRelayRequest net url body headers options)))
  = Relay.attempts (fst (Relay.sendRelayRequest net url body headers options)).
Proof.
  unfold Relay.sendRelayRequest. cbv zeta.
  destruct (Z_le_gt_dec (Relay.maxAttemptsOf options) 0) as [Hle | Hgt].
  { replace (Z.to_nat (Relay.maxAttemptsOf options)) with 0%nat by lia.
    cbn. congruence. }
  intros _.
  destruct (relay_loop_shape net url body headers (Relay.maxAttemptsOf options)
              (Relay.baseDelayMsOf options) (Relay.timeoutMsOf options)
              (Z.to_nat (Relay.maxAttemptsOf options)) 1 "" None ltac:(lia))
    as (Hb & Hn & _ & _).
  cbv zeta in Hb, Hn.
  rewrite requests_fetchNumbers, Hn, length_seqZ. lia.
Qed.

Lemma relay_run_no_budget {B} (net : Network) url (body : B) headers options :
  Relay.maxAttemptsOf options <= 0 ->
  snd (Relay.sendRelayRequest net url body headers options) = [].
Proof.
  intros Hle. unfold Relay.sendRelayRequest. cbv zeta.
  replace (Z.to_nat (Relay.maxAttemptsOf options)) with 0%nat by lia. reflexivity.
Qed.

Lemma string_app_assoc (a b c : string) : (a +:+ b) +:+ c = a +:+ (b +:+ c).
Proof.
  induction a as [|x a IH]; [reflexivity|].
  change (String x ((a +:+ b) +:+ c) = String x (a +:+ (b +:+ c))).
  rewrite IH. reflexivity.
Qed.

(** The run of the relay loop entered at attempt [a] with at least one
    iteration to go: the attempt the result names, what came before it,
    and what the result carries. *)
Lemma relay_loop_outcome {B} (net : Network) url (body : B) headers
    (maxA base timeout : Z) (r : nat) : forall a le ls,
  a + Z.of_nat (S r) = maxA + 1 ->
  let res := fst (Relay.attemptLoop net url body headers maxA base timeout (S r) a le ls) in
  a <= Relay.attempts res <= maxA /\
  (forall j, a <= j < Relay.attempts res ->
     failsRetryably (relayObserved timeout net j) = true) /\
  (Relay.success res = true ->
   exists status text,
     relayObserved timeout net (Relay.attempts res) = Responded status text /\
     Js.ok status = true /\ Relay.statusCode res = Some status) /\
  (Relay.success res = false ->
   Relay.error res
   = Some (recorded (Relay.caught timeout) (relayObserved timeout net (Relay.attempts res)))).
Proof.
  induction r as [|r IH]; intros a le ls Ha; cbv zeta.
  - cbn [Relay.attemptLoop].
    destruct (Relay.attemptOnce net timeout a ls) as [res | le' ls'] eqn:E.
    + destruct (relay_once_return_cases _ _ _ _ _ E)
        as (status & text & Hobs & [[Hok ->] | (Hok & Hno & ->)]);
        cbn [fst Relay.attempts Relay.success Relay.error Relay.statusCode].
      * split; [lia|]. split; [intros j Hj; lia|].
        split; [intros _; eauto | discriminate].
      * split; [lia|]. split; [intros j Hj; lia|].
        split; [discriminate | intros _; rewrite Hobs; reflexivity].
    + pose proof (relay_once_continue_retryable _ _ _ _ _ _ E) as Hretry.
      rewrite (relay_once_retry net timeout a ls Hretry) in E. injection E as <- <-.
      cbn [fst Relay.attempts Relay.success Relay.error Relay.statusCode].
      assert (maxA = a) as -> by lia.
      split; [lia|]. split; [intros j Hj; lia|].
      split; [discriminate | intros _; reflexivity].
  - change (Relay.attemptLoop net url body headers maxA base timeout (S (S r)) a le ls)
      with (match Relay.attemptOnce net timeout a ls with
            | Relay.Return res => (res, [EvFetch a url headers body])
            | Relay.Continue le' ls' =>
                let '(res, tr) :=
                  Relay.attemptLoop net url body headers maxA base timeout (S r) (a + 1)
                    le' ls' in
                (res, EvFetch a url headers body :: backoff maxA base a ++ tr)
            end).
    destruct (Relay.attemptOnce net timeout a ls) as [res | le' ls'] eqn:E.
    + destruct (relay_once_return_cases _ _ _ _ _ E)
        as (status & text & Hobs & [[Hok ->] | (Hok & Hno & ->)]);
        cbn [fst Relay.attempts Relay.success Relay.error Relay.statusCode].
      * split; [lia|]. split; [intros j Hj; lia|].
        split; [intros _; eauto | discriminate].
      * split; [lia|]. split; [intros j Hj; lia|].
        split; [discriminate | intros _; rewrite Hobs; reflexivity].
    + pose proof (relay_once_continue_retryable _ _ _ _ _ _ E) as Hretry.
      specialize (IH (a + 1) le' ls' ltac:(lia)). cbv zeta in IH.
      destruct (Relay.attemptLoop net url body headers maxA base timeout (S r) (a + 1)
                  le' ls') as [res tr].
      cbn [fst] in *. destruct IH as (Hb & Hall & Hs & Hf).
      split; [lia|]. split; [|split; assumption].
      intros j Hj. destruct (Z.eq_dec j a) as [-> | Hne]; [exact Hretry | apply Hall; lia].
Qed.

(** X21.  What the relay handler answers once it has issued a request:
    it always returns a response; [n], the number of requests issued, is
    at most [maxRetries] (3 by default), and the attempts before the
    last all failed retryably.  A success names the status of the
    response to request [n], which is a 2xx status (the text [target]
    never appears), and, when more than one request was needed, their
    number; a failure names the number of requests issued and ends with
    the error of request [n]: its HTTP status and body, the message of
    the fault, or the timeout text. *)
Theorem relay_report_outcome :
  forall (E : Externals) ctx net rawBody (headers : gmap string string),
    let config := RelayTypes.config ctx in
    let timeout := default 30000 (RelayTypes.timeoutMs config) in
    let answer := RelayHandler.handleWebhook ctx net rawBody headers in
    let n := Z.of_nat (requests (snd answer)) in
    requests (snd answer) <> 0%nat ->
    exists response,
      fst answer = Js.Returned response /\
      1 <= n <= default 3 (RelayTypes.maxRetries config) /\
      (forall j, 1 <= j < n -> failsRetryably (relayObserved timeout net j) = true) /\
      (ok response = true ->
       exists status text,
         relayObserved timeout net n = Responded status text /\
         200 <= status <= 299 /\
         message response
         = "Relayed to (" +:+ Js.show status +:+ ")"
           +:+ (if 1 <? n then " (" +:+ Js.show n +:+ " attempts)" else "")) /\
      (ok response = false ->
       message response
       = "Relay failed after " +:+ Js.show n +:+ " attempt"
         +:+ (if n =? 1 then "" else "s") +:+ ": "
         +:+ recorded (Relay.caught timeout) (relayObserved timeout net n)).
Proof.
  intros E ctx net rawBody headers config timeout answer n.
  assert (Hrelay : let answer := RelayHandler.relay ctx net rawBody headers in
                   let n := Z.of_nat (requests (snd answer)) in
    requests (snd answer) <> 0%nat ->
    exists response,
      fst answer = Js.Returned response /\
      1 <= n <= default 3 (RelayTypes.maxRetries config) /\
      (forall j, 1 <= j < n -> failsRetryably (relayObserved timeout net j) = true) /\
      (ok response = true ->
       exists status text,
         relayObserved timeout net n = Responded status text /\
         200 <= status <= 299 /\
         message response
         = "Relayed to (" +:+ Js.show status +:+ ")"
           +:+ (if 1 <? n then " (" +:+ Js.show n +:+ " attempts)" else "")) /\
      (ok response = false ->
       message response
       = "Relay failed after " +:+ Js.show n +:+ " attempt"
         +:+ (if n =? 1 then "" else "s") +:+ ": "
         +:+ recorded (Relay.caught timeout) (relayObserved timeout net n))).
  { clear answer n. cbv zeta. unfold RelayHandler.relay. fold config.
    destruct (JSON_parse rawBody) as [decoded | e]; [|cbn; congruence].
    destruct (negb (Js.truthy _)); [cbn; congruence|].
    destruct decoded as [|payload]; [cbn; congruence|].
    destruct (negb (Relay.matchesEventPatterns _ _)); [cbn; congruence|].
    match goal with
    | |- context [Relay.sendRelayRequest ?nt ?u ?b ?h ?o] =>
        pose proof (relay_run_attempts_requests nt u b h o) as Hreq;
        pose proof (relay_run_no_budget nt u b h o) as Hzero;
        pose proof (relay_loop_outcome nt u b h
                      (Relay.maxAttemptsOf o) (Relay.baseDelayMsOf o) (Relay.timeoutMsOf o)
                      (Z.to_nat (Relay.maxAttemptsOf o - 1)) 1 "" None) as Hout;
        change (Relay.maxAttemptsOf o) with (default 3 (RelayTypes.maxRetries config)) in *;
        change (Relay.timeoutMsOf o) with timeout in *;
        set (o' := o) in *;
        assert (Hrun : 1 <= default 3 (RelayTypes.maxRetries config) ->
                  Relay.sendRelayRequest nt u b h o'
                  = Relay.attemptLoop nt u b h (default 3 (RelayTypes.maxRetries config))
                      (Relay.baseDelayMsOf o') timeout
                      (S (Z.to_nat (default 3 (RelayTypes.maxRetries config) - 1))) 1 "" None)
          by (intros Hone; unfold Relay.sendRelayRequest; cbv zeta;
              change (Relay.maxAttemptsOf o')
                with (default 3 (RelayTypes.maxRetries config));
              change (Relay.timeoutMsOf o') with timeout;
              replace (Z.to_nat (default 3 (RelayTypes.maxRetries config)))
                with (S (Z.to_nat (default 3 (RelayTypes.maxRetries config) - 1))) by lia;
              reflexivity);
        destruct (Relay.sendRelayRequest nt u b h o') as [result tr] eqn:Hsend
    end.
    cbn [fst snd] in *.
    change (requests (EvParse rawBody :: tr)) with (requests tr).
    intros Hne. specialize (Hreq Hne).
    assert (Hbudget : 1 <= default 3 (RelayTypes.maxRetries config)).
    { destruct (Z_le_gt_dec 1 (default 3 (RelayTypes.maxRetries config)))
        as [|Hgt]; [assumption|].
      exfalso. apply Hne. rewrite Hzero by lia. reflexivity. }
    specialize (Hout ltac:(lia)). cbv zeta in Hout.
    rewrite <- (Hrun Hbudget) in Hout. cbn [fst] in Hout.
    destruct Hout as (Hb & Hall & Hs & Hf). rewrite <- Hreq in Hall, Hs, Hf.
    eexists. split; [reflexivity|]. split; [lia|]. split; [exact Hall|].
    destruct (Relay.success result) eqn:Hsucc; cbn [negb ok message errorResponse
      successResponse].
    - split; [intros _ | discriminate].
      destruct (Hs eq_refl) as (status & text & Hobs & Hok & Hcode).
      exists status, text. split; [exact Hobs|].
      unfold Js.ok in Hok. apply andb_true_iff in Hok as [H1 H2].
      apply Z.leb_le in H1, H2. split; [lia|].
      unfold RelayHandler.formatSuccessMessage. rewrite Hcode, <- Hreq.
      cbn [Js.truthyNum default from_option id].
      replace (status =? 0) with false by (symmetry; apply Z.eqb_neq; lia).
      cbn [negb]. destruct (1 <? Z.of_nat (requests tr)).
      + rewrite !string_app_assoc. reflexivity.
      + reflexivity.
    - split; [discriminate | intros _].
      unfold RelayHandler.formatErrorMessage. rewrite (Hf eq_refl), <- Hreq.
      destruct (Z.of_nat (requests tr) =? 1); reflexivity. }
  unfold answer, n, RelayHandler.handleWebhook in *.
  destruct (Js.truthy (RelayTypes.webhookSecret ctx)); [|exact Hrelay].
  destruct (negb (Js.truthy _)); [cbn; congruence|].
  destruct (negb (verifyWebhookSignature _ _ _)); [cbn; congruence | exact Hrelay].
Qed.

Lemma relay_report_outcome_witness :
  let ctx := {| RelayTypes.config := Sample.relayConfig; RelayTypes.webhookSecret := None |} in
  let net := Sample.script [Responded 503 None; Responded 204 None] in
  let config := RelayTypes.config ctx in
  let timeout := default 30000 (RelayTypes.timeoutMs config) in
  let answer := RelayHandler.handleWebhook (E := Sample.externals) ctx net "chat.message" ∅ in
  let n := Z.of_nat (requests (snd answer)) in
  exists response,
    fst answer = Js.Returned response /\
    1 <= n <= default 3 (RelayTypes.maxRetries config) /\
    (forall j, 1 <= j < n -> failsRetryably (relayObserved timeout net j) = true) /\
    (ok response = true ->
     exists status text,
       relayObserved timeout net n = Responded status text /\
       200 <= status <= 299 /\
       message response
       = "Relayed to (" +:+ Js.show status +:+ ")"
         +:+ (if 1 <? n then " (" +:+ Js.show n +:+ " attempts)" else "")) /\
    (ok response = false ->
     message response
     = "Relay failed after " +:+ Js.show n +:+ " attempt"
       +:+ (if n =? 1 then "" else "s") +:+ ": "
       +:+ recorded (Relay.caught timeout) (relayObserved timeout net n)).
Proof.
  intros ctx net.
  apply (relay_report_outcome Sample.externals ctx net "chat.message" ∅).
  vm_compute. discriminate.
Defined.

(** A 503 followed by a 204 is reported with the status and both attempts. *)
Example relay_reports_status_and_attempts :
  fst (RelayHandler.handleWebhook (E := Sample.externals)
         {| RelayTypes.config := Sample.relayConfig; RelayTypes.webhookSecret := None |}
         (Sample.script [Responded 503 None; Responded 204 None]) "chat.message" ∅)
  = Js.Returned {| ok := true; message := "Relayed to (204) (2 attempts)" |}.
Proof. vm_compute. reflexivity. Qed.

End RelayReportFacts.

(** ** Worked examples of the formatting code *)

Section FormatScenarios.
Import Net Sdk.

Example chat_message_is_forwarded_escaped :
  ChatBridge.onChatMessage FormatSample.chatContext (Sample.always (Responded 204 None))
    FormatSample.chatEvent
  = (Js.Returned {| ok := true; message := "Sent to Discord" |},
     [EvFetch 1 "https://discord.test/api/webhooks/3" Discord.jsonHeaders
        {| ChatBridge.content := Some "[Group] **x\_y**: hello \*all\*";
           ChatBridge.embeds := None |}]).
Proof. vm_compute. reflexivity. Qed.

Example warning_without_reason :
  map (fun field => (ModerationEmbeds.fieldName field, ModerationEmbeds.value field))
      (concat (map ModerationEmbeds.fields
                 (ModerationEmbeds.embeds
                    (ModerationEmbeds.buildWarnCreatedEmbed FormatSample.warning))))
  = [("Player", "Bob (`76561198000000001`)"); ("Moderator", "Alice");
     ("Reason", "No reason provided"); ("Severity", "3/5")].
Proof. vm_compute. reflexivity. Qed.

Example ban_of_ninety_minutes :
  ModerationEmbeds.value (ModerationEmbeds.durationField FormatSample.warning) = "1 hour".
Proof. vm_compute. reflexivity. Qed.

End FormatScenarios.
